(** * findmycells.inspection: representative selection, crop windows,
      plot info and figure assembly

    A shallow embedding of [image_analysis_pipeline/findmycells/inspection.py]
    and the properties its specification states about it.

    Python integers are [Z]; a label volume (a 3-D numpy array) is a list of
    planes, a plane a list of rows, a row a list of cell values; exceptions
    are the [Raise] results of [Py.result]; numpy arrays that the code copies
    and slices live in a store of buffers, so that aliasing is visible. *)

From stdpp Require Import base option list sorting gmap strings pretty.
From Stdlib Require Import ZArith Lia.

Open Scope Z_scope.

(** ** Python primitives *)

Module Py.

(** The exceptions the modelled code can raise; [OSError] is what pyplot
    raises when it cannot write a file (FileNotFoundError, PermissionError);
    [Unallocated] stands for the use of an array that the store does not
    hold, which Python rules out and which the model reports instead of
    inventing a value. *)
Inductive exn : Set :=
  IndexError | KeyError | ValueError | OSError | Unallocated.

Inductive result (A : Type) : Type :=
| Ok (a : A)
| Raise (e : exn).
Arguments Ok {A} a.
Arguments Raise {A} e.

Definition bind {A B} (m : result A) (k : A → result B) : result B :=
  match m with
  | Ok a => k a
  | Raise e => Raise e
  end.

#[global] Instance result_ret : MRet result := @Ok.
#[global] Instance result_bind : MBind result := λ A B k m, bind m k.

(** [l[i]]: a negative index counts from the end of the list. *)
Definition index {A} (l : list A) (i : Z) : result A :=
  let n := Z.of_nat (length l) in
  let j := if i <? 0 then i + n else i in
  if (j <? 0) || (n <=? j) then Raise IndexError
  else match l !! Z.to_nat j with
       | Some a => Ok a
       | None => Raise IndexError
       end.

(** [l.remove(x)]: drops the first element equal to [x]. *)
Fixpoint remove `{EqDecision A} (x : A) (l : list A) : result (list A) :=
  match l with
  | [] => Raise ValueError
  | y :: l' => if decide (y = x) then Ok l'
               else l'' ← remove x l'; Ok (y :: l'')
  end.

(** One bound of a slice [l[lo:hi]] on a sequence of length [n]. *)
Definition slice_bound (n i : Z) : Z :=
  if i <? 0 then Z.max 0 (i + n) else Z.min i n.

(** [l[lo:hi]] *)
Definition slice {A} (lo hi : Z) (l : list A) : list A :=
  let n := Z.of_nat (length l) in
  let a := slice_bound n lo in
  let b := slice_bound n hi in
  take (Z.to_nat (b - a)) (drop (Z.to_nat a) l).

(** [range(n)] *)
Definition range (n : nat) : list nat := seq 0 n.

(** A [dict]: keys in insertion order, at most one binding per key. *)
Definition dict (K V : Type) : Type := list (K * V).

Fixpoint get `{EqDecision K} {V} (d : dict K V) (k : K) : option V :=
  match d with
  | [] => None
  | (k', v) :: d' => if decide (k' = k) then Some v else get d' k
  end.

(** [d[k]] *)
Definition getitem `{EqDecision K} {V} (d : dict K V) (k : K) : result V :=
  match get d k with
  | Some v => Ok v
  | None => Raise KeyError
  end.

(** [d[k] = v]: an existing key keeps its position. *)
Fixpoint setitem `{EqDecision K} {V} (d : dict K V) (k : K) (v : V)
  : dict K V :=
  match d with
  | [] => [(k, v)]
  | (k', v') :: d' => if decide (k' = k) then (k, v) :: d'
                      else (k', v') :: setitem d' k v
  end.

Definition keys {K V} (d : dict K V) : list K := d.*1.

End Py.

Import Py.

(** ** numpy primitives *)

Abbreviation Plane := (list (list Z)).
Abbreviation Volume := (list (list (list Z))).

Module Np.

(** Cells of a 2-D or 3-D array in C order. *)
Definition ravel2 (plane : Plane) : list Z := mjoin plane.
Definition ravel (a : Volume) : list Z := mjoin (ravel2 <$> a).

Fixpoint insert_unique (x : Z) (l : list Z) : list Z :=
  match l with
  | [] => [x]
  | y :: l' => if x <? y then x :: l
               else if x =? y then l
               else y :: insert_unique x l'
  end.

(** [np.unique]: the sorted distinct values of the cells. *)
Definition unique (cells : list Z) : list Z := foldr insert_unique [] cells.

(** The cells of a volume in C order, each with its first index. *)
Definition cells_with_plane (a : Volume) : list (nat * Z) :=
  mjoin (imap (λ z plane, (λ v, (z, v)) <$> ravel2 plane) a).

(** [np.where(a == x)[0]]: the first index of every cell equal to [x]. *)
Definition where_eq_axis0 (a : Volume) (x : Z) : list nat :=
  (filter (λ c, c.2 = x) (cells_with_plane a)).*1.

(** [a[:, minx:maxx, miny:maxy]] *)
Definition crop (a : Volume) (minx maxx miny maxy : Z) : Volume :=
  (λ plane, Py.slice miny maxy <$> Py.slice minx maxx plane) <$> a.

(** [a.shape[0]], [a.shape[1]] of a plane *)
Definition shape0 (plane : Plane) : Z := Z.of_nat (length plane).
Definition shape1 (plane : Plane) : Z :=
  Z.of_nat (length (default [] (head plane))).

End Np.

(** ** InspectionObject: the representative selector *)

(** [for background_id in [0, 0.0]]: both literals are the number zero. *)
Definition remove_background (label_ids : list Z) : result (list Z) :=
  foldl (λ acc background_id,
           ids ← acc;
           if decide (background_id ∈ ids)
           then Py.remove background_id ids else Ok ids)
        (Ok label_ids) [0; 0].

Definition get_label_id (zstack : Volume) (index : Z) : result Z :=
  let label_ids := Np.unique (Np.ravel zstack) in
  label_ids ← remove_background label_ids;
  Py.index label_ids index.

(** [int(len(...) / 2)] truncates the quotient, which is exact for any
    list that fits in memory. *)
Definition get_plane_id (zstack : Volume) (label_id : Z) : result nat :=
  let all_planes_with_label_id := Np.where_eq_axis0 zstack label_id in
  if decide (1 < length all_planes_with_label_id)%nat
  then Py.index all_planes_with_label_id
         (Z.quot (Z.of_nat (length all_planes_with_label_id)) 2)
  else Py.index all_planes_with_label_id 0.

(** The part of [InspectionObject.__init__] that selects the label and its
    representative plane from the loaded z-stack. *)
Definition select (zstack : Volume) (label_index : Z) : result (Z * nat) :=
  label_id ← get_label_id zstack label_index;
  plane_id ← get_plane_id zstack label_id;
  Ok (label_id, plane_id).

(** ** InspectReconstructedCells2D: the window clamper *)

Definition adjust_cropping_box_to_image_borders
    (centroid_coord max_value half_window_size : Z) : Z * Z :=
  if (centroid_coord - half_window_size >=? 0)
     && (centroid_coord + half_window_size <=? max_value)
  then (centroid_coord - half_window_size, centroid_coord + half_window_size)
  else if (centroid_coord - half_window_size <? 0)
          && (2 * half_window_size <=? max_value)
  then (0, 2 * half_window_size)
  else if (centroid_coord - 2 * half_window_size >=? 0)
          && (centroid_coord + half_window_size >? max_value)
  then (max_value - 2 * half_window_size, max_value)
  else (0, max_value).

(** Vocabulary of the specification: the plane indices on which a label
    occurs, ascending and without duplicates; the non-background labels. *)
Definition on_plane (label : Z) (plane : Plane) : Prop :=
  label ∈ Np.ravel2 plane.

#[global] Instance on_plane_dec label plane : Decision (on_plane label plane).
Proof. unfold on_plane. apply _. Defined.

Definition planes_of (zstack : Volume) (label : Z) : list nat :=
  mjoin (imap (λ z plane, if decide (on_plane label plane) then [z] else [])
              zstack).

(** The same plane indices, each listed once per cell of that plane that
    carries the label. *)
Definition cells_on_plane (label : Z) (plane : Plane) : nat :=
  length (filter (λ v, v = label) (Np.ravel2 plane)).

Definition cell_planes (zstack : Volume) (label : Z) : list nat :=
  mjoin (imap (λ z plane, replicate (cells_on_plane label plane) z) zstack).

Definition labels_of (zstack : Volume) : list Z :=
  filter (λ v, v ≠ 0) (Np.unique (Np.ravel zstack)).

(** The cell of a volume at (plane, row, column), if there is one. *)
Definition cell_at (a : Volume) (z i j : nat) : option Z :=
  plane ← a !! z; row ← plane !! i; row !! j.


(** ** Collaborators from [findmycells.utils] and the plotting surface

    [inspection.py] imports the polygon extractor, the colour assigner and
    the plane loader from [utils]; they are taken as an interface, and so
    is the file system that pyplot saves to. *)

Class Utils := {
  Polygon : Type;
  Coords : Type;
  Color : Type;
  (** [get_polygon_from_instance_segmentation(single_plane, label_id)] *)
  get_polygon_from_instance_segmentation : Plane → Z → result Polygon;
  (** [round(roi.centroid.x)], [round(roi.centroid.y)] *)
  centroid_x : Polygon → Z;
  centroid_y : Polygon → Z;
  (** [np.asarray(roi.boundary.xy[0])], [np.asarray(roi.boundary.xy[1])] *)
  boundary_x_coords_of : Polygon → Coords;
  boundary_y_coords_of : Polygon → Coords;
  (** [get_color_code(label_ids)] *)
  get_color_code : list Z → Py.dict Z Color;
  (** [load_zstack_as_array_from_single_planes(path, file_id, minx, ...)] *)
  load_zstack_as_array_from_single_planes :
    string → string → option (Z * Z * Z * Z) → Volume;
  (** whether a file can be written at the path: its directory exists and
      permits it *)
  writable : string → bool;
}.

Definition joinpath (dir name : string) : string := dir +:+ "/" +:+ name.

Inductive strategy_class : Set :=
| InspectReconstructedCells2D
| subclass (name : string).

Record Database := {
  quantified_segmentations_dir : string;
  preprocessed_images_dir : string;
  instance_segmentations_dir : string;
  inspected_area_plots_dir : string;
  (** [None] when the object has no attribute [inspection_strategies]. *)
  inspection_strategies : option (list strategy_class);
}.

(** A numpy array object: a buffer of the store seen through the slicings
    applied to it, outermost last. A slice shares its buffer. *)
Record ndarray := {
  buffer : positive;
  views : list (Z * Z * Z * Z);
}.

Record InspectionObject := {
  database : Database;
  file_id : string;
  area_roi_id : string;
  show : bool;
  save : bool;
  zstack : ndarray;
  label_id : Z;
  plane_id : nat;
}.

Fixpoint for_fold {A S} (l : list A) (body : S → A → result S) (s : S)
  : result S :=
  match l with
  | [] => Ok s
  | x :: l' => s' ← body s x; for_fold l' body s'
  end.

Section Inspection.
Context `{U : Utils}.

Record PlotEntry := {
  color : Color;
  boundary_x_coords : Coords;
  boundary_y_coords : Coords;
}.

Definition PlotInfo : Type := Py.dict nat (Py.dict Z PlotEntry).

(** *** Plot-info builder *)

(** The body of the inner loop of [get_plotting_info]. *)
Definition record_label_on_plane (zstack : Volume)
    (color_code : Py.dict Z Color) (label_id : Z)
    (plotting_info : PlotInfo) (plane_index : nat) : result PlotInfo :=
  plane ← Py.index zstack (Z.of_nat plane_index);
  if decide (label_id ∈ Np.unique (Np.ravel2 plane)) then
    roi ← get_polygon_from_instance_segmentation plane label_id;
    let boundary_x_coords := boundary_x_coords_of roi in
    let boundary_y_coords := boundary_y_coords_of roi in
    color ← Py.getitem color_code label_id;
    per_plane ← Py.getitem plotting_info plane_index;
    Ok (Py.setitem plotting_info plane_index
          (Py.setitem per_plane label_id
             {| color := color;
                boundary_x_coords := boundary_x_coords;
                boundary_y_coords := boundary_y_coords |}))
  else Ok plotting_info.

Definition get_plotting_info (zstack : Volume) : result PlotInfo :=
  let label_ids := Np.unique (Np.ravel zstack) in
  label_ids ← (if decide (0 ∈ label_ids)
               then Py.remove 0 label_ids else Ok label_ids);
  label_ids ← (if decide (0 ∈ label_ids)
               then Py.remove 0 label_ids else Ok label_ids);
  let color_code := get_color_code label_ids in
  let z_dim := length zstack in
  let plotting_info : PlotInfo :=
    foldl (λ info plane_index, Py.setitem info plane_index [])
          [] (Py.range z_dim) in
  for_fold label_ids (λ plotting_info label_id,
    for_fold (Py.range z_dim)
      (record_label_on_plane zstack color_code label_id) plotting_info)
    plotting_info.

(** The entry recorded under the key (plane index, label). *)
Definition entry_at (plotting_info : PlotInfo) (plane_index : nat)
    (label_id : Z) : option PlotEntry :=
  per_plane ← Py.get plotting_info plane_index; Py.get per_plane label_id.

(** What the builder holds once it has visited the pairs
    [visited label_id plane_index]. *)
Definition recorded (zstack : Volume) (color_code : Py.dict Z Color)
    (visited : Z → nat → Prop) (plotting_info : PlotInfo) : Prop :=
  (∀ z, is_Some (Py.get plotting_info z) ↔ (z < length zstack)%nat) ∧
  (∀ z l, is_Some (entry_at plotting_info z l)
          ↔ visited l z
            ∧ ∃ plane, zstack !! z = Some plane ∧ on_plane l plane) ∧
  (∀ z l e, entry_at plotting_info z l = Some e →
            Py.get color_code l = Some (color e)).

(** *** The world: array store, pyplot calls, standard output *)

Inductive plot_data :=
| array_data (a : Coords)
| list_data (l : list Z).

Inductive linewidth := lw_int (n : Z) | lw_str (s : string).

Inductive plt_call :=
| plt_figure (figsize : Z * Z) (facecolor : string)
| add_gridspec (nrows ncols : nat)
| add_subplot (row col : nat)
| imshow (img : Plane) (cmap : option string)
| ylabel (s : string)
| title (s : string)
| plot (x y : plot_data) (c : Color + string) (lw : linewidth)
| savefig (path : string) (dpi : Z)
| plt_show
| plt_close.

Record World := {
  heap : gmap positive Volume;
  plt : list plt_call;
  stdout : list string;
}.

Definition M (A : Type) : Type := World → result (A * World).

#[global] Instance M_ret : MRet M := λ A a w, Ok (a, w).
#[global] Instance M_bind : MBind M := λ A B k m w,
  match m w with
  | Ok (a, w') => k a w'
  | Raise e => Raise e
  end.

Definition lift {A} (r : result A) : M A := λ w,
  match r with
  | Ok a => Ok (a, w)
  | Raise e => Raise e
  end.

Definition emit (c : plt_call) : M unit := λ w,
  Ok ((), {| heap := heap w; plt := plt w ++ [c]; stdout := stdout w |}).

Definition print (s : string) : M unit := λ w,
  Ok ((), {| heap := heap w; plt := plt w; stdout := stdout w ++ [s] |}).

Definition raise {A} (e : exn) : M A := λ _, Raise e.

(** [fig.add_gridspec(nrows, ncols)]: pyplot refuses a grid without rows
    with a ValueError. *)
Definition plt_add_gridspec (nrows ncols : nat) : M unit :=
  if decide (nrows = 0%nat) then raise ValueError
  else emit (add_gridspec nrows ncols).

(** [plt.savefig(path, dpi=dpi)]: pyplot raises an OSError when it cannot
    write the file. *)
Definition plt_savefig (path : string) (dpi : Z) : M unit :=
  if writable path then emit (savefig path dpi) else raise OSError.

(** A new array object on a buffer of its own. *)
Definition np_alloc (v : Volume) : M ndarray := λ w,
  let l := fresh (dom (heap w)) in
  Ok ({| buffer := l; views := [] |},
      {| heap := <[l := v]> (heap w); plt := plt w; stdout := stdout w |}).

Definition view_of (v : Volume) (views : list (Z * Z * Z * Z)) : Volume :=
  foldl (λ v '(minx, maxx, miny, maxy), Np.crop v minx maxx miny maxy)
        v views.

(** The cells an array object shows. *)
Definition np_read (a : ndarray) : M Volume := λ w,
  match heap w !! buffer a with
  | Some v => Ok (view_of v (views a), w)
  | None => Raise Unallocated
  end.

(** [a.copy()] *)
Definition np_copy (a : ndarray) : M ndarray :=
  v ← np_read a; np_alloc v.

(** [a[:, minx:maxx, miny:maxy]]: a view on the buffer of [a]. *)
Definition np_slice (a : ndarray) (box : Z * Z * Z * Z) : ndarray :=
  {| buffer := buffer a; views := views a ++ [box] |}.

Definition np_load (path file_id : string) (box : option (Z * Z * Z * Z))
  : M ndarray :=
  np_alloc (load_zstack_as_array_from_single_planes path file_id box).

Fixpoint for_ {A} (l : list A) (body : A → M unit) : M unit :=
  match l with
  | [] => mret ()
  | x :: l' => body x;; for_ l' body
  end.

Definition when (b : bool) (m : M unit) : M unit :=
  if b then m else mret ().

(** *** InspectionObject *)

Definition load_postprocessed_segmentation
    (database : Database) (file_id area_roi_id : string) : M ndarray :=
  let path := joinpath (quantified_segmentations_dir database) area_roi_id in
  np_load path file_id None.

(** [InspectionObject.__init__] *)
Definition new_InspectionObject (database : Database)
    (file_id area_roi_id : string) (label_index : Z) (show save : bool)
  : M InspectionObject :=
  zstack ← load_postprocessed_segmentation database file_id area_roi_id;
  cells ← np_read zstack;
  label_id ← lift (get_label_id cells label_index);
  plane_id ← lift (get_plane_id cells label_id);
  mret {| database := database; file_id := file_id;
          area_roi_id := area_roi_id; show := show; save := save;
          zstack := zstack; label_id := label_id; plane_id := plane_id |}.

(** *** InspectReconstructedCells2D *)

Definition get_cropping_indices (inspection_object : InspectionObject)
  : M (Z * Z * Z * Z) :=
  let half_window_size := 200 in
  cells ← np_read (zstack inspection_object);
  single_plane ← lift (Py.index cells (Z.of_nat (plane_id inspection_object)));
  roi ← lift (get_polygon_from_instance_segmentation
                single_plane (label_id inspection_object));
  let centroid_x := centroid_x roi in
  let centroid_y := centroid_y roi in
  let max_x := Np.shape0 single_plane in
  let max_y := Np.shape1 single_plane in
  let '(cminx, cmaxx) :=
    adjust_cropping_box_to_image_borders centroid_x max_x half_window_size in
  let '(cminy, cmaxy) :=
    adjust_cropping_box_to_image_borders centroid_y max_y half_window_size in
  mret (cminx, cmaxx, cminy, cmaxy).

Definition plot_reconstructed_cells
    (preprocessed_zstack instance_seg_zstack final_labels_zstack : ndarray)
    (plotting_info : PlotInfo) (plane_id_of_interest : nat)
    (filepath : string) (save show : bool) : M unit :=
  preprocessed ← np_read preprocessed_zstack;
  instance_seg ← np_read instance_seg_zstack;
  final_labels ← np_read final_labels_zstack;
  let z_dim := length final_labels in
  emit (plt_figure (15, 5 * Z.of_nat z_dim) "white");;
  plt_add_gridspec z_dim 3;;
  for_ (Py.range z_dim) (λ plane_index,
    emit (add_subplot plane_index 0);;
    img ← lift (Py.index preprocessed (Z.of_nat plane_index));
    emit (imshow img None);;
    emit (ylabel ("plane_" +:+ pretty plane_index));;
    when (bool_decide (plane_index = 0%nat)) (emit (title "input image")));;
  for_ (Py.range z_dim) (λ plane_index,
    emit (add_subplot plane_index 1);;
    img ← lift (Py.index instance_seg (Z.of_nat plane_index));
    emit (imshow img None);;
    when (bool_decide (plane_index = 0%nat))
         (emit (title "instance segmentation")));;
  for_ (Py.range z_dim) (λ plane_index,
    emit (add_subplot plane_index 2);;
    img ← lift (Py.index final_labels (Z.of_nat plane_index));
    emit (imshow img (Some "Greys_r"));;
    per_plane ← lift (Py.getitem plotting_info plane_index);
    for_ (Py.keys per_plane) (λ label_id,
      entry ← lift (Py.getitem per_plane label_id);
      emit (plot (array_data (boundary_y_coords entry))
                 (array_data (boundary_x_coords entry))
                 (inl (color entry)) (lw_int 3)));;
    when (bool_decide (plane_index = plane_id_of_interest))
         (emit (plot (list_data [185; 215]) (list_data [200; 200])
                     (inr "red") (lw_str "3"));;
          emit (plot (list_data [200; 200]) (list_data [185; 215])
                     (inr "red") (lw_str "3")));;
    when (bool_decide (plane_index = 0%nat))
         (emit (title "connected components (color-coded)")));;
  when save
       (plt_savefig filepath 300;;
        print ("The resulting plot was successfully saved to: "
               +:+ filepath));;
  if show then emit plt_show else emit plt_close.

(** The array object that [run] plots as the final labels: a slice of a
    copy of the loaded z-stack. *)
Definition crop_zstack (inspection_object : InspectionObject)
    (box : Z * Z * Z * Z) : M ndarray :=
  cropped_zstack ← np_copy (zstack inspection_object);
  mret (np_slice cropped_zstack box).

Definition run (inspection_object : InspectionObject) : M unit :=
  box ← get_cropping_indices inspection_object;
  cropped_zstack ← crop_zstack inspection_object box;
  cells ← np_read cropped_zstack;
  plotting_info ← lift (get_plotting_info cells);
  cropped_preprocessed_zstack ←
    np_load (preprocessed_images_dir (database inspection_object))
            (file_id inspection_object) (Some box);
  cropped_instance_seg_zstack ←
    np_load (instance_segmentations_dir (database inspection_object))
            (file_id inspection_object) (Some box);
  let filepath :=
    joinpath (inspected_area_plots_dir (database inspection_object))
             (file_id inspection_object +:+ "_"
              +:+ area_roi_id inspection_object +:+ "_"
              +:+ pretty (label_id inspection_object) +:+ "_2D.png") in
  when (show inspection_object)
       (print ("Plot to inspect segmentation of label #"
               +:+ pretty (label_id inspection_object)
               +:+ " in area roi id " +:+ area_roi_id inspection_object
               +:+ " of file id #" +:+ file_id inspection_object +:+ ":"));;
  plot_reconstructed_cells cropped_preprocessed_zstack
    cropped_instance_seg_zstack cropped_zstack plotting_info
    (plane_id inspection_object) filepath
    (save inspection_object) (show inspection_object).

(** *** Running the strategies of the database *)

(** [subclass_run name] is [name().run]: the strategies that other
    modules define. *)
Context (subclass_run : string → InspectionObject → M unit).

Definition instantiate_and_run (inspection_strategy : strategy_class)
    (inspection_object : InspectionObject) : M unit :=
  match inspection_strategy with
  | InspectReconstructedCells2D => run inspection_object
  | subclass name => subclass_run name inspection_object
  end.

Definition run_all_inspection_steps (self : InspectionObject) : M unit :=
  match inspection_strategies (database self) with
  | Some strategies =>
      for_ strategies (λ inspection_strategy,
        instantiate_and_run inspection_strategy self)
  | None => mret ()
  end.

(** [self] is handed to every strategy of the list in turn, each starting
    from the world its predecessor left. *)
Inductive runs_each (self : InspectionObject)
  : list strategy_class → World → World → Prop :=
| runs_each_nil w : runs_each self [] w w
| runs_each_cons inspection_strategy strategies w w' w'' :
    instantiate_and_run inspection_strategy self w = Ok ((), w') →
    runs_each self strategies w' w'' →
    runs_each self (inspection_strategy :: strategies) w w''.

(** *** Reading the figure

    pyplot draws on the axes of the last [add_subplot]; [plt.figure] starts
    an empty figure. The marker strokes of a panel are the [plot] calls with
    literal coordinate lists issued while that panel is current. *)

Definition scan_step (panel : nat * nat)
    (s : option (nat * nat) * list plt_call) (c : plt_call)
  : option (nat * nat) * list plt_call :=
  match c with
  | plt_figure _ _ => (None, [])
  | add_subplot row col => (Some (row, col), s.2)
  | plot (list_data _) (list_data _) _ _ =>
      if decide (s.1 = Some panel) then (s.1, s.2 ++ [c]) else s
  | _ => s
  end.

Definition scan (panel : nat * nat) (calls : list plt_call)
  : option (nat * nat) * list plt_call :=
  foldl (scan_step panel) (None, []) calls.

Definition strokes_on (panel : nat * nat) (calls : list plt_call)
  : list plt_call := (scan panel calls).2.

(** A red crosshair centred at (cx, cy) with arms of length [arm]. *)
Definition crosshair (cx cy arm : Z) : list plt_call :=
  [plot (list_data [cx - arm; cx + arm]) (list_data [cy; cy])
        (inr "red") (lw_str "3");
   plot (list_data [cx; cx]) (list_data [cy - arm; cy + arm])
        (inr "red") (lw_str "3")].

(** (px, py) is the centre of the cropped panel: pyplot's horizontal axis
    runs along the columns [miny:maxy], its vertical axis along the rows
    [minx:maxx]. *)
Definition window_center (box : Z * Z * Z * Z) (px py : Z) : Prop :=
  let '(cminx, cmaxx, cminy, cmaxy) := box in
  2 * px = cmaxy - cminy ∧ 2 * py = cmaxx - cminx.

(** *** Reasoning about runs *)

(** Every completed run of [m] relates the world it starts in to the world
    it ends in by [R]. *)
Definition stable {A} (R : relation World) (m : M A) : Prop :=
  ∀ w a w', m w = Ok (a, w') → R w w'.

(** [m] returns normally from every world. *)
Definition completes {A} (m : M A) : Prop :=
  ∀ w, ∃ a w', m w = Ok (a, w').

(** What the inspection relies on from its collaborators: the extractor
    answers wherever the label is present, the colour assigner covers the
    labels it is given, the loader delivers at least [n] planes. *)
Definition extractor_answers : Prop :=
  ∀ plane label, label ≠ 0 → on_plane label plane →
    ∃ roi, get_polygon_from_instance_segmentation plane label = Ok roi.

Definition colors_cover : Prop :=
  ∀ label_ids label, label ∈ label_ids →
    is_Some (Py.get (get_color_code label_ids) label).

Definition loader_delivers (n : nat) : Prop :=
  ∀ path file_id box,
    (n ≤ length (load_zstack_as_array_from_single_planes path file_id box))%nat.

Definition heap_grows : relation World := λ w w', heap w ⊆ heap w'.

Definition same_scan (panel : nat * nat) : relation World :=
  λ w w', scan panel (plt w') = scan panel (plt w).

Definition same_strokes (panel : nat * nat) : relation World :=
  λ w w', strokes_on panel (plt w') = strokes_on panel (plt w).

(** *** The content of the figure *)

(** The calls that draw on the current axes. *)
Definition is_artist (c : plt_call) : bool :=
  match c with
  | imshow _ _ | ylabel _ | title _ | plot _ _ _ _ => true
  | _ => false
  end.

Definition content_step (panel : nat * nat)
    (s : option (nat * nat) * list plt_call) (c : plt_call)
  : option (nat * nat) * list plt_call :=
  match c with
  | plt_figure _ _ => (None, [])
  | add_subplot row col => (Some (row, col), s.2)
  | _ => if is_artist c && bool_decide (s.1 = Some panel)
         then (s.1, s.2 ++ [c]) else s
  end.

(** What the current figure shows on a panel, in drawing order. *)
Definition content (panel : nat * nat) (calls : list plt_call)
  : list plt_call :=
  (foldl (content_step panel) (None, []) calls).2.

Definition panels_step (s : list (nat * nat)) (c : plt_call)
  : list (nat * nat) :=
  match c with
  | plt_figure _ _ => []
  | add_subplot row col => s ++ [(row, col)]
  | _ => s
  end.

(** The panels of the current figure, in order of creation. *)
Definition panels (calls : list plt_call) : list (nat * nat) :=
  foldl panels_step [] calls.

Definition is_savefig (c : plt_call) : bool :=
  match c with savefig _ _ => true | _ => false end.

(** The outlines of the entries of one plane, in key order. *)
Definition outline_calls (per_plane : Py.dict Z PlotEntry) : list plt_call :=
  mjoin ((λ label_id,
            match Py.get per_plane label_id with
            | Some entry =>
                [plot (array_data (boundary_y_coords entry))
                      (array_data (boundary_x_coords entry))
                      (inl (color entry)) (lw_int 3)]
            | None => []
            end) <$> Py.keys per_plane).

(** What the three panels of a row are expected to show. *)
Definition input_panel (preprocessed : Volume) (row : nat) : list plt_call :=
  [imshow (default [] (preprocessed !! row)) None;
   ylabel ("plane_" +:+ pretty row)]
  ++ (if decide (row = 0%nat) then [title "input image"] else []).

Definition instance_panel (instance_seg : Volume) (row : nat)
  : list plt_call :=
  [imshow (default [] (instance_seg !! row)) None]
  ++ (if decide (row = 0%nat) then [title "instance segmentation"] else []).

Definition labels_panel (final_labels : Volume) (plotting_info : PlotInfo)
    (plane_id_of_interest row : nat) : list plt_call :=
  [imshow (default [] (final_labels !! row)) (Some "Greys_r")]
  ++ outline_calls (default [] (Py.get plotting_info row))
  ++ (if decide (row = plane_id_of_interest)
      then crosshair 200 200 15 else [])
  ++ (if decide (row = 0%nat)
      then [title "connected components (color-coded)"] else []).

(** The calls of one column of panels, row by row. *)
Definition column_calls (col : nat) (rows : list nat)
    (shown : nat → list plt_call) : list plt_call :=
  mjoin ((λ row, add_subplot row col :: shown row) <$> rows).

(** A completed step that issues the pyplot calls [calls], prints [lines]
    and leaves the array store alone. *)
Definition emits (calls : list plt_call) (lines : list string)
  : relation World :=
  λ w w', plt w' = plt w ++ calls ∧ stdout w' = stdout w ++ lines
          ∧ heap w' = heap w.

(** The calls that hand the finished figure over: saving, showing,
    closing. *)
Definition is_delivery (c : plt_call) : bool :=
  match c with
  | savefig _ _ | plt_show | plt_close => true
  | _ => false
  end.

End Inspection.

(** ** A small implementation of the collaborators, used in the examples

    A polygon is kept as the footprint of its label, the cells (row, column)
    of the plane that carry it; its centroid is the mean cell, its boundary
    coordinates are the footprint's; colours are palette positions; planes
    are loaded from a table of files; every directory exists and can be
    written to, except [/missing]. *)

Definition footprint (plane : Plane) (label : Z) : list (Z * Z) :=
  mjoin (imap (λ r row,
           mjoin (imap (λ c v, if decide (v = label)
                               then [(Z.of_nat r, Z.of_nat c)] else [])
                       row))
         plane).

Definition mean (l : list Z) : Z := foldr Z.add 0 l / Z.of_nat (length l).

Definition footprint_utils (files : string → Volume) : Utils := {|
  Polygon := list (Z * Z);
  Coords := list Z;
  Color := nat;
  get_polygon_from_instance_segmentation := λ plane label,
    match footprint plane label with
    | [] => Raise ValueError
    | cells => Ok cells
    end;
  centroid_x := λ roi, mean roi.*1;
  centroid_y := λ roi, mean roi.*2;
  boundary_x_coords_of := λ roi, roi.*1;
  boundary_y_coords_of := λ roi, roi.*2;
  get_color_code := λ label_ids, imap (λ i label, (label, i)) label_ids;
  load_zstack_as_array_from_single_planes := λ path file_id box,
    match box with
    | None => files path
    | Some (minx, maxx, miny, maxy) => Np.crop (files path) minx maxx miny maxy
    end;
  writable := λ path, negb (String.prefix "/missing/" path);
|}.

(** Label 3 on planes 0 and 1, label 7 on plane 1 only. *)
Definition two_label_volume : Volume :=
  [[[3; 3; 0]; [0; 0; 0]; [0; 0; 0]];
   [[3; 0; 0]; [0; 7; 7]; [0; 0; 0]]].

Definition example_database (strategies : option (list strategy_class))
  : Database :=
  {| quantified_segmentations_dir := "quantified";
     preprocessed_images_dir := "preprocessed";
     instance_segmentations_dir := "instances";
     inspected_area_plots_dir := "plots";
     inspection_strategies := strategies |}.

Definition example_utils : Utils := footprint_utils (λ _, two_label_volume).

Definition empty_world : World (U := example_utils) :=
  {| heap := ∅; plt := []; stdout := [] |}.

(** The z-stack of the example, loaded into the first buffer of the store,
    and the inspection object selecting label 3 on plane 0. *)
Definition example_world : World (U := example_utils) :=
  {| heap := {[1%positive := two_label_volume]}; plt := []; stdout := [] |}.

Definition example_object (strategies : option (list strategy_class))
  : InspectionObject :=
  {| database := example_database strategies;
     file_id := "0001"; area_roi_id := "000"; show := false; save := true;
     zstack := {| buffer := 1; views := [] |};
     label_id := 3; plane_id := 0 |}.

(** A strategy of another module that fails, and one that reports its
    name. *)
Definition example_subclass_run (name : string)
    (inspection_object : InspectionObject) : M (U := example_utils) unit :=
  if decide (name = "Broken") then λ _, Raise ValueError else print name.

(** * Properties *)

(** ** Python and numpy primitives *)

Lemma index_in_range {A} (l : list A) (i : Z) :
  0 <= i < Z.of_nat (length l) →
  ∃ x, l !! Z.to_nat i = Some x ∧ Py.index l i = Ok x.
Proof.
  intros Hi. unfold Py.index.
  destruct (Z.ltb_spec i 0) as [?|_]; [lia|].
  destruct (Z.ltb_spec i 0) as [?|_]; [lia|].
  destruct (Z.leb_spec (Z.of_nat (length l)) i) as [?|_]; [lia|]. simpl.
  destruct (lookup_lt_is_Some_2 l (Z.to_nat i)) as [x Hx]; [lia|].
  exists x. by rewrite Hx.
Qed.

Lemma index_negative {A} (l : list A) (i : Z) :
  - Z.of_nat (length l) <= i < 0 →
  ∃ x, l !! Z.to_nat (i + Z.of_nat (length l)) = Some x ∧ Py.index l i = Ok x.
Proof.
  intros Hi. unfold Py.index.
  destruct (Z.ltb_spec i 0) as [_|?]; [|lia].
  destruct (Z.ltb_spec (i + Z.of_nat (length l)) 0) as [?|_]; [lia|].
  destruct (Z.leb_spec (Z.of_nat (length l)) (i + Z.of_nat (length l)))
    as [?|_]; [lia|]. simpl.
  destruct (lookup_lt_is_Some_2 l (Z.to_nat (i + Z.of_nat (length l))))
    as [x Hx]; [lia|].
  exists x. by rewrite Hx.
Qed.

Lemma index_out_of_range {A} (l : list A) (i : Z) :
  ¬ (- Z.of_nat (length l) <= i < Z.of_nat (length l)) →
  Py.index l i = Raise IndexError.
Proof.
  intros Hi. unfold Py.index.
  destruct (Z.ltb_spec i 0).
  - destruct (Z.ltb_spec (i + Z.of_nat (length l)) 0); [done|lia].
  - destruct (Z.ltb_spec i 0); [lia|].
    destruct (Z.leb_spec (Z.of_nat (length l)) i); [done|lia].
Qed.

Lemma index_Ok_elem_of {A} (l : list A) (i : Z) (x : A) :
  Py.index l i = Ok x → x ∈ l.
Proof.
  unfold Py.index. destruct (_ || _); [done|].
  destruct (l !! _) eqn:Hx; [|done].
  intros [= <-]. by eapply list_elem_of_lookup_2.
Qed.

Lemma filter_all {A} (P : A → Prop) `{∀ x, Decision (P x)} (l : list A) :
  Forall P l → filter P l = l.
Proof.
  induction 1 as [|x l Hx Hl IH]; [done|].
  rewrite filter_cons_True by done. by rewrite IH.
Qed.

Lemma remove_NoDup `{EqDecision A} (x : A) (l : list A) :
  NoDup l → x ∈ l → Py.remove x l = Ok (filter (λ y, y ≠ x) l).
Proof.
  induction 1 as [|y l Hy Hl IH]; [by intros Hx; apply elem_of_nil in Hx|].
  intros Hx. simpl. destruct (decide (y = x)) as [->|Hne].
  - rewrite filter_cons_False by naive_solver.
    f_equal. symmetry. apply filter_all, Forall_forall.
    intros z Hz ->. done.
  - rewrite filter_cons_True by done.
    apply elem_of_cons in Hx as [->|Hx]; [done|].
    rewrite IH by done. done.
Qed.

Lemma elem_of_insert_unique (x y : Z) (l : list Z) :
  y ∈ Np.insert_unique x l ↔ y = x ∨ y ∈ l.
Proof.
  induction l as [|z l IH]; simpl.
  { rewrite elem_of_cons, elem_of_nil. tauto. }
  destruct (Z.ltb_spec x z); [by rewrite elem_of_cons|].
  destruct (Z.eqb_spec x z) as [->|?].
  - rewrite elem_of_cons. tauto.
  - rewrite !elem_of_cons, IH. tauto.
Qed.

Lemma elem_of_unique (y : Z) (cells : list Z) :
  y ∈ Np.unique cells ↔ y ∈ cells.
Proof.
  induction cells as [|x cells IH]; simpl; [done|].
  rewrite elem_of_insert_unique, elem_of_cons, IH. tauto.
Qed.

Lemma insert_unique_sorted (x : Z) (l : list Z) :
  StronglySorted Z.lt l → StronglySorted Z.lt (Np.insert_unique x l).
Proof.
  induction 1 as [|z l Hl IH Hz]; simpl; [repeat constructor|].
  destruct (Z.ltb_spec x z).
  - constructor; [by constructor|]. constructor; [done|].
    eapply Forall_impl; [done|]. simpl. lia.
  - destruct (Z.eqb_spec x z); [by constructor|].
    constructor; [done|]. apply Forall_forall. intros y Hy.
    apply elem_of_insert_unique in Hy as [->|Hy]; [lia|].
    by eapply Forall_forall in Hz.
Qed.

Lemma unique_sorted (cells : list Z) : StronglySorted Z.lt (Np.unique cells).
Proof.
  induction cells; simpl; [constructor|]. by apply insert_unique_sorted.
Qed.

Lemma unique_NoDup (cells : list Z) : NoDup (Np.unique cells).
Proof.
  pose proof (unique_sorted cells) as H.
  induction H as [|z l Hl IH Hz]; constructor; [|done].
  intros Hin. eapply Forall_forall in Hz; [|done]. lia.
Qed.

Lemma filter_mjoin {A} (P : A → Prop) `{∀ x, Decision (P x)}
    (ls : list (list A)) :
  filter P (mjoin ls) = mjoin (filter P <$> ls).
Proof.
  induction ls as [|l ls IH]; [done|].
  simpl. by rewrite filter_app, IH.
Qed.

Lemma fmap_mjoin {A B} (f : A → B) (ls : list (list A)) :
  f <$> mjoin ls = mjoin (fmap f <$> ls).
Proof.
  induction ls as [|l ls IH]; [done|].
  simpl. by rewrite fmap_app, IH.
Qed.

Lemma elem_of_mjoin_imap {A B} (f : nat → A → list B) (l : list A) (y : B) :
  y ∈ mjoin (imap f l) ↔ ∃ i x, l !! i = Some x ∧ y ∈ f i x.
Proof.
  rewrite list_elem_of_join. split.
  - intros (ys & Hy & Hys). apply elem_of_lookup_imap in Hys as (i & x & -> & Hx).
    eauto.
  - intros (i & x & Hx & Hy). exists (f i x). split; [done|].
    by apply elem_of_lookup_imap_2.
Qed.

(** Blocks whose elements all equal their own index concatenate to an
    ascending list. *)
Lemma mjoin_imap_sorted {A} (f : nat → A → list nat) (l : list A) (n : nat) :
  (∀ i x y, y ∈ f i x → y = (n + i)%nat) →
  StronglySorted le (mjoin (imap f l)).
Proof.
  revert f n. induction l as [|a l IH]; intros f n Hf; [constructor|].
  simpl. apply StronglySorted_app_2.
  - intros y1 y2 Hy1 Hy2. apply Hf in Hy1 as ->.
    apply elem_of_mjoin_imap in Hy2 as (i & x & _ & Hy2).
    apply Hf in Hy2 as ->. lia.
  - assert (Forall (λ y, y = (n + 0)%nat) (f 0%nat a)) as Hall.
    { apply Forall_forall. intros y Hy. by eapply Hf. }
    induction Hall as [|y ys -> Hys IHys]; constructor; [done|].
    eapply Forall_impl; [exact Hys|]. simpl. lia.
  - apply (IH _ (S n)). intros i x y Hy. apply Hf in Hy. simpl in Hy. lia.
Qed.

(** With at most one element per block the list is strictly ascending. *)
Lemma mjoin_imap_strictly_sorted {A} (f : nat → A → list nat) (l : list A)
    (n : nat) :
  (∀ i x, f i x = [] ∨ f i x = [(n + i)%nat]) →
  StronglySorted lt (mjoin (imap f l)).
Proof.
  revert f n. induction l as [|a l IH]; intros f n Hf; [constructor|].
  simpl. apply StronglySorted_app_2.
  - intros y1 y2 Hy1 Hy2.
    apply elem_of_mjoin_imap in Hy2 as (i & x & _ & Hy2). simpl in Hy2.
    destruct (Hf 0%nat a) as [E|E]; rewrite E in Hy1;
      [by apply elem_of_nil in Hy1|].
    destruct (Hf (S i) x) as [E'|E']; rewrite E' in Hy2;
      [by apply elem_of_nil in Hy2|].
    apply list_elem_of_singleton in Hy1 as ->.
    apply list_elem_of_singleton in Hy2 as ->. lia.
  - destruct (Hf 0%nat a) as [->| ->]; repeat constructor.
  - apply (IH _ (S n)). intros i x. simpl.
    replace (S (n + i)) with (n + S i)%nat by lia. apply Hf.
Qed.

(** ** The representative selector *)

Lemma where_eq_cells (z : nat) (label : Z) (cells : list Z) :
  (filter (λ c : nat * Z, c.2 = label) ((λ v, (z, v)) <$> cells)).*1
  = replicate (length (filter (λ v, v = label) cells)) z.
Proof.
  induction cells as [|v cells IH]; [done|].
  rewrite fmap_cons, (filter_cons _ (z, v)), (filter_cons _ v).
  change ((z, v).2) with v. destruct (decide (v = label)); [|exact IH].
  rewrite fmap_cons. cbn [length replicate fst]. by rewrite IH.
Qed.

Lemma where_eq_axis0_cell_planes (zstack : Volume) (label : Z) :
  Np.where_eq_axis0 zstack label = cell_planes zstack label.
Proof.
  unfold Np.where_eq_axis0, Np.cells_with_plane, cell_planes.
  rewrite filter_mjoin, fmap_mjoin, !fmap_imap. f_equal.
  apply imap_ext. intros z plane _. simpl. apply where_eq_cells.
Qed.

Lemma cells_on_plane_pos (label : Z) (plane : Plane) :
  cells_on_plane label plane ≠ 0%nat ↔ on_plane label plane.
Proof.
  unfold cells_on_plane, on_plane. split.
  - intros Hn. destruct (filter _ _) as [|v vs] eqn:E; [done|].
    assert (v ∈ filter (λ v, v = label) (Np.ravel2 plane)) as Hv
      by (rewrite E; left).
    by apply list_elem_of_filter in Hv as [-> ?].
  - intros Hin E. apply length_zero_iff_nil in E.
    assert (label ∈ filter (λ v, v = label) (Np.ravel2 plane)) as Hf
      by by apply list_elem_of_filter.
    rewrite E in Hf. by apply elem_of_nil in Hf.
Qed.

Lemma elem_of_cell_planes (zstack : Volume) (label : Z) (p : nat) :
  p ∈ cell_planes zstack label
  ↔ ∃ plane, zstack !! p = Some plane ∧ on_plane label plane.
Proof.
  unfold cell_planes. rewrite elem_of_mjoin_imap. split.
  - intros (i & plane & Hi & [-> Hn]%elem_of_replicate).
    exists plane. by rewrite <- cells_on_plane_pos.
  - intros (plane & Hp & Hon). exists p, plane. split; [done|].
    apply elem_of_replicate. by rewrite cells_on_plane_pos.
Qed.

Lemma elem_of_planes_of (zstack : Volume) (label : Z) (p : nat) :
  p ∈ planes_of zstack label
  ↔ ∃ plane, zstack !! p = Some plane ∧ on_plane label plane.
Proof.
  unfold planes_of. rewrite elem_of_mjoin_imap. split.
  - intros (i & plane & Hi & Hp). destruct (decide _); [|by apply elem_of_nil in Hp].
    apply list_elem_of_singleton in Hp as ->. eauto.
  - intros (plane & Hp & Hon). exists p, plane. split; [done|].
    rewrite decide_True by done. by apply list_elem_of_singleton.
Qed.

(** [planes_of] is what the specification calls the ordered, duplicate-free
    list of the planes on which the label appears. *)
Lemma planes_of_strictly_ascending (zstack : Volume) (label : Z) :
  StronglySorted lt (planes_of zstack label).
Proof.
  apply (mjoin_imap_strictly_sorted _ _ 0). intros i plane.
  destruct (decide _); auto.
Qed.

Lemma cell_planes_ascending (zstack : Volume) (label : Z) :
  StronglySorted le (cell_planes zstack label).
Proof.
  apply (mjoin_imap_sorted _ _ 0). intros i plane y Hy.
  by apply elem_of_replicate_inv in Hy.
Qed.

Lemma elem_of_ravel (zstack : Volume) (v : Z) :
  v ∈ Np.ravel zstack ↔ ∃ plane, plane ∈ zstack ∧ on_plane v plane.
Proof.
  unfold Np.ravel, on_plane. rewrite list_elem_of_join. split.
  - intros (cells & Hv & (plane & -> & Hp)%list_elem_of_fmap). eauto.
  - intros (plane & Hp & Hv). exists (Np.ravel2 plane). split; [done|].
    by apply list_elem_of_fmap_2.
Qed.

Lemma cell_planes_nonempty (zstack : Volume) (label : Z) :
  label ∈ Np.ravel zstack → (0 < length (cell_planes zstack label))%nat.
Proof.
  intros (plane & [p Hp]%list_elem_of_lookup & Hon)%elem_of_ravel.
  assert (p ∈ cell_planes zstack label) as Hin
    by (apply elem_of_cell_planes; eauto).
  destruct (cell_planes zstack label); [by apply elem_of_nil in Hin|].
  simpl. lia.
Qed.

Lemma elem_of_labels_of (zstack : Volume) (label : Z) :
  label ∈ labels_of zstack ↔ label ≠ 0 ∧ label ∈ Np.ravel zstack.
Proof. unfold labels_of. by rewrite list_elem_of_filter, elem_of_unique. Qed.

Lemma remove_zero_unique (cells : list Z) :
  (if decide (0 ∈ Np.unique cells)
   then Py.remove 0 (Np.unique cells) else Ok (Np.unique cells))
  = Ok (filter (λ v, v ≠ 0) (Np.unique cells)).
Proof.
  destruct (decide _) as [Hin|Hout].
  - apply remove_NoDup; [apply unique_NoDup|done].
  - f_equal. symmetry. apply filter_all, Forall_forall. by intros v Hv ->.
Qed.

Lemma remove_zero_again (l : list Z) :
  (if decide (0 ∈ filter (λ v, v ≠ 0) l)
   then Py.remove 0 (filter (λ v, v ≠ 0) l) else Ok (filter (λ v, v ≠ 0) l))
  = Ok (filter (λ v, v ≠ 0) l).
Proof. rewrite decide_False; [done|]. by intros [? _]%list_elem_of_filter. Qed.

Lemma remove_background_unique (cells : list Z) :
  remove_background (Np.unique cells)
  = Ok (filter (λ v, v ≠ 0) (Np.unique cells)).
Proof.
  unfold remove_background. simpl. rewrite remove_zero_unique. simpl.
  apply remove_zero_again.
Qed.

Lemma get_label_id_labels_of (zstack : Volume) (index : Z) :
  get_label_id zstack index = Py.index (labels_of zstack) index.
Proof. unfold get_label_id. by rewrite remove_background_unique. Qed.

Lemma get_plane_id_cell_planes (zstack : Volume) (label : Z) :
  get_plane_id zstack label
  = Py.index (cell_planes zstack label)
             (Z.of_nat (length (cell_planes zstack label) / 2)).
Proof.
  unfold get_plane_id. rewrite where_eq_axis0_cell_planes.
  set (n := length (cell_planes zstack label)).
  destruct (decide (1 < n)%nat) as [Hn|Hn].
  - f_equal. rewrite Z.quot_div_nonneg by lia.
    by rewrite (Nat2Z.inj_div n 2).
  - f_equal. rewrite Nat.div_small by lia. done.
Qed.

Lemma get_plane_id_midpoint (zstack : Volume) (label : Z) :
  label ∈ Np.ravel zstack →
  ∃ p, cell_planes zstack label
         !! (length (cell_planes zstack label) / 2)%nat = Some p
       ∧ get_plane_id zstack label = Ok p.
Proof.
  intros Hin. pose proof (cell_planes_nonempty _ _ Hin) as Hlen.
  rewrite get_plane_id_cell_planes.
  destruct (index_in_range (cell_planes zstack label)
              (Z.of_nat (length (cell_planes zstack label) / 2)))
    as (p & Hp & Hidx).
  - split; [lia|]. apply inj_lt, Nat.div_lt; lia.
  - rewrite Nat2Z.id in Hp. eauto.
Qed.

(** Selection succeeds as soon as the index picks a label, and the plane it
    returns carries that label. *)
Lemma select_of_indexed_label (zstack : Volume) (label_index label : Z) :
  Py.index (labels_of zstack) label_index = Ok label →
  ∃ plane_id,
    select zstack label_index = Ok (label, plane_id) ∧
    label ∈ labels_of zstack ∧
    ∃ plane, zstack !! plane_id = Some plane ∧ on_plane label plane.
Proof.
  intros Hidx. unfold select. rewrite get_label_id_labels_of, Hidx.
  apply index_Ok_elem_of in Hidx.
  pose proof Hidx as [_ Hin]%elem_of_labels_of.
  destruct (get_plane_id_midpoint _ _ Hin) as (p & Hp & Hget).
  exists p. cbn. rewrite Hget. cbn. split; [done|]. split; [done|].
  by apply list_elem_of_lookup_2, elem_of_cell_planes in Hp.
Qed.

Lemma strictly_ascending_NoDup (l : list nat) :
  StronglySorted lt l → NoDup l.
Proof.
  induction 1 as [|x l _ IH Hx]; constructor; [|done].
  intros Hin. rewrite Forall_forall in Hx. specialize (Hx x Hin). lia.
Qed.

(** A plane index is listed in [cell_planes] as often as its plane has cells
    with the label, so a list without duplicates leaves every plane at most
    one such cell. *)
Lemma cell_planes_NoDup (zstack : Volume) (label : Z) :
  NoDup (cell_planes zstack label) →
  ∀ plane, plane ∈ zstack → (cells_on_plane label plane ≤ 1)%nat.
Proof.
  intros Hnd plane [z Hz]%list_elem_of_lookup.
  unfold cell_planes in Hnd.
  rewrite <- (take_drop_middle zstack z plane Hz) in Hnd.
  rewrite imap_app, join_app in Hnd. apply NoDup_app in Hnd as (_ & _ & Hnd).
  cbn in Hnd. apply NoDup_app in Hnd as (Hnd & _ & _).
  destruct (cells_on_plane label plane) as [|[|k]]; [lia..|].
  cbn in Hnd. apply NoDup_cons in Hnd as [Hnd _].
  exfalso. apply Hnd. left.
Qed.

(** C1 (as amended). For a label that occurs in the volume: if it occurs on
    exactly one plane, [get_plane_id] returns that plane; in general it
    returns the element at position [floor(m / 2)] of the ascending list of
    plane indices that names a plane once for every cell of it carrying the
    label ([m] is the number of such cells); that list is the duplicate-free
    list of the label's planes when no plane has more than one such cell,
    and only then. *)
Theorem get_plane_id_midpoint_over_cells (zstack : Volume) (label : Z) :
  label ∈ Np.ravel zstack →
  (∀ p, planes_of zstack label = [p] → get_plane_id zstack label = Ok p) ∧
  (∃ p, cell_planes zstack label
          !! (length (cell_planes zstack label) / 2)%nat = Some p
        ∧ get_plane_id zstack label = Ok p) ∧
  (cell_planes zstack label = planes_of zstack label
   ↔ ∀ plane, plane ∈ zstack → (cells_on_plane label plane ≤ 1)%nat).
Proof.
  intros Hin. pose proof (get_plane_id_midpoint _ _ Hin) as Hmid.
  split; [|split; [exact Hmid|split]].
  - intros p Hp. destruct Hmid as (q & Hq & ->). f_equal.
    apply list_elem_of_lookup_2, elem_of_cell_planes in Hq.
    apply elem_of_planes_of in Hq. rewrite Hp in Hq.
    by apply list_elem_of_singleton in Hq.
  - intros Heq. apply cell_planes_NoDup. rewrite Heq.
    apply strictly_ascending_NoDup, planes_of_strictly_ascending.
  - intros Hone. unfold cell_planes, planes_of. f_equal.
    apply imap_ext. intros z plane Hz.
    apply list_elem_of_lookup_2, Hone in Hz.
    pose proof (cells_on_plane_pos label plane) as Hpos.
    destruct (decide (on_plane label plane)) as [Hon|Hoff].
    + apply Hpos in Hon.
      by replace (cells_on_plane label plane) with 1%nat by lia.
    + destruct (cells_on_plane label plane) as [|k]; [done|].
      exfalso. apply Hoff, Hpos. lia.
Qed.

(** The examples of the specification, with one cell per plane: planes
    2, 5 and 9 give plane 5. *)
Lemma get_plane_id_midpoint_over_cells_witness :
  let zstack :=
    [[[0]]; [[0]]; [[4]]; [[0]]; [[0]]; [[4]]; [[0]]; [[0]]; [[0]]; [[4]]] in
  planes_of zstack 4 = [2; 5; 9]%nat ∧ get_plane_id zstack 4 = Ok 5%nat.
Proof.
  intros zstack. split; [reflexivity|].
  destruct (get_plane_id_midpoint_over_cells zstack 4)
    as (_ & (p & Hp & ->) & _).
  - vm_compute. repeat constructor.
  - vm_compute in Hp. by injection Hp as <-.
Defined.

(** Planes 1, 2, 3 and 4 give plane 3. *)
Example get_plane_id_four_planes :
  let zstack := [[[0]]; [[4]]; [[4]]; [[4]]; [[4]]] in
  planes_of zstack 4 = [1; 2; 3; 4]%nat ∧ get_plane_id zstack 4 = Ok 3%nat.
Proof. by vm_compute. Qed.

(** C1 (as stated) fails: label 5 lies on planes 0, 1 and 2, so its
    positional midpoint is plane 1, but its four cells on plane 0 outweigh
    the others and [get_plane_id] answers plane 0. *)
Lemma get_plane_id_not_midpoint_of_planes :
  let zstack := [[[5; 5]; [5; 5]]; [[5; 0]; [0; 0]]; [[0; 0]; [0; 5]]] in
  planes_of zstack 5 = [0; 1; 2]%nat ∧
  planes_of zstack 5 !! (length (planes_of zstack 5) / 2)%nat = Some 1%nat ∧
  get_plane_id zstack 5 = Ok 0%nat ∧
  get_plane_id zstack 5 ≠ Ok 1%nat.
Proof. vm_compute. repeat split; congruence. Qed.

(** C4. For a label index within [0, number of non-zero labels), the
    selector returns a non-zero label of the volume and a plane on which
    that label occurs. *)
Theorem select_label_and_plane_present (zstack : Volume) (label_index : Z) :
  0 <= label_index < Z.of_nat (length (labels_of zstack)) →
  ∃ label_id plane_id,
    select zstack label_index = Ok (label_id, plane_id) ∧
    label_id ∈ labels_of zstack ∧
    ∃ plane, zstack !! plane_id = Some plane ∧ on_plane label_id plane.
Proof.
  intros Hi. destruct (index_in_range _ _ Hi) as (label & _ & Hidx).
  destruct (select_of_indexed_label _ _ _ Hidx) as (p & ? & ? & ?).
  by exists label, p.
Qed.

Lemma select_label_and_plane_present_witness :
  ∃ label_id plane_id,
    select [[[0; 7]; [3; 3]]; [[0; 0]; [3; 0]]] 1 = Ok (label_id, plane_id) ∧
    label_id ∈ labels_of [[[0; 7]; [3; 3]]; [[0; 0]; [3; 0]]] ∧
    ∃ plane, [[[0; 7]; [3; 3]]; [[0; 0]; [3; 0]]] !! plane_id = Some plane
             ∧ on_plane label_id plane.
Proof.
  apply (select_label_and_plane_present
           [[[0; 7]; [3; 3]]; [[0; 0]; [3; 0]]] 1).
  vm_compute. split; congruence.
Defined.

(** C7 (as amended). With [n] non-zero labels in the volume, selecting
    succeeds for every index in [-n, n) (a negative index counts from the
    last label) and raises [IndexError] for every other index. *)
Theorem select_index_range (zstack : Volume) (label_index : Z) :
  let n := Z.of_nat (length (labels_of zstack)) in
  (- n <= label_index < n → ∃ r, select zstack label_index = Ok r) ∧
  (¬ (- n <= label_index < n) →
   select zstack label_index = Raise IndexError).
Proof.
  intros n. split.
  - intros Hi.
    assert (∃ label, Py.index (labels_of zstack) label_index = Ok label)
      as [label Hidx].
    { destruct (decide (0 <= label_index)).
      - destruct (index_in_range (labels_of zstack) label_index)
          as (label & _ & ?); [lia|eauto].
      - destruct (index_negative (labels_of zstack) label_index)
          as (label & _ & ?); [lia|eauto]. }
    destruct (select_of_indexed_label _ _ _ Hidx) as (p & -> & _). eauto.
  - intros Hi. unfold select. rewrite get_label_id_labels_of.
    by rewrite index_out_of_range.
Qed.

(** C7 (as stated) fails: index -1 is outside [0, 2) and selects the last
    label instead of raising. *)
Lemma select_negative_index_succeeds :
  let zstack := [[[0; 7]; [3; 3]]; [[0; 0]; [3; 0]]] in
  length (labels_of zstack) = 2%nat ∧
  ¬ (0 <= -1 < Z.of_nat (length (labels_of zstack))) ∧
  select zstack (-1) = Ok (7, 0%nat).
Proof. vm_compute. repeat split. intros [H _]. by apply H. Qed.

(** ** The window clamper *)

Ltac clamp_cases :=
  unfold adjust_cropping_box_to_image_borders;
  rewrite ?Z.geb_leb, ?Z.gtb_ltb;
  repeat match goal with
         | |- context [?a <=? ?b] => destruct (Z.leb_spec a b)
         | |- context [?a <? ?b] => destruct (Z.ltb_spec a b)
         end;
  cbn [andb fst snd].

(** C2. The clamper follows the four branches in first-match order, and
    gives the four windows of the specification's examples. *)
Theorem clamp_first_match (centroid_coord axis_extent half_window : Z) :
  0 <= centroid_coord <= axis_extent →
  0 <= half_window →
  let clamp :=
    adjust_cropping_box_to_image_borders centroid_coord axis_extent
      half_window in
  let centered :=
    centroid_coord - half_window >= 0
    ∧ centroid_coord + half_window <= axis_extent in
  let low_edge :=
    centroid_coord - half_window < 0 ∧ 2 * half_window <= axis_extent in
  let high_edge :=
    centroid_coord - 2 * half_window >= 0
    ∧ centroid_coord + half_window > axis_extent in
  (centered →
   clamp = (centroid_coord - half_window, centroid_coord + half_window)) ∧
  (¬ centered → low_edge → clamp = (0, 2 * half_window)) ∧
  (¬ centered → ¬ low_edge → high_edge →
   clamp = (axis_extent - 2 * half_window, axis_extent)) ∧
  (¬ centered → ¬ low_edge → ¬ high_edge → clamp = (0, axis_extent)) ∧
  adjust_cropping_box_to_image_borders 500 1000 200 = (300, 700) ∧
  adjust_cropping_box_to_image_borders 50 1000 200 = (0, 400) ∧
  adjust_cropping_box_to_image_borders 950 1000 200 = (600, 1000) ∧
  adjust_cropping_box_to_image_borders 50 300 200 = (0, 300).
Proof.
  intros Hc Hw clamp centered low_edge high_edge.
  subst clamp centered low_edge high_edge.
  repeat split; try reflexivity; intros; clamp_cases;
    first [reflexivity | exfalso; lia].
Qed.

Lemma clamp_first_match_witness :
  adjust_cropping_box_to_image_borders 950 1000 200 = (1000 - 2 * 200, 1000).
Proof.
  destruct (clamp_first_match 950 1000 200) as (_ & _ & H & _); [lia|lia|].
  apply H; lia.
Defined.

(** C5. For a centroid within a non-empty axis, the clamped window lies
    within the axis and is not inverted. *)
Theorem clamp_within_axis (centroid_coord axis_extent half_window : Z) :
  0 <= centroid_coord <= axis_extent →
  0 < axis_extent →
  0 <= half_window →
  let '(lower, upper) :=
    adjust_cropping_box_to_image_borders centroid_coord axis_extent
      half_window in
  0 <= lower ∧ lower <= upper ∧ upper <= axis_extent.
Proof. intros Hc He Hw. clamp_cases; lia. Qed.

Lemma clamp_within_axis_witness :
  0 <= 600 ∧ 600 <= 1000 ∧ 1000 <= 1000.
Proof. apply (clamp_within_axis 950 1000 200); lia. Defined.

(** C3 (as amended). Away from the band of centroids with
    [half_window <= centroid_coord < 2 * half_window] whose centred window
    overflows the high edge, an axis of at least [2 * half_window] gets a
    window of width exactly [2 * half_window], and the window is the full
    axis only when the axis is no larger than [2 * half_window]. *)
Theorem clamp_width (centroid_coord axis_extent half_window : Z) :
  0 <= centroid_coord <= axis_extent →
  0 <= half_window →
  centroid_coord + half_window <= axis_extent
  ∨ centroid_coord < half_window
  ∨ 2 * half_window <= centroid_coord →
  let clamp :=
    adjust_cropping_box_to_image_borders centroid_coord axis_extent
      half_window in
  (2 * half_window <= axis_extent → clamp.2 - clamp.1 = 2 * half_window) ∧
  (clamp = (0, axis_extent) → axis_extent <= 2 * half_window).
Proof.
  intros Hc Hw Hband clamp. subst clamp.
  split; clamp_cases; try lia; intros [=]; lia.
Qed.

Lemma clamp_width_witness :
  (adjust_cropping_box_to_image_borders 950 1000 200).2
  - (adjust_cropping_box_to_image_borders 950 1000 200).1 = 2 * 200.
Proof.
  destruct (clamp_width 950 1000 200) as [H _]; [lia|lia|lia|].
  apply H. lia.
Defined.

(** C3 (as stated) fails: an axis of exactly [2 * half_window] is not
    smaller than [2 * half_window], yet the window is the full axis. *)
Lemma clamp_full_axis_at_exact_fit :
  0 <= 200 <= 400 ∧ 0 <= 200 ∧
  adjust_cropping_box_to_image_borders 200 400 200 = (0, 400) ∧
  ¬ (400 < 2 * 200).
Proof. repeat split; lia. Qed.

(** In the band that [clamp_width] leaves out, the third branch tests the
    centroid where the second tests the axis: the window that would fit at
    the high edge is not taken and the whole axis is returned. *)
Lemma clamp_band_returns_full_axis :
  adjust_cropping_box_to_image_borders 300 450 200 = (0, 450).
Proof. reflexivity. Qed.

(** ** The plot-info builder *)

Lemma get_setitem `{EqDecision K} {V} (d : Py.dict K V) (k k' : K) (v : V) :
  Py.get (Py.setitem d k v) k'
  = if decide (k = k') then Some v else Py.get d k'.
Proof.
  induction d as [|[k0 v0] d IH]; simpl.
  - by destruct (decide (k = k')).
  - destruct (decide (k0 = k)) as [->|Hne]; simpl.
    + by destruct (decide (k = k')).
    + rewrite IH. destruct (decide (k0 = k')) as [->|?]; [|done].
      by rewrite decide_False.
Qed.

Lemma getitem_Some `{EqDecision K} {V} (d : Py.dict K V) (k : K) (v : V) :
  Py.get d k = Some v → Py.getitem d k = Ok v.
Proof. unfold Py.getitem. by intros ->. Qed.

Lemma get_empty_planes (n z : nat) {V} :
  Py.get (foldl (λ info plane_index, Py.setitem info plane_index [])
                [] (Py.range n) : Py.dict nat (Py.dict Z V)) z
  = if decide (z < n)%nat then Some [] else None.
Proof.
  unfold Py.range. induction n as [|n IH].
  - cbn [seq foldl Py.get]. case_decide; [lia|done].
  - rewrite seq_S, foldl_app. cbn [foldl]. rewrite get_setitem, IH.
    cbn [Nat.add]. repeat case_decide; done || lia.
Qed.

(** A loop that keeps an invariant over the elements it has passed runs
    to the end and establishes it for the whole list. *)
Lemma for_fold_invariant {A S} (I : list A → S → Prop) (l : list A)
    (body : S → A → result S) (s : S) :
  I [] s →
  (∀ done x rest s, l = done ++ x :: rest → I done s →
                    ∃ s', body s x = Ok s' ∧ I (done ++ [x]) s') →
  ∃ s', for_fold l body s = Ok s' ∧ I l s'.
Proof.
  intros Hinit Hstep.
  cut (∀ rest done s, l = done ++ rest → I done s →
                      ∃ s', for_fold rest body s = Ok s' ∧ I l s').
  { intros Hgen. by apply (Hgen l []). }
  induction rest as [|x rest IH]; intros done s0 Hl Hdone.
  - rewrite app_nil_r in Hl. subst. simpl. eauto.
  - destruct (Hstep done x rest s0 Hl Hdone) as (s1 & Hbody & Hs1).
    simpl. rewrite Hbody. cbn. apply (IH (done ++ [x])); [|done].
    by rewrite <- app_assoc.
Qed.

Section PlotInfo.
Context `{U : Utils}.
Context (zstack : Volume) (color_code : Py.dict Z Color).

Lemma entry_at_setitem (info : PlotInfo) (z z' : nat) (l l' : Z)
    (per_plane : Py.dict Z PlotEntry) (e : PlotEntry) :
  Py.get info z = Some per_plane →
  entry_at (Py.setitem info z (Py.setitem per_plane l e)) z' l'
  = if decide (z = z' ∧ l = l') then Some e else entry_at info z' l'.
Proof.
  intros Hz. unfold entry_at. rewrite get_setitem.
  destruct (decide (z = z')) as [<-|Hne]; cbn.
  - rewrite get_setitem, Hz. cbn.
    destruct (decide (l = l')) as [<-|?].
    + by rewrite decide_True.
    + rewrite decide_False; [done|]. by intros [_ ?].
  - rewrite decide_False; [done|]. by intros [? _].
Qed.

Lemma recorded_ext (v1 v2 : Z → nat → Prop) (info : PlotInfo) :
  (∀ l z, (z < length zstack)%nat → v1 l z ↔ v2 l z) →
  recorded zstack color_code v1 info → recorded zstack color_code v2 info.
Proof.
  intros Hv (Hkeys & Hentries & Hcolors). split; [done|]. split; [|done].
  intros z l. rewrite Hentries. split.
  - intros [Hv1 (plane & Hz & Hon)]. split; [|eauto].
    apply Hv; [|done]. by eapply lookup_lt_Some.
  - intros [Hv2 (plane & Hz & Hon)]. split; [|eauto].
    apply Hv; [|done]. by eapply lookup_lt_Some.
Qed.

Lemma record_label_on_plane_recorded (visited : Z → nat → Prop)
    (info : PlotInfo) (label : Z) (z : nat) :
  recorded zstack color_code visited info →
  (z < length zstack)%nat →
  is_Some (Py.get color_code label) →
  (∀ plane, plane ∈ zstack → on_plane label plane →
            ∃ roi, get_polygon_from_instance_segmentation plane label = Ok roi) →
  ∃ info',
    record_label_on_plane zstack color_code label info z = Ok info' ∧
    recorded zstack color_code
      (λ l' z', visited l' z' ∨ (l' = label ∧ z' = z)) info'.
Proof.
  intros (Hkeys & Hentries & Hcolors) Hz [c Hc] Hpoly.
  unfold record_label_on_plane.
  destruct (index_in_range zstack (Z.of_nat z)) as (plane & Hplane & ->);
    [lia|]. rewrite Nat2Z.id in Hplane. cbn.
  destruct (decide (label ∈ Np.unique (Np.ravel2 plane))) as [Hon|Hoff].
  - rewrite elem_of_unique in Hon.
    destruct (Hpoly plane) as [roi ->];
      [by eapply list_elem_of_lookup_2|exact Hon|]. cbn.
    rewrite (getitem_Some _ _ _ Hc). cbn.
    destruct (proj2 (Hkeys z) Hz) as [per_plane Hper].
    rewrite (getitem_Some _ _ _ Hper). cbn.
    eexists. split; [done|]. split; [|split].
    + intros z'. rewrite get_setitem, <- Hkeys.
      destruct (decide (z = z')) as [<-|?]; [|done].
      split; intros _; eauto.
    + intros z' l'. rewrite (entry_at_setitem _ _ _ _ _ _ _ Hper).
      destruct (decide (z = z' ∧ label = l')) as [[<- <-]|Hne].
      * split; [|eauto]. intros _. split; [by right|eauto].
      * rewrite Hentries. split; [intros [? ?]; by auto|].
        intros [[?|[-> ->]] ?]; [done|]. by destruct Hne.
    + intros z' l' e. rewrite (entry_at_setitem _ _ _ _ _ _ _ Hper).
      destruct (decide (z = z' ∧ label = l')) as [[<- <-]|Hne].
      * by intros [= <-].
      * apply Hcolors.
  - eexists. split; [done|]. split; [done|]. split; [|done].
    intros z' l'. rewrite Hentries. split; [intros [? ?]; by auto|].
    intros [[?|[-> ->]] (plane' & Hz' & Hon')]; [by eauto|].
    destruct Hoff. apply elem_of_unique.
    assert (plane' = plane) as -> by congruence. exact Hon'.
Qed.

Lemma record_label_recorded (visited : Z → nat → Prop) (info : PlotInfo)
    (label : Z) :
  recorded zstack color_code visited info →
  is_Some (Py.get color_code label) →
  (∀ plane, plane ∈ zstack → on_plane label plane →
            ∃ roi, get_polygon_from_instance_segmentation plane label = Ok roi) →
  ∃ info',
    for_fold (Py.range (length zstack))
      (record_label_on_plane zstack color_code label) info = Ok info' ∧
    recorded zstack color_code (λ l' z', visited l' z' ∨ l' = label) info'.
Proof.
  intros Hrec Hc Hpoly.
  destruct (for_fold_invariant
              (λ done info', recorded zstack color_code
                 (λ l' z', visited l' z' ∨ (l' = label ∧ z' ∈ done)) info')
              (Py.range (length zstack))
              (record_label_on_plane zstack color_code label) info)
    as (info' & Hrun & Hinfo').
  - eapply recorded_ext; [|exact Hrec]. intros l z _.
    rewrite elem_of_nil. tauto.
  - intros done z rest info0 Hl Hinfo0.
    destruct (record_label_on_plane_recorded _ info0 label z Hinfo0)
      as (info1 & Hstep & Hinfo1); [|done|done|].
    + assert (z ∈ Py.range (length zstack)) as Hz
        by (rewrite Hl, elem_of_app, elem_of_cons; tauto).
      apply elem_of_seq in Hz. lia.
    + exists info1. split; [done|].
      eapply recorded_ext; [|exact Hinfo1]. intros l z' _. cbn.
      rewrite elem_of_app, list_elem_of_singleton. tauto.
  - exists info'. split; [done|].
    eapply recorded_ext; [|exact Hinfo']. intros l z Hz. cbn.
    unfold Py.range. rewrite elem_of_seq.
    split; (intros [?|?]; [by left|right]); [tauto|]. split; [done|lia].
Qed.

End PlotInfo.

Lemma get_plotting_info_recorded `{U : Utils} (zstack : Volume) :
  (∀ label, label ∈ labels_of zstack →
            is_Some (Py.get (get_color_code (labels_of zstack)) label)) →
  (∀ plane label, plane ∈ zstack → label ≠ 0 → on_plane label plane →
     ∃ roi, get_polygon_from_instance_segmentation plane label = Ok roi) →
  ∃ plotting_info,
    get_plotting_info zstack = Ok plotting_info ∧
    recorded zstack (get_color_code (labels_of zstack))
      (λ label _, label ∈ labels_of zstack) plotting_info.
Proof.
  intros Hcolor Hpoly. unfold get_plotting_info.
  rewrite remove_zero_unique. cbn. rewrite remove_zero_again. cbn.
  fold (labels_of zstack). set (color_code := get_color_code _).
  destruct (for_fold_invariant
              (λ done info, recorded zstack color_code (λ l _, l ∈ done) info)
              (labels_of zstack)
              (λ info label,
                 for_fold (Py.range (length zstack))
                   (record_label_on_plane zstack color_code label) info)
              (foldl (λ info plane_index, Py.setitem info plane_index [])
                     [] (Py.range (length zstack))))
    as (info & Hrun & Hrecorded).
  - assert (∀ z l, entry_at
              (foldl (λ info plane_index, Py.setitem info plane_index [])
                 [] (Py.range (length zstack)) : PlotInfo) z l = None) as Hnone.
    { intros z l. unfold entry_at. rewrite get_empty_planes.
      by destruct (decide _). }
    split; [|split].
    + intros z. rewrite get_empty_planes.
      destruct (decide _); [by split; eauto|].
      split; [by intros [? ?]|done].
    + intros z l. rewrite Hnone, elem_of_nil.
      split; [by intros [? ?]|tauto].
    + intros z l e. by rewrite Hnone.
  - intros done label rest info Hl Hinfo.
    assert (label ∈ labels_of zstack) as Hlabel
      by (rewrite Hl, elem_of_app, elem_of_cons; tauto).
    destruct (record_label_recorded zstack color_code _ info label Hinfo)
      as (info' & Hstep & Hinfo').
    + by apply Hcolor.
    + intros plane Hplane Hon. apply Hpoly; [done| |done].
      by apply elem_of_labels_of in Hlabel as [? _].
    + exists info'. split; [done|].
      eapply recorded_ext; [|exact Hinfo']. intros l z _. cbn.
      rewrite elem_of_app, list_elem_of_singleton. tauto.
  - by exists info.
Qed.

(** C6. When the colour assigner covers the labels it is given and the
    polygon extractor answers on every plane that carries the queried
    label, the builder returns a plot info that has an entry under
    (plane index, label) exactly for the non-zero labels occurring on that
    plane, and every entry's colour is the one that the single colour
    assignment over all non-zero labels of the volume gives its label. *)
Theorem plot_info_entries `{U : Utils} (zstack : Volume) :
  (∀ label, label ∈ labels_of zstack →
            is_Some (Py.get (get_color_code (labels_of zstack)) label)) →
  (∀ plane label, plane ∈ zstack → label ≠ 0 → on_plane label plane →
     ∃ roi, get_polygon_from_instance_segmentation plane label = Ok roi) →
  ∃ plotting_info,
    get_plotting_info zstack = Ok plotting_info ∧
    (∀ plane_index label_id,
       is_Some (entry_at plotting_info plane_index label_id)
       ↔ label_id ≠ 0
         ∧ ∃ plane, zstack !! plane_index = Some plane
                    ∧ on_plane label_id plane) ∧
    (∀ plane_index label_id entry,
       entry_at plotting_info plane_index label_id = Some entry →
       Py.get (get_color_code (labels_of zstack)) label_id
       = Some (color entry)).
Proof.
  intros Hcolor Hpoly.
  destruct (get_plotting_info_recorded zstack Hcolor Hpoly)
    as (info & Hrun & _ & Hentries & Hcolors).
  exists info. split; [done|]. split; [|done].
  intros z l. rewrite Hentries, elem_of_labels_of. split.
  + intros [[? ?] ?]. eauto.
  + intros [Hl (plane & Hz & Hon)]. split; [|eauto]. split; [done|].
    apply elem_of_ravel. exists plane. split; [|done].
    by eapply list_elem_of_lookup_2.
Qed.

Lemma footprint_nonempty (plane : Plane) (label : Z) :
  on_plane label plane → footprint plane label ≠ [].
Proof.
  unfold on_plane, Np.ravel2. rewrite list_elem_of_join.
  intros (row & [c Hc]%list_elem_of_lookup & [r Hr]%list_elem_of_lookup) E.
  assert ((Z.of_nat r, Z.of_nat c) ∈ footprint plane label) as Hin.
  { apply elem_of_mjoin_imap. exists r, row. split; [done|].
    apply elem_of_mjoin_imap. exists c, label. split; [done|].
    rewrite decide_True by done. by apply list_elem_of_singleton. }
  rewrite E in Hin. by apply elem_of_nil in Hin.
Qed.

Lemma palette_position_total (label_ids : list Z) (label : Z) :
  label ∈ label_ids →
  is_Some (Py.get (imap (λ i l, (l, i)) label_ids) label).
Proof.
  revert label.
  cut (∀ (f : nat → nat) label, label ∈ label_ids →
         is_Some (Py.get (imap (λ i l, (l, f i)) label_ids) label)).
  { intros H label. apply (H id). }
  induction label_ids as [|l ls IH]; intros f label Hin.
  - by apply elem_of_nil in Hin.
  - simpl. destruct (decide (l = label)); [eauto|].
    apply elem_of_cons in Hin as [?|Hin]; [congruence|].
    apply (IH (f ∘ S)), Hin.
Qed.

(** The example of the specification: label 3 on planes 0 and 1, label 7 on
    plane 1 only. *)
Lemma plot_info_entries_witness :
  ∃ plotting_info,
    get_plotting_info (U := footprint_utils (λ _, two_label_volume))
      two_label_volume = Ok plotting_info ∧
    is_Some (entry_at plotting_info 0 3) ∧
    is_Some (entry_at plotting_info 1 3) ∧
    is_Some (entry_at plotting_info 1 7) ∧
    entry_at plotting_info 0 7 = None.
Proof.
  destruct (plot_info_entries (U := footprint_utils (λ _, two_label_volume))
              two_label_volume) as (info & Hrun & Hentries & _).
  - intros label Hl. by apply palette_position_total.
  - intros plane label _ _ Hon. cbn.
    pose proof (footprint_nonempty plane label Hon).
    destruct (footprint plane label); [done|eauto].
  - exists info. split; [exact Hrun|].
    repeat split.
    + apply Hentries. split; [done|]. eexists. split; [reflexivity|].
      by apply (bool_decide_unpack _).
    + apply Hentries. split; [done|]. eexists. split; [reflexivity|].
      by apply (bool_decide_unpack _).
    + apply Hentries. split; [done|]. eexists. split; [reflexivity|].
      by apply (bool_decide_unpack _).
    + apply eq_None_not_Some. intros [_ (plane & [= <-] & Hon)]%Hentries.
      revert Hon. by apply (bool_decide_eq_false_1 _).
Defined.


(** ** Runs in the world *)

Section Runs.
Context `{U : Utils}.

Lemma bind_Ok {A B} (m : M A) (k : A → M B) (w w'' : World) (b : B) :
  (m ≫= k) w = Ok (b, w'') →
  ∃ a w', m w = Ok (a, w') ∧ k a w' = Ok (b, w'').
Proof.
  unfold mbind, M_bind. destruct (m w) as [[a w']|e]; [eauto|done].
Qed.

Lemma lift_Ok {A} (r : result A) (w w' : World) (a : A) :
  lift r w = Ok (a, w') → r = Ok a ∧ w' = w.
Proof. unfold lift. destruct r; [|done]. by intros [= -> ->]. Qed.

Lemma np_read_Ok (a : ndarray) (w w' : World) (v : Volume) :
  np_read a w = Ok (v, w') →
  w' = w ∧ ∃ v0, heap w !! buffer a = Some v0 ∧ v = view_of v0 (views a).
Proof.
  unfold np_read. destruct (heap w !! buffer a) as [v0|]; [|done].
  intros [= <- <-]. eauto.
Qed.

Lemma plt_add_gridspec_Ok (nrows ncols : nat) (w w' : World) (a : unit) :
  plt_add_gridspec nrows ncols w = Ok (a, w') →
  nrows ≠ 0%nat ∧ emit (add_gridspec nrows ncols) w = Ok (a, w').
Proof. unfold plt_add_gridspec. by destruct (decide _). Qed.

Lemma plt_savefig_Ok (path : string) (dpi : Z) (w w' : World) (a : unit) :
  plt_savefig path dpi w = Ok (a, w') →
  writable path = true ∧ emit (savefig path dpi) w = Ok (a, w').
Proof. unfold plt_savefig. by destruct (writable path). Qed.

Lemma for_Ok_invariant {A} (I : list A → World → Prop) (l : list A)
    (body : A → M unit) (w w' : World) :
  for_ l body w = Ok ((), w') →
  I [] w →
  (∀ done x rest w1 w2, l = done ++ x :: rest → I done w1 →
                        body x w1 = Ok ((), w2) → I (done ++ [x]) w2) →
  I l w'.
Proof.
  intros Hrun Hinit Hstep.
  cut (∀ rest done w0, l = done ++ rest → I done w0 →
                       for_ rest body w0 = Ok ((), w') → I l w').
  { intros Hgen. by apply (Hgen l [] w). }
  induction rest as [|x rest IH]; intros done w0 Hl Hdone Hrest.
  - rewrite app_nil_r in Hl. subst. by injection Hrest as <-.
  - simpl in Hrest. apply bind_Ok in Hrest as ([] & w1 & Hbody & Hrest).
    apply (IH (done ++ [x]) w1); [by rewrite <- app_assoc| |done].
    by eapply Hstep.
Qed.

(** *** Relations that every completed run respects *)

Lemma stable_ret {A} (R : relation World) `{!Reflexive R} (a : A) :
  stable R (mret a : M A).
Proof. intros w a' w' [= _ <-]. reflexivity. Qed.

Lemma stable_bind {A B} (R : relation World) `{!Transitive R}
    (m : M A) (k : A → M B) :
  stable R m → (∀ a, stable R (k a)) → stable R (m ≫= k).
Proof.
  intros Hm Hk w b w'' (a & w' & Hma & Hkb)%bind_Ok.
  transitivity w'; [by eapply Hm|by eapply Hk].
Qed.

Lemma stable_lift {A} (R : relation World) `{!Reflexive R} (r : result A) :
  stable R (lift r).
Proof. intros w a w' [_ ->]%lift_Ok. reflexivity. Qed.

Lemma stable_raise {A} (R : relation World) (e : exn) :
  stable R (raise e : M A).
Proof. by intros w a w'. Qed.

Lemma stable_np_read (R : relation World) `{!Reflexive R} (a : ndarray) :
  stable R (np_read a).
Proof. intros w v w' [-> _]%np_read_Ok. reflexivity. Qed.

Lemma stable_when (R : relation World) `{!Reflexive R} (b : bool)
    (m : M unit) :
  stable R m → stable R (when b m).
Proof. destruct b; [done|]. intros _. by apply stable_ret. Qed.

Lemma stable_for {A} (R : relation World) `{!PreOrder R} (l : list A)
    (body : A → M unit) :
  (∀ x, stable R (body x)) → stable R (for_ l body).
Proof.
  intros Hbody. induction l as [|x l IH]; simpl.
  - apply stable_ret, _.
  - apply stable_bind; [apply _|apply Hbody|done].
Qed.

#[global] Instance heap_grows_preorder : PreOrder heap_grows.
Proof.
  split; [intros w; by unfold heap_grows|].
  intros w1 w2 w3. unfold heap_grows. by etrans.
Qed.

#[global] Instance same_scan_preorder panel : PreOrder (same_scan panel).
Proof.
  split; [done|]. intros w1 w2 w3. unfold same_scan. congruence.
Qed.

#[global] Instance same_strokes_preorder panel : PreOrder (same_strokes panel).
Proof.
  split; [done|]. intros w1 w2 w3. unfold same_strokes. congruence.
Qed.

Lemma heap_grows_emit (c : plt_call) : stable heap_grows (emit c).
Proof. intros w [] w' [= <-]. by unfold heap_grows. Qed.

Lemma heap_grows_print (s : string) : stable heap_grows (print s).
Proof. intros w [] w' [= <-]. by unfold heap_grows. Qed.

Lemma np_alloc_fresh (v : Volume) (w w' : World) (a : ndarray) :
  np_alloc v w = Ok (a, w') →
  (buffer a ∉ dom (heap w))
  ∧ (heap w' = <[buffer a := v]> (heap w))
  ∧ views a = [].
Proof. intros [= <- <-]. split; [apply is_fresh|done]. Qed.

Lemma heap_grows_np_alloc (v : Volume) : stable heap_grows (np_alloc v).
Proof.
  intros w a w' (Hfresh & Hheap & _)%np_alloc_fresh.
  unfold heap_grows. rewrite Hheap.
  apply insert_subseteq. by apply not_elem_of_dom.
Qed.

End Runs.

Ltac stable_step :=
  first
    [ apply stable_bind; [apply _| |intros ?]
    | apply stable_ret; apply _
    | apply stable_lift; apply _
    | apply stable_raise
    | progress unfold plt_add_gridspec, plt_savefig
    | apply stable_np_read; apply _
    | apply stable_when; [apply _|]
    | apply stable_for; [apply _|intros ?]
    | match goal with
      | |- stable _ (if ?b then _ else _) => destruct b
      | |- stable _ (match ?p with pair _ _ => _ end) => destruct p
      end ].

Section Untouched.
Context `{U : Utils}.

Lemma run_heap_grows (inspection_object : InspectionObject) :
  stable heap_grows (run inspection_object).
Proof.
  unfold run, get_cropping_indices, crop_zstack, np_copy, np_load,
    plot_reconstructed_cells.
  repeat first [ stable_step | apply heap_grows_emit | apply heap_grows_print
               | apply heap_grows_np_alloc ].
Qed.

Lemma run_reads_zstack (inspection_object : InspectionObject)
    (w w' : World) :
  run inspection_object w = Ok ((), w') →
  ∃ cells, heap w !! buffer (zstack inspection_object) = Some cells.
Proof.
  unfold run, get_cropping_indices.
  intros (box & w1 & Hbox & _)%bind_Ok.
  apply bind_Ok in Hbox as (cells & w2 & Hread & _).
  apply np_read_Ok in Hread as (_ & v0 & Hv0 & _). eauto.
Qed.

(** C9. A completed run of the 2D strategy leaves the buffer of the loaded
    z-stack as it was, so the inspection object's z-stack shows the same
    cells before and after; the array that is cropped lives in a buffer
    that did not exist before the copy, not in the source's. *)
Theorem run_leaves_zstack_unchanged (inspection_object : InspectionObject)
    (w w' : World) :
  run inspection_object w = Ok ((), w') →
  ∃ cells,
    heap w !! buffer (zstack inspection_object) = Some cells ∧
    heap w' !! buffer (zstack inspection_object) = Some cells ∧
    (∃ shown, np_read (zstack inspection_object) w = Ok (shown, w)
              ∧ np_read (zstack inspection_object) w' = Ok (shown, w')) ∧
    (∀ box cropped_zstack w1,
       crop_zstack inspection_object box w = Ok (cropped_zstack, w1) →
       buffer cropped_zstack ≠ buffer (zstack inspection_object)
       ∧ (buffer cropped_zstack ∉ dom (heap w))
       ∧ heap w1 !! buffer (zstack inspection_object) = Some cells).
Proof.
  intros Hrun. destruct (run_reads_zstack _ _ _ Hrun) as [cells Hcells].
  pose proof (run_heap_grows _ _ _ _ Hrun) as Hgrows.
  assert (heap w' !! buffer (zstack inspection_object) = Some cells) as Hcells'
    by by eapply lookup_weaken.
  exists cells. split; [done|]. split; [done|]. split.
  - exists (view_of cells (views (zstack inspection_object))).
    unfold np_read. by rewrite Hcells, Hcells'.
  - intros box cropped w1 Hcrop. unfold crop_zstack, np_copy in Hcrop.
    apply bind_Ok in Hcrop as (copy & w2 & Hcopy & [= <- <-]).
    apply bind_Ok in Hcopy as (v & w3 & [-> _]%np_read_Ok & Halloc).
    apply np_alloc_fresh in Halloc as (Hfresh & Hheap & _). cbn.
    split; [|split; [done|]].
    + intros E. apply Hfresh. rewrite E. apply elem_of_dom. eauto.
    + rewrite Hheap. rewrite lookup_insert_ne; [done|].
      intros E. apply Hfresh. rewrite E. apply elem_of_dom. eauto.
Qed.

End Untouched.

Lemma run_leaves_zstack_unchanged_witness :
  ∃ w' : World (U := example_utils),
    run (U := example_utils) (example_object None) example_world = Ok ((), w')
    ∧ heap w' !! 1%positive = Some two_label_volume.
Proof.
  destruct (run (U := example_utils) (example_object None) example_world)
    as [[[] w']|e] eqn:Hrun; [|by vm_compute in Hrun].
  exists w'. split; [done|].
  destruct (run_leaves_zstack_unchanged (U := example_utils)
              (example_object None) example_world w' Hrun)
    as (cells & Hbefore & Hafter & _).
  vm_compute in Hbefore. injection Hbefore as <-. exact Hafter.
Defined.

(** ** Running the strategies of the database *)

Section Strategies.
Context `{U : Utils}.
Context (subclass_run : string → InspectionObject → M unit).

Lemma for_strategies_runs_each (self : InspectionObject)
    (strategies : list strategy_class) (w w' : World) :
  for_ strategies (λ inspection_strategy,
    instantiate_and_run subclass_run inspection_strategy self) w
  = Ok ((), w')
  ↔ runs_each subclass_run self strategies w w'.
Proof.
  revert w. induction strategies as [|c strategies IH]; intros w; simpl.
  - split; [intros [= <-]; constructor|by inversion 1].
  - split.
    + intros ([] & w1 & Hc & Hrest)%bind_Ok.
      econstructor; [exact Hc|]. by apply IH.
    + inversion 1 as [|? ? ? w1 ? Hc Hrest]; subst.
      unfold mbind, M_bind. rewrite Hc. by apply IH.
Qed.

Lemma for_strategies_complete (self : InspectionObject)
    (strategies : list strategy_class) (w : World) :
  (∀ c w0, c ∈ strategies →
           ∃ w1, instantiate_and_run subclass_run c self w0 = Ok ((), w1)) →
  ∃ w', runs_each subclass_run self strategies w w'.
Proof.
  revert w. induction strategies as [|c strategies IH]; intros w Hall.
  - exists w. constructor.
  - destruct (Hall c w) as [w1 Hc]; [left|].
    destruct (IH w1) as [w' Hrest].
    { intros c' w0 Hc'. apply Hall. by right. }
    exists w'. by econstructor.
Qed.

(** C10. Without an [inspection_strategies] attribute on the database,
    [run_all_inspection_steps] returns normally and leaves the world as it
    found it; with the attribute, it completes exactly when each strategy of
    the sequence, in order, is instantiated and run on this same inspection
    object from the world its predecessor left, and it does complete when
    none of them raises. *)
Theorem run_all_inspection_steps_each (self : InspectionObject) (w : World) :
  (inspection_strategies (database self) = None →
   run_all_inspection_steps subclass_run self w = Ok ((), w)) ∧
  (∀ strategies,
     inspection_strategies (database self) = Some strategies →
     (∀ w', run_all_inspection_steps subclass_run self w = Ok ((), w')
            ↔ runs_each subclass_run self strategies w w') ∧
     ((∀ c w0, c ∈ strategies →
               ∃ w1, instantiate_and_run subclass_run c self w0
                     = Ok ((), w1)) →
      ∃ w', run_all_inspection_steps subclass_run self w = Ok ((), w'))).
Proof.
  unfold run_all_inspection_steps. split.
  - by intros ->.
  - intros strategies ->. split.
    + intros w'. apply for_strategies_runs_each.
    + intros Hall.
      destruct (for_strategies_complete self strategies w Hall) as [w' Hw'].
      exists w'. by apply for_strategies_runs_each.
Qed.

End Strategies.

Lemma run_all_inspection_steps_each_witness :
  run_all_inspection_steps (U := example_utils) (λ name _, print name)
    (example_object None) example_world = Ok ((), example_world)
  ∧ ∃ w1 w2,
      run (U := example_utils)
        (example_object (Some [InspectReconstructedCells2D; subclass "Other"]))
        example_world = Ok ((), w1)
      ∧ print "Other" w1 = Ok ((), w2)
      ∧ run_all_inspection_steps (U := example_utils) (λ name _, print name)
          (example_object (Some [InspectReconstructedCells2D; subclass "Other"]))
          example_world = Ok ((), w2).
Proof.
  split.
  - by apply (run_all_inspection_steps_each (U := example_utils)).
  - destruct (run (U := example_utils)
                (example_object
                   (Some [InspectReconstructedCells2D; subclass "Other"]))
                example_world) as [[[] w1]|e] eqn:Hrun;
      [|by vm_compute in Hrun].
    exists w1. eexists. split; [done|]. split; [reflexivity|].
    eapply (run_all_inspection_steps_each (U := example_utils));
      [reflexivity|].
    econstructor; [exact Hrun|]. econstructor; [reflexivity|]. constructor.
Defined.

(** ** The assembled figure *)

Section Figure.
Context `{U : Utils}.

Lemma scan_snoc (panel : nat * nat) (calls : list plt_call) (c : plt_call) :
  scan panel (calls ++ [c]) = scan_step panel (scan panel calls) c.
Proof. unfold scan. by rewrite foldl_app. Qed.

Lemma scan_step_stroke (panel : nat * nat) (current : option (nat * nat))
    (strokes : list plt_call) (xs ys : list Z) (c : Color + string)
    (lw : linewidth) :
  scan_step panel (current, strokes) (plot (list_data xs) (list_data ys) c lw)
  = (current,
     if decide (current = Some panel)
     then strokes ++ [plot (list_data xs) (list_data ys) c lw] else strokes).
Proof. cbn. by destruct (decide _). Qed.

Lemma scan_emit (panel : nat * nat) (c : plt_call) (w w' : World) (a : unit) :
  emit c w = Ok (a, w') →
  scan panel (plt w') = scan_step panel (scan panel (plt w)) c.
Proof. destruct a. intros [= <-]. apply scan_snoc. Qed.

Lemma same_scan_emit (panel : nat * nat) (c : plt_call) :
  (∀ s, scan_step panel s c = s) → stable (same_scan panel) (emit c).
Proof.
  intros Hc w a w' Hemit. unfold same_scan.
  by rewrite (scan_emit _ _ _ _ _ Hemit), Hc.
Qed.

Lemma same_scan_print (panel : nat * nat) (s : string) :
  stable (same_scan panel) (print s).
Proof. by intros w [] w' [= <-]. Qed.

Lemma same_strokes_emit (panel : nat * nat) (c : plt_call) :
  (∀ s, (scan_step panel s c).2 = s.2) →
  stable (same_strokes panel) (emit c).
Proof.
  intros Hc w a w' Hemit. unfold same_strokes, strokes_on.
  by rewrite (scan_emit _ _ _ _ _ Hemit), Hc.
Qed.

End Figure.

Ltac quiet_emit :=
  first [ apply same_scan_emit; by intros []
        | apply same_strokes_emit; by intros []
        | apply same_scan_print ].

(** [use_stable R H] adds what relation [R] says about the completed run
    [H], once the run is shown to respect [R]. *)
Ltac use_stable R H :=
  lazymatch type of H with
  | ?m ?w = Ok (?a, ?w') =>
      let Hs := fresh "Hs" in
      assert (stable R m) as Hs
        by (repeat first [stable_step | quiet_emit]);
      specialize (Hs _ _ _ H)
  end.

Section Strokes.
Context `{U : Utils}.

Lemma index_Ok_lt {A} (l : list A) (i : nat) (x : A) :
  Py.index l (Z.of_nat i) = Ok x → (i < length l)%nat.
Proof.
  unfold Py.index. destruct (Z.ltb_spec (Z.of_nat i) 0); [lia|].
  destruct (Z.ltb_spec (Z.of_nat i) 0); [lia|].
  destruct (Z.leb_spec (Z.of_nat (length l)) (Z.of_nat i)); [done|].
  intros _. lia.
Qed.

(** The marker strokes of the figure that [plot_reconstructed_cells]
    assembles: the crosshair on the third panel of the row of interest, if
    the stack has that row, and nothing else. *)
Lemma plot_reconstructed_cells_strokes
    (preprocessed_zstack instance_seg_zstack final_labels_zstack : ndarray)
    (plotting_info : PlotInfo) (plane_id_of_interest : nat)
    (filepath : string) (save show : bool) (w w' : World) :
  plot_reconstructed_cells preprocessed_zstack instance_seg_zstack
    final_labels_zstack plotting_info plane_id_of_interest filepath save show
    w = Ok ((), w') →
  ∃ final_labels,
    np_read final_labels_zstack w = Ok (final_labels, w) ∧
    ∀ panel,
      strokes_on panel (plt w')
      = if decide (panel = (plane_id_of_interest, 2%nat)
                   ∧ (plane_id_of_interest < length final_labels)%nat)
        then crosshair 200 200 15 else [].
Proof.
  intros Hrun. unfold plot_reconstructed_cells in Hrun.
  apply bind_Ok in Hrun as (pre & w1 & [-> _]%np_read_Ok & Hrun).
  apply bind_Ok in Hrun as (inst & w2 & [-> _]%np_read_Ok & Hrun).
  apply bind_Ok in Hrun as (fin & w3 & Hfin & Hrun).
  pose proof Hfin as [-> _]%np_read_Ok.
  exists fin. split; [done|]. intros panel.
  apply bind_Ok in Hrun as ([] & w4' & Hfig & Hrun).
  apply bind_Ok in Hrun as ([] & w4 & [_ Hgrid]%plt_add_gridspec_Ok & Hrun).
  apply bind_Ok in Hrun as ([] & w5 & Hloop1 & Hrun).
  apply bind_Ok in Hrun as ([] & w6 & Hloop2 & Hrun).
  apply bind_Ok in Hrun as ([] & w7 & Hloop3 & Hrun).
  apply bind_Ok in Hrun as ([] & w8 & Hsave & Hshow).
  assert (strokes_on panel (plt w4) = []) as H4.
  { unfold strokes_on.
    by rewrite (scan_emit _ _ _ _ _ Hgrid), (scan_emit _ _ _ _ _ Hfig). }
  use_stable (same_strokes panel) Hloop1.
  use_stable (same_strokes panel) Hloop2.
  use_stable (same_scan panel) Hsave.
  assert (same_scan panel w8 w') as Hs2.
  { destruct show;
      (eapply same_scan_emit; [|exact Hshow]; by intros []). }
  unfold same_strokes in *. unfold same_scan in Hs1, Hs2.
  unfold strokes_on at 1. rewrite Hs2, Hs1. fold (strokes_on panel (plt w7)).
  assert (strokes_on panel (plt w6) = []) as H6 by congruence.
  clear dependent w4. clear Hs0 Hs1 Hs2 Hsave Hshow.
  pose proof (for_Ok_invariant
    (λ done w0, strokes_on panel (plt w0)
       = if decide (panel = (plane_id_of_interest, 2%nat)
                    ∧ plane_id_of_interest ∈ done)
         then crosshair 200 200 15 else []) _ _ _ _ Hloop3) as Hinv.
  cbn beta in Hinv. rewrite Hinv; clear Hinv.
  - apply decide_ext. unfold Py.range. rewrite elem_of_seq.
    split; (intros [? ?]; split; [done|lia]).
  - rewrite H6. rewrite decide_False; [done|].
    intros [_ ?%elem_of_nil]. done.
  - intros done x rest wa wb Hl Hdone Hbody.
    assert (x ∉ done) as Hfresh.
    { pose proof (NoDup_seq 0 (length fin)) as Hnd. unfold Py.range in Hl.
      rewrite Hl in Hnd. apply NoDup_app in Hnd as (_ & Hnd & _).
      intros Hx. apply (Hnd x Hx). left. }
    apply bind_Ok in Hbody as ([] & u1 & Hsub & Hbody).
    apply bind_Ok in Hbody as (img & u2 & [_ ->]%lift_Ok & Hbody).
    apply bind_Ok in Hbody as ([] & u3 & Himshow & Hbody).
    apply bind_Ok in Hbody as (per_plane & u4 & [_ ->]%lift_Ok & Hbody).
    apply bind_Ok in Hbody as ([] & u5 & Hkeys & Hbody).
    apply bind_Ok in Hbody as ([] & u6 & Hcross & Htitle).
    use_stable (same_scan panel) Htitle.
    use_stable (same_scan panel) Hkeys.
    unfold same_scan in *. unfold strokes_on in *. rewrite Hs. clear Hs Htitle.
    assert (scan panel (plt u5) = (Some (x, 2%nat), (scan panel (plt wa)).2))
      as H5.
    { rewrite Hs0, (scan_emit _ _ _ _ _ Himshow), (scan_emit _ _ _ _ _ Hsub).
      done. }
    clear Hs0 Hkeys Himshow Hsub. rewrite Hdone in H5. clear Hdone.
    unfold when in Hcross. destruct (bool_decide_reflect (x = plane_id_of_interest))
      as [->|Hne].
    + apply bind_Ok in Hcross as ([] & v1 & Hc1 & Hc2).
      rewrite (scan_emit _ _ _ _ _ Hc2), (scan_emit _ _ _ _ _ Hc1), H5.
      rewrite !scan_step_stroke. cbn [snd].
      destruct (decide (Some (plane_id_of_interest, 2%nat) = Some panel))
        as [[= <-]|Hother].
      * rewrite decide_False by tauto.
        rewrite decide_True; [done|]. split; [done|].
        apply elem_of_app. right. left.
      * rewrite decide_False by (by intros [-> _]).
        by rewrite decide_False by (by intros [-> _]).
    + injection Hcross as <-. rewrite H5. cbn [snd].
      apply decide_ext. rewrite elem_of_app, list_elem_of_singleton.
      split; [tauto|]. intros [? [?|?]]; [done|congruence].
Qed.

Lemma get_cropping_indices_Ok (inspection_object : InspectionObject)
    (w w' : World) (box : Z * Z * Z * Z) :
  get_cropping_indices inspection_object w = Ok (box, w') →
  w' = w ∧
  ∃ cells single_plane,
    np_read (zstack inspection_object) w = Ok (cells, w) ∧
    Py.index cells (Z.of_nat (plane_id inspection_object)) = Ok single_plane.
Proof.
  unfold get_cropping_indices.
  intros (cells & w1 & Hread & Hrest)%bind_Ok.
  pose proof Hread as [-> _]%np_read_Ok.
  apply bind_Ok in Hrest as (single_plane & w2 & [Hidx ->]%lift_Ok & Hrest).
  apply bind_Ok in Hrest as (roi & w3 & [_ ->]%lift_Ok & Hrest).
  repeat destruct (adjust_cropping_box_to_image_borders _ _ _).
  injection Hrest as _ <-. eauto.
Qed.

Lemma length_view_of_slice (cells : Volume) (box : Z * Z * Z * Z) :
  length (view_of cells [box]) = length cells.
Proof.
  destruct box as [[[minx maxx] miny] maxy]. cbn. unfold Np.crop.
  by rewrite length_fmap.
Qed.

(** *** Runs that return *)

Lemma bind_returns {A B} (m : M A) (k : A → M B) (w w1 : World) (a : A) :
  m w = Ok (a, w1) →
  (∃ b w', k a w1 = Ok (b, w')) →
  ∃ b w', (m ≫= k) w = Ok (b, w').
Proof. intros Hm. unfold mbind, M_bind. by rewrite Hm. Qed.

Lemma completes_ret {A} (a : A) : completes (mret a : M A).
Proof. intros w. by exists a, w. Qed.

Lemma completes_bind {A B} (m : M A) (k : A → M B) :
  completes m → (∀ a, completes (k a)) → completes (m ≫= k).
Proof.
  intros Hm Hk w. destruct (Hm w) as (a & w1 & Ha).
  eapply bind_returns; [exact Ha|]. apply Hk.
Qed.

Lemma completes_lift {A} (r : result A) :
  (∃ a, r = Ok a) → completes (lift r).
Proof. intros [a ->] w. by exists a, w. Qed.

Lemma completes_emit (c : plt_call) : completes (emit c).
Proof. intros w. by eexists _, _. Qed.

Lemma completes_print (s : string) : completes (print s).
Proof. intros w. by eexists _, _. Qed.

Lemma completes_np_alloc (v : Volume) : completes (np_alloc v).
Proof. intros w. by eexists _, _. Qed.

Lemma completes_when (b : bool) (m : M unit) :
  (b = true → completes m) → completes (when b m).
Proof. destruct b; [by intros Hm; apply Hm|]. intros _. apply completes_ret. Qed.

Lemma completes_plt_add_gridspec (nrows ncols : nat) :
  (0 < nrows)%nat → completes (plt_add_gridspec nrows ncols).
Proof.
  intros Hrows. unfold plt_add_gridspec.
  destruct (decide _); [lia|apply completes_emit].
Qed.

Lemma completes_plt_savefig (path : string) (dpi : Z) :
  writable path = true → completes (plt_savefig path dpi).
Proof. intros Hpath. unfold plt_savefig. rewrite Hpath. apply completes_emit. Qed.

Lemma completes_for {A} (l : list A) (body : A → M unit) :
  (∀ x, x ∈ l → completes (body x)) → completes (for_ l body).
Proof.
  induction l as [|x l IH]; intros Hbody; simpl.
  - apply completes_ret.
  - apply completes_bind; [apply Hbody; left|]. intros _.
    apply IH. intros y Hy. apply Hbody. by right.
Qed.

Lemma get_keys `{EqDecision K} {V} (d : Py.dict K V) (k : K) :
  k ∈ Py.keys d → is_Some (Py.get d k).
Proof.
  unfold Py.keys. induction d as [|[k0 v0] d IH]; simpl.
  - by intros ?%elem_of_nil.
  - intros Hk. destruct (decide (k0 = k)); [eauto|].
    apply elem_of_cons in Hk as [?|Hk]; [congruence|]. by apply IH.
Qed.

Lemma getitem_is_Some `{EqDecision K} {V} (d : Py.dict K V) (k : K) :
  is_Some (Py.get d k) → ∃ v, Py.getitem d k = Ok v.
Proof. intros [v Hv]. exists v. by apply getitem_Some. Qed.

Lemma index_range {A} (l : list A) (n i : nat) :
  (n ≤ length l)%nat → i ∈ Py.range n → ∃ x, Py.index l (Z.of_nat i) = Ok x.
Proof.
  intros Hn Hi%elem_of_seq.
  destruct (index_in_range l (Z.of_nat i)) as (x & _ & Hx); [lia|eauto].
Qed.

Lemma np_read_weaken (a : ndarray) (v : Volume) (w w' : World) :
  np_read a w = Ok (v, w) → heap_grows w w' → np_read a w' = Ok (v, w').
Proof.
  intros (_ & v0 & Hv0 & ->)%np_read_Ok Hgrows. unfold np_read.
  by rewrite (lookup_weaken _ _ _ _ Hv0 Hgrows).
Qed.

Lemma plot_reconstructed_cells_completes
    (preprocessed_zstack instance_seg_zstack final_labels_zstack : ndarray)
    (plotting_info : PlotInfo) (plane_id_of_interest : nat)
    (filepath : string) (save show : bool) (w : World)
    (preprocessed instance_seg final_labels : Volume) :
  np_read preprocessed_zstack w = Ok (preprocessed, w) →
  np_read instance_seg_zstack w = Ok (instance_seg, w) →
  np_read final_labels_zstack w = Ok (final_labels, w) →
  (0 < length final_labels)%nat →
  (length final_labels ≤ length preprocessed)%nat →
  (length final_labels ≤ length instance_seg)%nat →
  (∀ z, (z < length final_labels)%nat → is_Some (Py.get plotting_info z)) →
  (save = true → writable filepath = true) →
  ∃ (b : unit) w',
    plot_reconstructed_cells preprocessed_zstack instance_seg_zstack
      final_labels_zstack plotting_info plane_id_of_interest filepath
      save show w = Ok (b, w').
Proof.
  intros Hpre Hinst Hfin Hrows Hlpre Hlinst Hkeys Hpath.
  unfold plot_reconstructed_cells.
  eapply bind_returns; [exact Hpre|].
  eapply bind_returns; [exact Hinst|].
  eapply bind_returns; [exact Hfin|].
  revert w Hpre Hinst Hfin. intros w _ _ _. revert w.
  change (completes
    (emit (plt_figure (15, 5 * Z.of_nat (length final_labels)) "white");;
     plt_add_gridspec (length final_labels) 3;;
     for_ (Py.range (length final_labels)) (λ plane_index,
       emit (add_subplot plane_index 0);;
       img ← lift (Py.index preprocessed (Z.of_nat plane_index));
       emit (imshow img None);;
       emit (ylabel ("plane_" +:+ pretty plane_index));;
       when (bool_decide (plane_index = 0%nat)) (emit (title "input image")));;
     for_ (Py.range (length final_labels)) (λ plane_index,
       emit (add_subplot plane_index 1);;
       img ← lift (Py.index instance_seg (Z.of_nat plane_index));
       emit (imshow img None);;
       when (bool_decide (plane_index = 0%nat))
            (emit (title "instance segmentation")));;
     for_ (Py.range (length final_labels)) (λ plane_index,
       emit (add_subplot plane_index 2);;
       img ← lift (Py.index final_labels (Z.of_nat plane_index));
       emit (imshow img (Some "Greys_r"));;
       per_plane ← lift (Py.getitem plotting_info plane_index);
       for_ (Py.keys per_plane) (λ label_id,
         entry ← lift (Py.getitem per_plane label_id);
         emit (plot (array_data (boundary_y_coords entry))
                    (array_data (boundary_x_coords entry))
                    (inl (color entry)) (lw_int 3)));;
       when (bool_decide (plane_index = plane_id_of_interest))
            (emit (plot (list_data [185; 215]) (list_data [200; 200])
                        (inr "red") (lw_str "3"));;
             emit (plot (list_data [200; 200]) (list_data [185; 215])
                        (inr "red") (lw_str "3")));;
       when (bool_decide (plane_index = 0%nat))
            (emit (title "connected components (color-coded)")));;
     when save
          (plt_savefig filepath 300;;
           print ("The resulting plot was successfully saved to: "
                  +:+ filepath));;
     if show then emit plt_show else emit plt_close)).
  repeat first
    [ apply completes_emit | apply completes_print | apply completes_ret
    | by apply completes_plt_add_gridspec
    | by apply completes_plt_savefig, Hpath
    | apply completes_when; intros ?
    | apply completes_bind; [|intros ?]
    | apply completes_for; intros ? ?
    | match goal with |- completes (if ?b then _ else _) => destruct b end ].
  - apply completes_lift. by eapply index_range; [exact Hlpre|].
  - apply completes_lift. by eapply index_range; [exact Hlinst|].
  - apply completes_lift. by eapply index_range; [reflexivity|].
  - apply completes_lift, getitem_is_Some, Hkeys.
    match goal with H : _ ∈ Py.range _ |- _ => apply elem_of_seq in H end. lia.
  - apply completes_lift. by apply getitem_is_Some, get_keys.
Qed.

Lemma index_lookup {A} (l : list A) (i : nat) (x : A) :
  l !! i = Some x → Py.index l (Z.of_nat i) = Ok x.
Proof.
  intros Hx. destruct (index_in_range l (Z.of_nat i)) as (y & Hy & ->).
  - split; [lia|]. apply inj_lt. by eapply lookup_lt_Some.
  - rewrite Nat2Z.id in Hy. congruence.
Qed.

Lemma select_Ok_inv (zstack : Volume) (label_index label : Z) (p : nat) :
  select zstack label_index = Ok (label, p) →
  label ∈ labels_of zstack
  ∧ ∃ plane, zstack !! p = Some plane ∧ on_plane label plane.
Proof.
  unfold select. rewrite get_label_id_labels_of.
  destruct (Py.index (labels_of zstack) label_index) as [l|] eqn:Hl; [|done].
  cbn. rewrite get_plane_id_cell_planes.
  destruct (Py.index (cell_planes zstack l) _) as [q|] eqn:Hq; [|done].
  cbn. intros [= <- <-]. split; [by eapply index_Ok_elem_of|].
  by apply index_Ok_elem_of, elem_of_cell_planes in Hq.
Qed.

Lemma np_alloc_read (v : Volume) (a : ndarray) (w w' : World) :
  np_alloc v w = Ok (a, w') → np_read a w' = Ok (v, w').
Proof.
  intros (_ & Hheap & Hviews)%np_alloc_fresh. unfold np_read.
  by rewrite Hheap, lookup_insert_eq, Hviews.
Qed.

Ltac run_step H a w' :=
  lazymatch goal with
  | |- ∃ _ _, (?m ≫= _) ?w = _ =>
      destruct (m w) as [[a w']|?] eqn:H;
      [eapply bind_returns; [exact H|] | ]
  end.

(** An inspection object made by the selector runs the 2D strategy to the
    end when the collaborators keep their contracts and, if the figure is
    to be saved, its destination can be written. *)
Lemma run_completes (inspection_object : InspectionObject) (w : World)
    (cells : Volume) :
  np_read (zstack inspection_object) w = Ok (cells, w) →
  (∃ label_index,
     select cells label_index
     = Ok (label_id inspection_object, plane_id inspection_object)) →
  extractor_answers → colors_cover → loader_delivers (length cells) →
  (save inspection_object = true →
   writable
     (joinpath (inspected_area_plots_dir (database inspection_object))
        (file_id inspection_object +:+ "_"
         +:+ area_roi_id inspection_object +:+ "_"
         +:+ pretty (label_id inspection_object) +:+ "_2D.png")) = true) →
  ∃ w', run inspection_object w = Ok ((), w').
Proof.
  intros Hread [i Hsel] Hext Hcol Hload Hpath.
  apply select_Ok_inv in Hsel as (Hlabel & plane & Hplane & Hon).
  apply elem_of_labels_of in Hlabel as [Hnz _].
  destruct (Hext plane (label_id inspection_object) Hnz Hon) as [roi Hroi].
  cut (∃ (b : unit) w', run inspection_object w = Ok (b, w')).
  { intros ([] & w' & ?). eauto. }
  unfold run.
  run_step Hbox box w1.
  2:{ revert Hbox. unfold get_cropping_indices, mbind, M_bind.
      rewrite Hread. cbn. rewrite (index_lookup _ _ _ Hplane). cbn.
      rewrite Hroi. cbn.
      by repeat destruct (adjust_cropping_box_to_image_borders _ _ _). }
  apply get_cropping_indices_Ok in Hbox as [-> _].
  run_step Hcrop cropped w2.
  2:{ revert Hcrop. unfold crop_zstack, np_copy, mbind, M_bind.
      by rewrite Hread. }
  assert (np_read cropped w2 = Ok (view_of cells [box], w2)) as Hshown.
  { unfold crop_zstack, np_copy in Hcrop.
    apply bind_Ok in Hcrop as (copy & w3 & Hcopy & [= <- <-]).
    apply bind_Ok in Hcopy as (cells' & w4 & Hcells' & Halloc).
    rewrite Hread in Hcells'. injection Hcells' as <- <-.
    apply np_alloc_fresh in Halloc as (_ & Hheap & Hviews).
    unfold np_read. cbn. by rewrite Hheap, lookup_insert_eq, Hviews. }
  eapply bind_returns; [exact Hshown|].
  destruct (get_plotting_info_recorded (view_of cells [box]))
    as (info & Hinfo & Hkeys & _).
  { intros label Hl. by apply Hcol. }
  { intros p label _ Hl Hp. by apply Hext. }
  eapply bind_returns; [unfold lift; by rewrite Hinfo|].
  run_step Hpre pre w3; [|done].
  run_step Hinst seg w4; [|done].
  cbn zeta.
  run_step Hprint u w5.
  2:{ revert Hprint. by destruct (show inspection_object). }
  assert (heap_grows w2 w3) as H23 by by eapply heap_grows_np_alloc.
  assert (heap_grows w3 w4) as H34 by by eapply heap_grows_np_alloc.
  assert (heap_grows w4 w5) as H45.
  { revert Hprint. apply stable_when; [apply _|apply heap_grows_print]. }
  apply np_alloc_read in Hpre, Hinst.
  eapply plot_reconstructed_cells_completes.
  - eapply np_read_weaken; [|exact H45]. eapply np_read_weaken; [|exact H34].
    exact Hpre.
  - eapply np_read_weaken; [|exact H45]. exact Hinst.
  - eapply np_read_weaken; [|exact H45]. eapply np_read_weaken; [|exact H34].
    eapply np_read_weaken; [|exact H23]. exact Hshown.
  - rewrite length_view_of_slice.
    pose proof (lookup_lt_Some _ _ _ Hplane). lia.
  - rewrite length_view_of_slice. apply Hload.
  - rewrite length_view_of_slice. apply Hload.
  - intros z Hz. by apply Hkeys.
  - exact Hpath.
Qed.

Lemma run_strokes (inspection_object : InspectionObject) (w w' : World) :
  run inspection_object w = Ok ((), w') →
  ∀ panel,
    strokes_on panel (plt w')
    = if decide (panel = (plane_id inspection_object, 2%nat))
      then crosshair 200 200 15 else [].
Proof.
  intros Hrun panel. unfold run in Hrun.
  apply bind_Ok in Hrun as (box & w1 & Hbox & Hrun).
  apply get_cropping_indices_Ok in Hbox
    as (-> & cells & single_plane & Hcells & Hidx%index_Ok_lt).
  apply bind_Ok in Hrun as (cropped & w2 & Hcrop & Hrun).
  unfold crop_zstack, np_copy in Hcrop.
  apply bind_Ok in Hcrop as (copy & w3 & Hcopy & [= <- <-]).
  apply bind_Ok in Hcopy as (cells' & w4 & Hcells' & Halloc).
  rewrite Hcells in Hcells'. injection Hcells' as <- <-.
  apply np_alloc_fresh in Halloc as (_ & Hheap & Hviews).
  apply bind_Ok in Hrun as (shown & w5 & [-> _]%np_read_Ok & Hrun).
  apply bind_Ok in Hrun as (info & w6 & [_ ->]%lift_Ok & Hrun).
  apply bind_Ok in Hrun as (pre & w7 & Hpre%heap_grows_np_alloc & Hrun).
  apply bind_Ok in Hrun as (inst & w8 & Hinst%heap_grows_np_alloc & Hrun).
  apply bind_Ok in Hrun as ([] & w9 & Hprint & Hplot).
  assert (heap_grows w8 w9) as Hw9.
  { revert Hprint. apply stable_when; [apply _|apply heap_grows_print]. }
  apply plot_reconstructed_cells_strokes in Hplot
    as (final_labels & Hfinal & ->).
  apply np_read_Ok in Hfinal as (_ & v0 & Hv0 & ->).
  assert (heap w9 !! buffer copy = Some cells) as Hcopy.
  { eapply lookup_weaken; [|exact Hw9].
    eapply lookup_weaken; [|exact Hinst].
    eapply lookup_weaken; [|exact Hpre].
    rewrite Hheap. apply lookup_insert_eq. }
  cbn in Hv0. rewrite Hcopy in Hv0. injection Hv0 as <-.
  cbn [np_slice views]. rewrite Hviews, app_nil_l, length_view_of_slice.
  destruct (decide (panel = (plane_id inspection_object, 2%nat))).
  - by rewrite decide_True.
  - by rewrite decide_False by tauto.
Qed.


(** C8 (as amended). An inspection object made by the selector, with
    collaborators that keep their contracts and, if the figure is to be
    saved, a destination that can be written, gets its figure; in it the
    only marker strokes are those of a red crosshair with arms of 15 at the
    fixed panel position (200, 200), drawn on the third panel of the row of
    the representative plane; that position is the centre of the crop
    window exactly when the window is 400 wide and 400 high. *)
Theorem crosshair_at_fixed_position (inspection_object : InspectionObject)
    (w : World) (cells : Volume) :
  np_read (zstack inspection_object) w = Ok (cells, w) →
  (∃ label_index,
     select cells label_index
     = Ok (label_id inspection_object, plane_id inspection_object)) →
  extractor_answers → colors_cover → loader_delivers (length cells) →
  (save inspection_object = true →
   writable
     (joinpath (inspected_area_plots_dir (database inspection_object))
        (file_id inspection_object +:+ "_"
         +:+ area_roi_id inspection_object +:+ "_"
         +:+ pretty (label_id inspection_object) +:+ "_2D.png")) = true) →
  ∃ w',
    run inspection_object w = Ok ((), w') ∧
    (∀ panel,
       strokes_on panel (plt w')
       = if decide (panel = (plane_id inspection_object, 2%nat))
         then crosshair 200 200 15 else []) ∧
    (∀ cminx cmaxx cminy cmaxy w0,
       get_cropping_indices inspection_object w
       = Ok ((cminx, cmaxx, cminy, cmaxy), w0) →
       window_center (cminx, cmaxx, cminy, cmaxy) 200 200
       ↔ cmaxx - cminx = 400 ∧ cmaxy - cminy = 400).
Proof.
  intros Hread Hsel Hext Hcol Hload Hpath.
  destruct (run_completes _ _ _ Hread Hsel Hext Hcol Hload Hpath)
    as [w' Hrun].
  exists w'. split; [done|]. split; [by eapply run_strokes|].
  intros. unfold window_center. lia.
Qed.

End Strokes.

Lemma footprint_utils_extractor_answers (files : string → Volume) :
  extractor_answers (U := footprint_utils files).
Proof.
  intros plane label _ Hon. cbn.
  pose proof (footprint_nonempty plane label Hon).
  destruct (footprint plane label); [done|eauto].
Qed.

Lemma footprint_utils_colors_cover (files : string → Volume) :
  colors_cover (U := footprint_utils files).
Proof. intros label_ids label. apply palette_position_total. Qed.

Lemma example_loader_delivers :
  loader_delivers (U := example_utils) (length two_label_volume).
Proof.
  intros path file_id [[[[minx maxx] miny] maxy]|]; cbn; lia.
Qed.

Lemma crosshair_at_fixed_position_witness :
  ∃ w' : World (U := example_utils),
    run (U := example_utils) (example_object None) example_world = Ok ((), w')
    ∧ strokes_on (0%nat, 2%nat) (plt w') = crosshair 200 200 15
    ∧ strokes_on (1%nat, 2%nat) (plt w') = [].
Proof.
  destruct (crosshair_at_fixed_position (U := example_utils)
              (example_object None) example_world two_label_volume)
    as (w' & Hrun & Hstrokes & _).
  - reflexivity.
  - exists 0. by vm_compute.
  - apply footprint_utils_extractor_answers.
  - apply footprint_utils_colors_cover.
  - apply example_loader_delivers.
  - intros _. by vm_compute.
  - exists w'. split; [done|]. split; apply Hstrokes.
Defined.

(** C8 (as stated) fails: the planes of the example are 3 by 3, the crop
    window is the whole plane with its centre at (1.5, 1.5), and the
    crosshair is drawn at (200, 200) all the same. *)
Lemma crosshair_off_center_in_small_window :
  ∃ w' : World (U := example_utils),
    run (U := example_utils) (example_object None) example_world = Ok ((), w')
    ∧ get_cropping_indices (U := example_utils) (example_object None)
        example_world = Ok ((0, 3, 0, 3), example_world)
    ∧ strokes_on (0%nat, 2%nat) (plt w') = crosshair 200 200 15
    ∧ ¬ window_center (0, 3, 0, 3) 200 200.
Proof.
  eexists. split; [by vm_compute|]. split; [by vm_compute|].
  split; [by vm_compute|]. unfold window_center. lia.
Qed.

(** * Further properties of the selector *)

Lemma sorted_lookup {A} (R : relation A) (l : list A) (i j : nat) (x y : A) :
  StronglySorted R l → l !! i = Some x → l !! j = Some y → (i < j)%nat →
  R x y.
Proof.
  intros Hl Hi Hj Hij. rewrite <- (take_drop_middle l j y Hj) in Hl.
  apply StronglySorted_app in Hl as (Hcross & _ & _).
  apply Hcross; [|left]. apply elem_of_take. eauto.
Qed.

Lemma sorted_filter {A} (R : relation A) (P : A → Prop)
    `{∀ x, Decision (P x)} (l : list A) :
  StronglySorted R l → StronglySorted R (filter P l).
Proof.
  induction 1 as [|x l Hl IH Hx]; [constructor|].
  rewrite filter_cons. destruct (decide (P x)); [|done].
  constructor; [done|]. apply Forall_forall. intros y [_ Hy]%list_elem_of_filter.
  by eapply Forall_forall in Hx.
Qed.

Lemma labels_of_sorted (zstack : Volume) :
  StronglySorted Z.lt (labels_of zstack).
Proof. apply sorted_filter, unique_sorted. Qed.

Lemma index_nonneg_Ok {A} (l : list A) (i : Z) (x : A) :
  0 <= i → Py.index l i = Ok x → l !! Z.to_nat i = Some x.
Proof.
  intros Hi. unfold Py.index. destruct (Z.ltb_spec i 0); [lia|].
  destruct (_ || _); [done|].
  destruct (l !! Z.to_nat i); [|done]. by intros [= ->].
Qed.

(** The label index is an ordinal into the non-zero labels in ascending
    order: a larger non-negative index selects a strictly larger label, and
    no index selects the background value. *)
Theorem get_label_id_ascending (zstack : Volume) (i j label_i label_j : Z) :
  0 <= i < j →
  get_label_id zstack i = Ok label_i →
  get_label_id zstack j = Ok label_j →
  label_i < label_j ∧ label_i ≠ 0 ∧ label_j ≠ 0.
Proof.
  rewrite !get_label_id_labels_of. intros Hij Hi Hj.
  pose proof (index_Ok_elem_of _ _ _ Hi) as [? _]%elem_of_labels_of.
  pose proof (index_Ok_elem_of _ _ _ Hj) as [? _]%elem_of_labels_of.
  split; [|done].
  apply index_nonneg_Ok in Hi; [|lia]. apply index_nonneg_Ok in Hj; [|lia].
  eapply (sorted_lookup Z.lt); [apply labels_of_sorted|exact Hi|exact Hj|lia].
Qed.

Lemma get_label_id_ascending_witness :
  3 < 7 ∧ 3 ≠ 0 ∧ 7 ≠ 0.
Proof.
  apply (get_label_id_ascending two_label_volume 0 1 3 7);
    [lia|reflexivity|reflexivity].
Defined.

(** A negative label index counts back from the largest label: with [n]
    non-zero labels, index [i] in [-n, 0) selects what index [i + n]
    selects. *)
Theorem get_label_id_negative_index (zstack : Volume) (i : Z) :
  - Z.of_nat (length (labels_of zstack)) <= i < 0 →
  ∃ label,
    get_label_id zstack i = Ok label ∧
    get_label_id zstack (i + Z.of_nat (length (labels_of zstack))) = Ok label.
Proof.
  intros Hi. rewrite !get_label_id_labels_of.
  destruct (index_negative _ _ Hi) as (label & Hlabel & Hidx).
  exists label. split; [done|].
  destruct (index_in_range (labels_of zstack)
              (i + Z.of_nat (length (labels_of zstack))))
    as (label' & Hlabel' & ->); [lia|]. congruence.
Qed.

Lemma get_label_id_negative_index_witness :
  ∃ label,
    get_label_id two_label_volume (-1) = Ok label ∧
    get_label_id two_label_volume
      (-1 + Z.of_nat (length (labels_of two_label_volume))) = Ok label.
Proof.
  apply (get_label_id_negative_index two_label_volume (-1)).
  vm_compute. split; congruence.
Defined.

(** A volume that holds only background has no label to select: every
    label index raises [IndexError], in [get_label_id] and so in the
    selection. *)
Theorem get_label_id_background_only (zstack : Volume) (label_index : Z) :
  (∀ v, v ∈ Np.ravel zstack → v = 0) →
  get_label_id zstack label_index = Raise IndexError ∧
  select zstack label_index = Raise IndexError.
Proof.
  intros Hzero.
  assert (labels_of zstack = []) as Hnone.
  { destruct (labels_of zstack) as [|l ls] eqn:E; [done|].
    assert (l ∈ labels_of zstack) as [Hl Hin]%elem_of_labels_of
      by (rewrite E; left).
    by apply Hzero in Hin. }
  assert (get_label_id zstack label_index = Raise IndexError) as Hraise.
  { rewrite get_label_id_labels_of, Hnone.
    apply index_out_of_range. simpl. lia. }
  split; [done|]. unfold select. by rewrite Hraise.
Qed.

Lemma get_label_id_background_only_witness :
  get_label_id [[[0; 0]; [0; 0]]; [[0; 0]; [0; 0]]] 0 = Raise IndexError ∧
  select [[[0; 0]; [0; 0]]; [[0; 0]; [0; 0]]] 0 = Raise IndexError.
Proof.
  apply (get_label_id_background_only [[[0; 0]; [0; 0]]; [[0; 0]; [0; 0]]] 0).
  intros v Hv. vm_compute in Hv.
  repeat (apply elem_of_cons in Hv as [->|Hv]; [done|]).
  by apply elem_of_nil in Hv.
Defined.

(** [get_plane_id] answers exactly for the labels that occur in the
    volume; for any other value the list of planes is empty and taking its
    first element raises [IndexError]. *)
Theorem get_plane_id_present_iff (zstack : Volume) (label : Z) :
  ((∃ p, get_plane_id zstack label = Ok p) ↔ label ∈ Np.ravel zstack) ∧
  (label ∉ Np.ravel zstack → get_plane_id zstack label = Raise IndexError).
Proof.
  assert (label ∉ Np.ravel zstack →
          get_plane_id zstack label = Raise IndexError) as Habsent.
  { intros Hout. rewrite get_plane_id_cell_planes.
    assert (cell_planes zstack label = []) as ->.
    { destruct (cell_planes zstack label) as [|p ps] eqn:E; [done|].
      assert (p ∈ cell_planes zstack label) as Hp by (rewrite E; left).
      apply elem_of_cell_planes in Hp as (plane & Hz & Hon).
      destruct Hout. apply elem_of_ravel. exists plane.
      split; [by eapply list_elem_of_lookup_2|done]. }
    done. }
  split; [|done]. split.
  - intros [p Hp]. destruct (decide (label ∈ Np.ravel zstack)); [done|].
    rewrite Habsent in Hp; done.
  - intros Hin. destruct (get_plane_id_midpoint _ _ Hin) as (p & _ & ?). eauto.
Qed.

Lemma length_filter_fst {A B} (P : A * B → Prop) (Q : A → Prop)
    `{∀ c, Decision (P c)} `{∀ a, Decision (Q a)} (l : list (A * B)) :
  length (filter Q (filter P l).*1)
  = length (filter (λ c, P c ∧ Q c.1) l).
Proof.
  induction l as [|c l IH]; [done|].
  rewrite (filter_cons P), (filter_cons (λ c, P c ∧ Q c.1)).
  destruct (decide (P c)) as [Hp|Hp].
  - rewrite fmap_cons, filter_cons.
    destruct (decide (Q c.1)) as [Hq|Hq].
    + rewrite decide_True by done. simpl. by rewrite IH.
    + rewrite decide_False by tauto. done.
  - rewrite decide_False by tauto. done.
Qed.

Lemma filter_none {A} (P : A → Prop) `{∀ x, Decision (P x)} (l : list A) :
  Forall (λ x, ¬ P x) l → filter P l = [].
Proof.
  induction 1 as [|x l Hx Hl IH]; [done|].
  by rewrite filter_cons_False.
Qed.

(** In an ascending list, at most [k] elements lie below the element at
    position [k], and more than [k] do not exceed it. *)
Lemma sorted_position (l : list nat) (k p : nat) :
  StronglySorted le l → l !! k = Some p →
  (length (filter (λ q, q < p) l) ≤ k
   ∧ k < length (filter (λ q, q ≤ p) l))%nat.
Proof.
  intros Hl Hk. pose proof (lookup_lt_Some _ _ _ Hk) as Hlt.
  rewrite <- (take_drop_middle l k p Hk) in Hl |- *.
  apply StronglySorted_app in Hl as (Hcross & _ & Htail).
  apply StronglySorted_cons in Htail as [Hafter _].
  rewrite !filter_app, !length_app. split.
  - rewrite (filter_none (λ q, q < p)%nat (p :: drop (S k) l)).
    + pose proof (length_filter (λ q, q < p)%nat (take k l)) as Hle.
      rewrite length_take_le in Hle by lia. simpl. lia.
    + constructor; [lia|]. eapply Forall_impl; [exact Hafter|].
      simpl. lia.
  - rewrite (filter_all (λ q, q ≤ p)%nat (take k l)).
    + rewrite length_take_le by lia.
      rewrite filter_cons_True by lia. simpl. lia.
    + apply Forall_forall. intros q Hq. apply Hcross; [done|left].
Qed.

(** The representative plane is a median of the label's cells by plane:
    of the [m] cells that carry the label, at most [floor(m / 2)] lie on
    earlier planes and more than [floor(m / 2)] lie on planes up to and
    including it. *)
Theorem get_plane_id_weighted_median (zstack : Volume) (label : Z) (p : nat) :
  get_plane_id zstack label = Ok p →
  let m := length (filter (λ c : nat * Z, c.2 = label)
                     (Np.cells_with_plane zstack)) in
  (length (filter (λ c : nat * Z, c.2 = label ∧ (c.1 < p)%nat)
             (Np.cells_with_plane zstack)) ≤ m / 2
   ∧ m / 2 < length (filter (λ c : nat * Z, c.2 = label ∧ (c.1 ≤ p)%nat)
                       (Np.cells_with_plane zstack)))%nat.
Proof.
  intros Hget m. rewrite get_plane_id_cell_planes in Hget.
  apply index_nonneg_Ok in Hget; [|lia]. rewrite Nat2Z.id in Hget.
  destruct (sorted_position _ _ _ (cell_planes_ascending zstack label) Hget)
    as [Hbelow Hupto].
  rewrite <- where_eq_axis0_cell_planes in Hbelow, Hupto.
  unfold Np.where_eq_axis0 in Hbelow, Hupto.
  rewrite length_fmap in Hbelow, Hupto.
  rewrite (length_filter_fst (λ c : nat * Z, c.2 = label) (λ q, q < p)%nat)
    in Hbelow.
  rewrite (length_filter_fst (λ c : nat * Z, c.2 = label) (λ q, q ≤ p)%nat)
    in Hupto.
  done.
Qed.

Lemma get_plane_id_weighted_median_witness :
  let zstack := [[[5; 5]; [5; 5]]; [[5; 0]; [0; 0]]; [[0; 0]; [0; 5]]] in
  (length (filter (λ c : nat * Z, c.2 = 5%Z ∧ (c.1 < 0)%nat)
             (Np.cells_with_plane zstack)) ≤ 6 / 2
   ∧ 6 / 2 < length (filter (λ c : nat * Z, c.2 = 5%Z ∧ (c.1 ≤ 0)%nat)
                       (Np.cells_with_plane zstack)))%nat.
Proof.
  apply (get_plane_id_weighted_median
           [[[5; 5]; [5; 5]]; [[5; 0]; [0; 0]]; [[0; 0]; [0; 5]]] 5 0).
  reflexivity.
Defined.

(** * Further properties of the window clamper *)

(** The window never loses the centroid: for a centroid on the axis, the
    clamped bounds enclose it, whichever branch is taken. *)
Theorem clamp_contains_centroid (centroid_coord axis_extent half_window : Z) :
  0 <= centroid_coord <= axis_extent →
  0 <= half_window →
  let '(lower, upper) :=
    adjust_cropping_box_to_image_borders centroid_coord axis_extent
      half_window in
  lower <= centroid_coord <= upper.
Proof. intros Hc Hw. clamp_cases; lia. Qed.

Lemma clamp_contains_centroid_witness : 600 <= 950 <= 1000.
Proof. apply (clamp_contains_centroid 950 1000 200); lia. Defined.

(** On an axis at least three half-windows long the window always has the
    full width [2 * half_window], wherever the centroid lies on the axis. *)
Theorem clamp_full_width_on_long_axis
    (centroid_coord axis_extent half_window : Z) :
  0 <= centroid_coord <= axis_extent →
  0 <= half_window →
  3 * half_window <= axis_extent →
  let '(lower, upper) :=
    adjust_cropping_box_to_image_borders centroid_coord axis_extent
      half_window in
  upper - lower = 2 * half_window.
Proof. intros Hc Hw He. clamp_cases; lia. Qed.

Lemma clamp_full_width_on_long_axis_witness : 400 - 0 = 2 * 200.
Proof. apply (clamp_full_width_on_long_axis 50 1000 200); lia. Defined.

(** The window is centred on the centroid exactly when the centred window
    fits on the axis; this holds for all integers, without any assumption
    on the arguments. *)
Theorem clamp_centered_iff_fits (centroid_coord axis_extent half_window : Z) :
  adjust_cropping_box_to_image_borders centroid_coord axis_extent half_window
  = (centroid_coord - half_window, centroid_coord + half_window)
  ↔ 0 <= centroid_coord - half_window
    ∧ centroid_coord + half_window <= axis_extent.
Proof.
  split.
  - clamp_cases; intros [=]; lia.
  - intros [? ?]. clamp_cases; first [reflexivity | exfalso; lia].
Qed.

(** Whatever the arguments, the result is one of two kinds: a window of
    width exactly [2 * half_window], or the whole axis [(0, axis_extent)]. *)
Theorem clamp_full_width_or_whole_axis
    (centroid_coord axis_extent half_window : Z) :
  let clamp :=
    adjust_cropping_box_to_image_borders centroid_coord axis_extent
      half_window in
  clamp.2 - clamp.1 = 2 * half_window ∨ clamp = (0, axis_extent).
Proof. intros clamp. subst clamp. clamp_cases; auto; left; lia. Qed.

(** * Cropping *)

Lemma slice_nonneg {A} (lo hi : Z) (l : list A) :
  0 <= lo → 0 <= hi →
  Py.slice lo hi l = take (Z.to_nat (hi - lo)) (drop (Z.to_nat lo) l).
Proof.
  intros Hlo Hhi. unfold Py.slice, Py.slice_bound.
  destruct (Z.ltb_spec lo 0); [lia|]. destruct (Z.ltb_spec hi 0); [lia|].
  destruct (decide (lo <= Z.of_nat (length l))) as [Hin|Hout].
  - rewrite (Z.min_l lo) by lia.
    destruct (decide (hi <= Z.of_nat (length l))).
    + by rewrite (Z.min_l hi) by lia.
    + rewrite (Z.min_r hi) by lia.
      rewrite !take_ge; [done|rewrite length_drop; lia..].
  - rewrite (Z.min_r lo) by lia.
    rewrite !drop_ge by lia. by rewrite !take_nil.
Qed.

Lemma lookup_slice {A} (lo hi : Z) (l : list A) (i : nat) :
  0 <= lo → 0 <= hi →
  Py.slice lo hi l !! i
  = if decide (Z.of_nat i < hi - lo) then l !! (Z.to_nat lo + i)%nat else None.
Proof.
  intros Hlo Hhi. rewrite slice_nonneg by done.
  destruct (decide (Z.of_nat i < hi - lo)).
  - rewrite lookup_take_lt by lia. apply lookup_drop.
  - apply lookup_take_ge. lia.
Qed.

(** Cropping with non-negative bounds keeps the planes and shows, at row
    [i] and column [j] of a plane, the source cell at row [minx + i] and
    column [miny + j], for [i] below [maxx - minx] and [j] below
    [maxy - miny]; it shows nothing beyond. *)
Theorem crop_cell_at (a : Volume) (minx maxx miny maxy : Z) (z i j : nat) :
  0 <= minx → 0 <= maxx → 0 <= miny → 0 <= maxy →
  length (Np.crop a minx maxx miny maxy) = length a ∧
  cell_at (Np.crop a minx maxx miny maxy) z i j
  = if decide (Z.of_nat i < maxx - minx ∧ Z.of_nat j < maxy - miny)
    then cell_at a z (Z.to_nat minx + i) (Z.to_nat miny + j) else None.
Proof.
  intros Hminx Hmaxx Hminy Hmaxy. unfold Np.crop.
  split; [by rewrite length_fmap|].
  unfold cell_at. rewrite list_lookup_fmap.
  destruct (a !! z) as [plane|]; cbn; [|by destruct (decide _)].
  rewrite list_lookup_fmap, lookup_slice by done.
  destruct (decide (Z.of_nat i < maxx - minx)) as [Hi|Hi].
  - destruct (plane !! (Z.to_nat minx + i)%nat) as [row|]; cbn.
    + rewrite lookup_slice by done.
      destruct (decide (Z.of_nat j < maxy - miny)).
      * by rewrite decide_True.
      * by rewrite decide_False by tauto.
    + by destruct (decide _).
  - cbn. by rewrite decide_False by tauto.
Qed.

Lemma crop_cell_at_witness :
  length (Np.crop two_label_volume 1 3 1 3) = length two_label_volume ∧
  cell_at (Np.crop two_label_volume 1 3 1 3) 1 0 1
  = if decide (Z.of_nat 0 < 3 - 1 ∧ Z.of_nat 1 < 3 - 1)
    then cell_at two_label_volume 1 (Z.to_nat 1 + 0) (Z.to_nat 1 + 1)
    else None.
Proof. apply (crop_cell_at two_label_volume 1 3 1 3 1 0 1); lia. Defined.

(** * Further properties of the plot-info builder *)

Lemma setitem_fresh `{EqDecision K} {V} (d : Py.dict K V) (k : K) (v : V) :
  Py.get d k = None → Py.setitem d k v = d ++ [(k, v)].
Proof.
  induction d as [|[k0 v0] d IH]; simpl; [done|].
  destruct (decide (k0 = k)); [done|]. intros Hk. by rewrite IH.
Qed.

Lemma keys_setitem_present `{EqDecision K} {V} (d : Py.dict K V) (k : K)
    (v : V) :
  is_Some (Py.get d k) → Py.keys (Py.setitem d k v) = Py.keys d.
Proof.
  unfold Py.keys. induction d as [|[k0 v0] d IH]; simpl.
  - by intros [? ?].
  - destruct (decide (k0 = k)) as [->|?]; [done|].
    intros Hk. rewrite fmap_cons. cbn. by rewrite IH.
Qed.

Lemma get_None_keys `{EqDecision K} {V} (d : Py.dict K V) (k : K) :
  Py.get d k = None ↔ k ∉ Py.keys d.
Proof.
  unfold Py.keys. induction d as [|[k0 v0] d IH]; simpl.
  - split; [intros _ ?%elem_of_nil; done|done].
  - rewrite not_elem_of_cons. cbn.
    destruct (decide (k0 = k)) as [->|?]; [split; [done|tauto]|].
    rewrite IH. split; [intros ?; split; [congruence|done]|tauto].
Qed.

Lemma empty_planes_fmap (n : nat) {V} :
  foldl (λ info plane_index, Py.setitem info plane_index [])
        [] (Py.range n)
  = ((λ z, (z, [])) <$> Py.range n : Py.dict nat (Py.dict Z V)).
Proof.
  unfold Py.range. induction n as [|n IH]; [done|].
  rewrite seq_S, foldl_app, fmap_app. cbn [foldl Nat.add]. rewrite IH.
  apply setitem_fresh. apply get_None_keys. unfold Py.keys.
  rewrite <- list_fmap_compose.
  intros (z & -> & Hz%elem_of_seq)%list_elem_of_fmap. simpl in Hz. lia.
Qed.

Lemma for_fold_Ok_invariant {A S} (I : list A → S → Prop) (l : list A)
    (body : S → A → result S) (s s' : S) :
  for_fold l body s = Ok s' →
  I [] s →
  (∀ done x rest s1 s2, l = done ++ x :: rest → I done s1 →
                        body s1 x = Ok s2 → I (done ++ [x]) s2) →
  I l s'.
Proof.
  intros Hrun Hinit Hstep.
  cut (∀ rest done s0, l = done ++ rest → I done s0 →
                       for_fold rest body s0 = Ok s' → I l s').
  { intros Hgen. by apply (Hgen l [] s). }
  induction rest as [|x rest IH]; intros done s0 Hl Hdone Hrest.
  - rewrite app_nil_r in Hl. subst. by injection Hrest as <-.
  - simpl in Hrest. destruct (body s0 x) as [s1|] eqn:Hbody; [|done].
    apply (IH (done ++ [x]) s1); [by rewrite <- app_assoc| |done].
    by eapply Hstep.
Qed.

(** A volume that holds only background gets a plot info with an empty
    entry map for every plane; the builder returns it whatever the
    extractor and the colour assigner would do. *)
Theorem get_plotting_info_background_only `{U : Utils} (zstack : Volume) :
  (∀ v, v ∈ Np.ravel zstack → v = 0) →
  get_plotting_info zstack
  = Ok ((λ plane_index, (plane_index, [])) <$> Py.range (length zstack)).
Proof.
  intros Hzero. unfold get_plotting_info.
  rewrite remove_zero_unique. cbn. rewrite remove_zero_again. cbn.
  assert (filter (λ v, v ≠ 0) (Np.unique (Np.ravel zstack)) = []) as ->.
  { apply filter_none, Forall_forall. intros v Hv Hnz.
    rewrite elem_of_unique in Hv. by apply Hzero in Hv. }
  cbn. by rewrite empty_planes_fmap.
Qed.

Lemma get_plotting_info_background_only_witness :
  get_plotting_info (U := example_utils) [[[0; 0]]; [[0; 0]]; [[0; 0]]]
  = Ok [(0%nat, []); (1%nat, []); (2%nat, [])].
Proof.
  apply (get_plotting_info_background_only (U := example_utils)
           [[[0; 0]]; [[0; 0]]; [[0; 0]]]).
  intros v Hv. vm_compute in Hv.
  repeat (apply elem_of_cons in Hv as [->|Hv]; [done|]).
  by apply elem_of_nil in Hv.
Defined.

Section PlotInfoKeys.
Context `{U : Utils}.

Lemma record_label_on_plane_Ok (zstack : Volume)
    (color_code : Py.dict Z Color) (label : Z) (info info' : PlotInfo)
    (z : nat) :
  record_label_on_plane zstack color_code label info z = Ok info' →
  ∃ plane,
    zstack !! z = Some plane ∧
    ((¬ on_plane label plane ∧ info' = info) ∨
     (on_plane label plane ∧
      ∃ per_plane entry,
        Py.get info z = Some per_plane ∧
        info' = Py.setitem info z (Py.setitem per_plane label entry))).
Proof.
  unfold record_label_on_plane.
  destruct (Py.index zstack (Z.of_nat z)) as [plane|] eqn:Hplane; [|done].
  apply index_nonneg_Ok in Hplane; [|lia]. rewrite Nat2Z.id in Hplane.
  cbn. intros H. exists plane. split; [done|].
  destruct (decide (label ∈ Np.unique (Np.ravel2 plane))) as [Hon|Hoff].
  - rewrite elem_of_unique in Hon. right. split; [exact Hon|].
    destruct (get_polygon_from_instance_segmentation plane label); [|done].
    cbn in H. unfold Py.getitem in H.
    destruct (Py.get color_code label); [|done]. cbn in H.
    destruct (Py.get info z) as [per_plane|]; [|done]. cbn in H.
    injection H as <-. eauto.
  - rewrite elem_of_unique in Hoff. left. split; [exact Hoff|].
    by injection H as <-.
Qed.

End PlotInfoKeys.

Section PlotInfoOrder.
Context `{U : Utils}.
Context (zstack : Volume) (color_code : Py.dict Z Color).

(** The keys that the builder holds once it has passed the labels [done]
    and, for [current], the planes [planes]. *)
Lemma record_label_on_plane_keys (done : list Z) (current : Z)
    (planes : list nat) (info info' : PlotInfo) (z0 : nat) :
  current ∉ done → z0 ∉ planes →
  (Py.keys info = Py.range (length zstack) ∧
   ∀ z per_plane plane,
     Py.get info z = Some per_plane → zstack !! z = Some plane →
     Py.keys per_plane
     = filter (λ l, on_plane l plane) done
       ++ (if decide (z ∈ planes ∧ on_plane current plane)
           then [current] else [])) →
  record_label_on_plane zstack color_code current info z0 = Ok info' →
  Py.keys info' = Py.range (length zstack) ∧
  ∀ z per_plane plane,
    Py.get info' z = Some per_plane → zstack !! z = Some plane →
    Py.keys per_plane
    = filter (λ l, on_plane l plane) done
      ++ (if decide (z ∈ planes ++ [z0] ∧ on_plane current plane)
          then [current] else []).
Proof.
  intros Hcurrent Hz0 [Hkeys Hinner] Hstep.
  apply record_label_on_plane_Ok in Hstep
    as (plane0 & Hplane0 & [[Hoff ->]|(Hon & pp0 & e & Hpp0 & ->)]).
  - split; [done|]. intros z pp plane Hpp Hplane.
    rewrite (Hinner _ _ _ Hpp Hplane). f_equal. apply decide_ext.
    rewrite elem_of_app, list_elem_of_singleton. split; [tauto|].
    intros [[?| ->] Hon]; [tauto|].
    assert (plane = plane0) as -> by congruence. done.
  - split; [by rewrite keys_setitem_present by eauto|].
    intros z pp plane Hpp Hplane. rewrite get_setitem in Hpp.
    destruct (decide (z0 = z)) as [<-|Hne].
    + injection Hpp as <-. assert (plane = plane0) as -> by congruence.
      pose proof (Hinner _ _ _ Hpp0 Hplane0) as Hkeys0.
      rewrite decide_False in Hkeys0 by tauto. rewrite app_nil_r in Hkeys0.
      assert (Py.get pp0 current = None) as Hfresh.
      { apply get_None_keys. rewrite Hkeys0.
        intros [_ ?]%list_elem_of_filter. done. }
      rewrite (setitem_fresh _ _ _ Hfresh). unfold Py.keys in *.
      rewrite fmap_app, Hkeys0. f_equal.
      rewrite decide_True; [done|]. split; [|done].
      apply elem_of_app. right. left.
    + rewrite (Hinner _ _ _ Hpp Hplane). f_equal. apply decide_ext.
      rewrite elem_of_app, list_elem_of_singleton. split; [tauto|].
      intros [[?|?] ?]; [tauto|congruence].
Qed.

Lemma record_label_keys (done : list Z) (current : Z) (info info' : PlotInfo) :
  current ∉ done →
  (Py.keys info = Py.range (length zstack) ∧
   ∀ z per_plane plane,
     Py.get info z = Some per_plane → zstack !! z = Some plane →
     Py.keys per_plane = filter (λ l, on_plane l plane) done) →
  for_fold (Py.range (length zstack))
    (record_label_on_plane zstack color_code current) info = Ok info' →
  Py.keys info' = Py.range (length zstack) ∧
  ∀ z per_plane plane,
    Py.get info' z = Some per_plane → zstack !! z = Some plane →
    Py.keys per_plane = filter (λ l, on_plane l plane) (done ++ [current]).
Proof.
  intros Hcurrent [Hkeys Hinner] Hrun.
  pose proof (for_fold_Ok_invariant
    (λ planes info0,
       Py.keys info0 = Py.range (length zstack) ∧
       ∀ z per_plane plane,
         Py.get info0 z = Some per_plane → zstack !! z = Some plane →
         Py.keys per_plane
         = filter (λ l, on_plane l plane) done
           ++ (if decide (z ∈ planes ∧ on_plane current plane)
               then [current] else []))
    _ _ _ _ Hrun) as Hinv.
  cbn beta in Hinv. destruct Hinv as [Hkeys' Hinner'].
  - split; [done|]. intros z pp plane Hpp Hplane.
    rewrite (Hinner _ _ _ Hpp Hplane).
    rewrite decide_False; [by rewrite app_nil_r|].
    intros [?%elem_of_nil _]. done.
  - intros planes z0 rest s1 s2 Hl Hs1 Hbody.
    eapply record_label_on_plane_keys; [done| |exact Hs1|exact Hbody].
    pose proof (NoDup_seq 0 (length zstack)) as Hnd. unfold Py.range in Hl.
    rewrite Hl in Hnd. apply NoDup_app in Hnd as (_ & Hnd & _).
    intros Hz. apply (Hnd z0 Hz). left.
  - split; [done|]. intros z pp plane Hpp Hplane.
    rewrite (Hinner' _ _ _ Hpp Hplane), filter_app. f_equal.
    rewrite filter_cons, filter_nil. apply decide_ext.
    split; [tauto|]. intros Hon. split; [|done].
    apply elem_of_seq. apply lookup_lt_Some in Hplane. lia.
Qed.

End PlotInfoOrder.

(** The plot info that the builder returns has one entry map for every
    plane of the volume, in plane order, also for planes without labels;
    the keys of a plane's entry map are the non-zero labels on that plane
    in ascending order, which is the order in which the outlines are
    drawn. *)
Theorem get_plotting_info_keys `{U : Utils} (zstack : Volume)
    (plotting_info : PlotInfo) :
  get_plotting_info zstack = Ok plotting_info →
  Py.keys plotting_info = Py.range (length zstack) ∧
  ∀ plane_index per_plane plane,
    Py.get plotting_info plane_index = Some per_plane →
    zstack !! plane_index = Some plane →
    Py.keys per_plane = filter (λ l, on_plane l plane) (labels_of zstack)
    ∧ StronglySorted Z.lt (Py.keys per_plane).
Proof.
  unfold get_plotting_info.
  rewrite remove_zero_unique. cbn. rewrite remove_zero_again. cbn.
  fold (labels_of zstack). set (color_code := get_color_code _).
  intros Hrun.
  pose proof (for_fold_Ok_invariant
    (λ done info,
       Py.keys info = Py.range (length zstack) ∧
       ∀ z per_plane plane,
         Py.get info z = Some per_plane → zstack !! z = Some plane →
         Py.keys per_plane = filter (λ l, on_plane l plane) done)
    _ _ _ _ Hrun) as Hinv.
  cbn beta in Hinv. destruct Hinv as [Hkeys Hinner].
  - rewrite empty_planes_fmap. split.
    + unfold Py.keys. rewrite <- list_fmap_compose. apply list_fmap_id.
    + intros z pp plane Hpp _. clear Hrun.
      assert (pp = []) as ->; [|done].
      revert Hpp. generalize (Py.range (length zstack)).
      induction l as [|z0 l IH]; [done|]. cbn.
      destruct (decide (z0 = z)); [by intros [= <-]|done].
  - intros done label rest s1 s2 Hl Hs1 Hbody.
    eapply record_label_keys; [|exact Hs1|exact Hbody].
    pose proof (NoDup_filter (λ v, v ≠ 0) _
                  (unique_NoDup (Np.ravel zstack))) as Hnd.
    fold (labels_of zstack) in Hnd.
    rewrite Hl in Hnd. apply NoDup_app in Hnd as (_ & Hnd & _).
    intros Hz. apply (Hnd label Hz). left.
  - split; [done|]. intros z pp plane Hpp Hplane.
    rewrite (Hinner _ _ _ Hpp Hplane). split; [done|].
    apply sorted_filter, labels_of_sorted.
Qed.

Lemma get_plotting_info_keys_witness :
  ∃ plotting_info : PlotInfo (U := example_utils),
    get_plotting_info (U := example_utils) two_label_volume = Ok plotting_info
    ∧ Py.keys plotting_info = [0; 1]%nat
    ∧ ∀ per_plane, Py.get plotting_info 1%nat = Some per_plane →
                   Py.keys per_plane = [3; 7].
Proof.
  destruct (get_plotting_info_recorded (U := example_utils) two_label_volume)
    as (info & Hinfo & _).
  { intros label Hl. by apply footprint_utils_colors_cover. }
  { intros plane label _ Hl Hp. by apply footprint_utils_extractor_answers. }
  exists info. split; [done|].
  destruct (get_plotting_info_keys (U := example_utils) two_label_volume
              info Hinfo) as [Hkeys Hinner].
  split; [exact Hkeys|]. intros per_plane Hpp.
  by destruct (Hinner 1%nat per_plane [[3; 0; 0]; [0; 7; 7]; [0; 0; 0]]
                 Hpp eq_refl) as [-> _].
Defined.

(** * The assembled figure, panel by panel *)

Section Trace.
Context `{U : Utils}.

Lemma emits_refl (w : World) : emits [] [] w w.
Proof. unfold emits. by rewrite !app_nil_r. Qed.

Lemma emits_trans (c1 c2 : list plt_call) (l1 l2 : list string)
    (w1 w2 w3 : World) :
  emits c1 l1 w1 w2 → emits c2 l2 w2 w3 → emits (c1 ++ c2) (l1 ++ l2) w1 w3.
Proof.
  intros (Hc1 & Hl1 & Hh1) (Hc2 & Hl2 & Hh2). unfold emits.
  rewrite Hc2, Hc1, Hl2, Hl1, Hh2, Hh1, !app_assoc. done.
Qed.

Lemma emit_emits (c : plt_call) (w w' : World) (a : unit) :
  emit c w = Ok (a, w') → emits [c] [] w w'.
Proof. intros [= _ <-]. unfold emits. cbn. by rewrite app_nil_r. Qed.

Lemma print_emits (s : string) (w w' : World) (a : unit) :
  print s w = Ok (a, w') → emits [] [s] w w'.
Proof. intros [= _ <-]. unfold emits. cbn. by rewrite app_nil_r. Qed.

Lemma when_emit_emits (b : bool) (c : plt_call) (w w' : World) (a : unit) :
  when b (emit c) w = Ok (a, w') → emits (if b then [c] else []) [] w w'.
Proof.
  destruct b; cbn; [apply emit_emits|]. intros [= _ <-]. apply emits_refl.
Qed.

Lemma for_emits {A} (l : list A) (body : A → M unit)
    (calls : A → list plt_call) (w w' : World) :
  (∀ x w1 w2, x ∈ l → body x w1 = Ok ((), w2) → emits (calls x) [] w1 w2) →
  for_ l body w = Ok ((), w') →
  emits (mjoin (calls <$> l)) [] w w'.
Proof.
  intros Hbody Hrun.
  apply (for_Ok_invariant
           (λ done w0, emits (mjoin (calls <$> done)) [] w w0)
           l body w w' Hrun).
  - apply emits_refl.
  - intros done x rest w1 w2 Hl Hdone Hx.
    rewrite fmap_app, join_app. cbn. rewrite app_nil_r.
    change (@nil string) with (@nil string ++ []).
    eapply emits_trans; [exact Hdone|]. eapply Hbody; [|exact Hx].
    rewrite Hl, elem_of_app, elem_of_cons. tauto.
Qed.

(** Every pass of a completed loop completed. *)
Lemma for_Ok_each {A} (l : list A) (body : A → M unit) (w w' : World) :
  for_ l body w = Ok ((), w') →
  ∀ x, x ∈ l → ∃ w1 w2, body x w1 = Ok ((), w2).
Proof.
  intros Hrun.
  apply (for_Ok_invariant
           (λ done _, ∀ x, x ∈ done → ∃ w1 w2, body x w1 = Ok ((), w2))
           l body w w' Hrun).
  - by intros x ?%elem_of_nil.
  - intros done x rest w1 w2 _ Hdone Hx y.
    rewrite elem_of_app, list_elem_of_singleton. intros [?| ->]; eauto.
Qed.

Lemma index_default {A} (l : list A) (i : nat) (x d : A) :
  Py.index l (Z.of_nat i) = Ok x → l !! i = Some x ∧ default d (l !! i) = x.
Proof.
  intros Hx. apply index_nonneg_Ok in Hx; [|lia].
  rewrite Nat2Z.id in Hx. by rewrite Hx.
Qed.

Lemma getitem_default `{EqDecision K} {V} (d : Py.dict K V) (k : K)
    (v v0 : V) :
  Py.getitem d k = Ok v → Py.get d k = Some v ∧ default v0 (Py.get d k) = v.
Proof. unfold Py.getitem. destruct (Py.get d k); [|done]. by intros [= ->]. Qed.

Lemma outlines_emits (per_plane : Py.dict Z PlotEntry) (w w' : World) :
  for_ (Py.keys per_plane) (λ label_id,
    entry ← lift (Py.getitem per_plane label_id);
    emit (plot (array_data (boundary_y_coords entry))
               (array_data (boundary_x_coords entry))
               (inl (color entry)) (lw_int 3))) w = Ok ((), w') →
  emits (outline_calls per_plane) [] w w'.
Proof.
  apply for_emits. intros label_id w1 w2 _ Hbody.
  apply bind_Ok in Hbody as (entry & w3 & [Hentry ->]%lift_Ok & Hemit).
  unfold Py.getitem in Hentry.
  destruct (Py.get per_plane label_id); [|done].
  injection Hentry as ->. by eapply emit_emits.
Qed.

End Trace.

(** Joins the [emits] facts of the steps of a run into the fact about the
    whole run. *)
Ltac emits_solve :=
  unfold emits in *;
  repeat match goal with H : _ ∧ _ |- _ => destruct H end;
  repeat match goal with
         | H : plt _ = _ |- _ => rewrite H; clear H
         | H : stdout _ = _ |- _ => rewrite H; clear H
         | H : heap _ = _ |- _ => rewrite H; clear H
         end;
  rewrite <- ?app_assoc, ?app_nil_r; cbn [app];
  repeat split; try reflexivity.

Section Columns.
Context `{U : Utils}.

Lemma input_column_pass (preprocessed : Volume) (plane_index : nat)
    (w1 w2 : World) :
  (emit (add_subplot plane_index 0);;
   img ← lift (Py.index preprocessed (Z.of_nat plane_index));
   emit (imshow img None);;
   emit (ylabel ("plane_" +:+ pretty plane_index));;
   when (bool_decide (plane_index = 0%nat)) (emit (title "input image")))
    w1 = Ok ((), w2) →
  is_Some (preprocessed !! plane_index) ∧
  emits (add_subplot plane_index 0 :: input_panel preprocessed plane_index)
        [] w1 w2.
Proof.
  intros Hbody.
  apply bind_Ok in Hbody as ([] & u1 & Hsub%emit_emits & Hbody).
  apply bind_Ok in Hbody as (img & u2 & [Himg ->]%lift_Ok & Hbody).
  apply bind_Ok in Hbody as ([] & u3 & Himshow%emit_emits & Hbody).
  apply bind_Ok in Hbody as ([] & u4 & Hyl%emit_emits & Htitle%when_emit_emits).
  apply (index_default _ _ _ []) in Himg as [Hlook Himg].
  split; [eauto|]. unfold input_panel. rewrite Himg.
  destruct (bool_decide_reflect (plane_index = 0%nat)) as [->|?].
  - rewrite decide_True by done. emits_solve.
  - rewrite decide_False by done. emits_solve.
Qed.

Lemma instance_column_pass (instance_seg : Volume) (plane_index : nat)
    (w1 w2 : World) :
  (emit (add_subplot plane_index 1);;
   img ← lift (Py.index instance_seg (Z.of_nat plane_index));
   emit (imshow img None);;
   when (bool_decide (plane_index = 0%nat))
        (emit (title "instance segmentation")))
    w1 = Ok ((), w2) →
  is_Some (instance_seg !! plane_index) ∧
  emits (add_subplot plane_index 1 :: instance_panel instance_seg plane_index)
        [] w1 w2.
Proof.
  intros Hbody.
  apply bind_Ok in Hbody as ([] & u1 & Hsub%emit_emits & Hbody).
  apply bind_Ok in Hbody as (img & u2 & [Himg ->]%lift_Ok & Hbody).
  apply bind_Ok in Hbody as ([] & u3 & Himshow%emit_emits
                             & Htitle%when_emit_emits).
  apply (index_default _ _ _ []) in Himg as [Hlook Himg].
  split; [eauto|]. unfold instance_panel. rewrite Himg.
  destruct (bool_decide_reflect (plane_index = 0%nat)) as [->|?].
  - rewrite decide_True by done. emits_solve.
  - rewrite decide_False by done. emits_solve.
Qed.

Lemma labels_column_pass (final_labels : Volume) (plotting_info : PlotInfo)
    (plane_id_of_interest plane_index : nat) (w1 w2 : World) :
  (emit (add_subplot plane_index 2);;
   img ← lift (Py.index final_labels (Z.of_nat plane_index));
   emit (imshow img (Some "Greys_r"));;
   per_plane ← lift (Py.getitem plotting_info plane_index);
   for_ (Py.keys per_plane) (λ label_id,
     entry ← lift (Py.getitem per_plane label_id);
     emit (plot (array_data (boundary_y_coords entry))
                (array_data (boundary_x_coords entry))
                (inl (color entry)) (lw_int 3)));;
   when (bool_decide (plane_index = plane_id_of_interest))
        (emit (plot (list_data [185; 215]) (list_data [200; 200])
                    (inr "red") (lw_str "3"));;
         emit (plot (list_data [200; 200]) (list_data [185; 215])
                    (inr "red") (lw_str "3")));;
   when (bool_decide (plane_index = 0%nat))
        (emit (title "connected components (color-coded)")))
    w1 = Ok ((), w2) →
  is_Some (Py.get plotting_info plane_index) ∧
  emits (add_subplot plane_index 2
         :: labels_panel final_labels plotting_info plane_id_of_interest
              plane_index)
        [] w1 w2.
Proof.
  intros Hbody.
  apply bind_Ok in Hbody as ([] & u1 & Hsub%emit_emits & Hbody).
  apply bind_Ok in Hbody as (img & u2 & [Himg ->]%lift_Ok & Hbody).
  apply bind_Ok in Hbody as ([] & u3 & Himshow%emit_emits & Hbody).
  apply bind_Ok in Hbody as (per_plane & u4 & [Hper ->]%lift_Ok & Hbody).
  apply bind_Ok in Hbody as ([] & u5 & Hkeys%outlines_emits & Hbody).
  apply bind_Ok in Hbody as ([] & u6 & Hcross & Htitle%when_emit_emits).
  apply (index_default _ _ _ []) in Himg as [Hlook Himg].
  apply (getitem_default _ _ _ []) in Hper as [Hget Hper].
  split; [eauto|]. unfold labels_panel. unfold Py.dict in *.
  rewrite Himg, Hper.
  assert (emits (if decide (plane_index = plane_id_of_interest)
                 then crosshair 200 200 15 else []) [] u5 u6) as Hmark.
  { unfold when in Hcross.
    destruct (bool_decide_reflect (plane_index = plane_id_of_interest))
      as [->|?].
    - rewrite decide_True by done.
      apply bind_Ok in Hcross as ([] & v1 & Hc1%emit_emits & Hc2%emit_emits).
      emits_solve.
    - rewrite decide_False by done. injection Hcross as <-.
      apply emits_refl. }
  clear Hcross.
  destruct (bool_decide_reflect (plane_index = 0%nat)) as [->|?].
  - rewrite (decide_True (P := 0%nat = 0%nat)) by done. emits_solve.
  - rewrite (decide_False (P := plane_index = 0%nat)) by done. emits_solve.
Qed.

End Columns.

Section FigureContent.
Context `{U : Utils}.

(** The calls that a completed [plot_reconstructed_cells] adds, in order:
    the figure and its grid, the three columns of panels, the save and the
    show or close. *)
Lemma plot_reconstructed_cells_emits
    (preprocessed_zstack instance_seg_zstack final_labels_zstack : ndarray)
    (plotting_info : PlotInfo) (plane_id_of_interest : nat)
    (filepath : string) (save show : bool) (w w' : World) :
  plot_reconstructed_cells preprocessed_zstack instance_seg_zstack
    final_labels_zstack plotting_info plane_id_of_interest filepath save show
    w = Ok ((), w') →
  ∃ preprocessed instance_seg final_labels,
    np_read preprocessed_zstack w = Ok (preprocessed, w) ∧
    np_read instance_seg_zstack w = Ok (instance_seg, w) ∧
    np_read final_labels_zstack w = Ok (final_labels, w) ∧
    (∀ row, (row < length final_labels)%nat →
            is_Some (preprocessed !! row) ∧ is_Some (instance_seg !! row)
            ∧ is_Some (Py.get plotting_info row)) ∧
    emits
      ([plt_figure (15, 5 * Z.of_nat (length final_labels)) "white";
        add_gridspec (length final_labels) 3]
       ++ column_calls 0 (Py.range (length final_labels))
            (input_panel preprocessed)
       ++ column_calls 1 (Py.range (length final_labels))
            (instance_panel instance_seg)
       ++ column_calls 2 (Py.range (length final_labels))
            (labels_panel final_labels plotting_info plane_id_of_interest)
       ++ (if save then [savefig filepath 300] else [])
       ++ [if show then plt_show else plt_close])
      (if save
       then ["The resulting plot was successfully saved to: " +:+ filepath]
       else [])
      w w'.
Proof.
  intros Hrun. unfold plot_reconstructed_cells in Hrun.
  apply bind_Ok in Hrun as (pre & w1 & Hpre & Hrun).
  pose proof Hpre as [-> _]%np_read_Ok.
  apply bind_Ok in Hrun as (inst & w2 & Hinst & Hrun).
  pose proof Hinst as [-> _]%np_read_Ok.
  apply bind_Ok in Hrun as (fin & w3 & Hfin & Hrun).
  pose proof Hfin as [-> _]%np_read_Ok.
  exists pre, inst, fin. do 3 (split; [done|]).
  apply bind_Ok in Hrun as ([] & w4 & Hfig%emit_emits & Hrun).
  apply bind_Ok in Hrun
    as ([] & w5 & [_ Hgrid%emit_emits]%plt_add_gridspec_Ok & Hrun).
  apply bind_Ok in Hrun as ([] & w6 & Hloop1 & Hrun).
  apply bind_Ok in Hrun as ([] & w7 & Hloop2 & Hrun).
  apply bind_Ok in Hrun as ([] & w8 & Hloop3 & Hrun).
  apply bind_Ok in Hrun as ([] & w9 & Hsave & Hshow).
  split.
  { intros row Hrow.
    assert (row ∈ Py.range (length fin)) as Hin by (apply elem_of_seq; lia).
    destruct (for_Ok_each _ _ _ _ Hloop1 row Hin) as (u1 & u2 & Hb1).
    destruct (for_Ok_each _ _ _ _ Hloop2 row Hin) as (u3 & u4 & Hb2).
    destruct (for_Ok_each _ _ _ _ Hloop3 row Hin) as (u5 & u6 & Hb3).
    apply input_column_pass in Hb1 as [? _].
    apply instance_column_pass in Hb2 as [? _].
    apply labels_column_pass in Hb3 as [? _]. done. }
  apply (for_emits _ _ (λ r, add_subplot r 0 :: input_panel pre r)) in Hloop1;
    [|intros x u1 u2 _ Hb; by apply input_column_pass in Hb as [_ ?]].
  apply (for_emits _ _ (λ r, add_subplot r 1 :: instance_panel inst r))
    in Hloop2;
    [|intros x u1 u2 _ Hb; by apply instance_column_pass in Hb as [_ ?]].
  apply (for_emits _ _
           (λ r, add_subplot r 2
                 :: labels_panel fin plotting_info plane_id_of_interest r))
    in Hloop3;
    [|intros x u1 u2 _ Hb; by apply labels_column_pass in Hb as [_ ?]].
  assert (emits (if save then [savefig filepath 300] else [])
            (if save
             then ["The resulting plot was successfully saved to: "
                   +:+ filepath]
             else []) w8 w9) as Hsaved.
  { destruct save; cbn in Hsave.
    - apply bind_Ok in Hsave
        as ([] & v1 & [_ Hs1%emit_emits]%plt_savefig_Ok & Hs2%print_emits).
      emits_solve.
    - injection Hsave as <-. apply emits_refl. }
  assert (emits [if show then plt_show else plt_close] [] w9 w') as Hshown.
  { destruct show; by eapply emit_emits. }
  clear Hsave Hshow Hpre Hinst Hfin. unfold column_calls.
  destruct save; emits_solve.
Qed.

Lemma input_panel_artists (preprocessed : Volume) (row : nat) :
  Forall is_artist (input_panel preprocessed row).
Proof. unfold input_panel. destruct (decide _); repeat constructor. Qed.

Lemma instance_panel_artists (instance_seg : Volume) (row : nat) :
  Forall is_artist (instance_panel instance_seg row).
Proof. unfold instance_panel. destruct (decide _); repeat constructor. Qed.

Lemma labels_panel_artists (final_labels : Volume) (plotting_info : PlotInfo)
    (plane_id_of_interest row : nat) :
  Forall is_artist
    (labels_panel final_labels plotting_info plane_id_of_interest row).
Proof.
  unfold labels_panel. repeat apply Forall_app_2.
  - repeat constructor.
  - unfold outline_calls. apply Forall_join, Forall_fmap, Forall_forall.
    intros label_id _. cbn. destruct (Py.get _ _); repeat constructor.
  - destruct (decide _); repeat constructor.
  - destruct (decide _); repeat constructor.
Qed.

(** *** Reading panels and their content off a sequence of calls *)

Lemma panels_artists (s : list (nat * nat)) (calls : list plt_call) :
  Forall is_artist calls → foldl panels_step s calls = s.
Proof.
  induction 1 as [|c calls Hc _ IH]; [done|].
  cbn. destruct c; try done; exact IH.
Qed.

Lemma panels_column (s : list (nat * nat)) (col : nat) (rows : list nat)
    (shown : nat → list plt_call) :
  (∀ row, Forall is_artist (shown row)) →
  foldl panels_step s (column_calls col rows shown)
  = s ++ ((λ row, (row, col)) <$> rows).
Proof.
  intros Hshown. unfold column_calls. revert s.
  induction rows as [|row rows IH]; intros s; cbn; [by rewrite app_nil_r|].
  rewrite foldl_app, (panels_artists _ (shown row)) by apply Hshown.
  rewrite IH.
  by rewrite <- app_assoc.
Qed.

Lemma content_artists (panel : nat * nat) (current : option (nat * nat))
    (shown calls : list plt_call) :
  Forall is_artist calls →
  foldl (content_step panel) (current, shown) calls
  = (current, if decide (current = Some panel) then shown ++ calls else shown).
Proof.
  intros Hcalls. revert shown.
  induction Hcalls as [|c calls Hc _ IH]; intros shown.
  - cbn. rewrite app_nil_r. by destruct (decide _).
  - cbn [foldl].
    assert (content_step panel (current, shown) c
            = (current, if decide (current = Some panel)
                        then shown ++ [c] else shown)) as ->.
    { destruct c; try done; cbn;
        (destruct (decide (current = Some panel));
         [by rewrite bool_decide_eq_true_2|by rewrite bool_decide_eq_false_2]). }
    rewrite IH. destruct (decide (current = Some panel)); [|done].
    by rewrite <- app_assoc.
Qed.

Lemma content_column (panel : nat * nat)
    (s : option (nat * nat) * list plt_call) (col : nat) (rows : list nat)
    (shown : nat → list plt_call) :
  NoDup rows →
  (∀ row, Forall is_artist (shown row)) →
  (foldl (content_step panel) s (column_calls col rows shown)).2
  = s.2 ++ (if decide (panel.2 = col ∧ panel.1 ∈ rows)
            then shown panel.1 else []).
Proof.
  intros Hrows Hshown. unfold column_calls. revert s.
  induction Hrows as [|row rows Hrow _ IH]; intros [current acc]; cbn.
  - rewrite decide_False; [by rewrite app_nil_r|].
    intros [_ ?%elem_of_nil]. done.
  - rewrite foldl_app, (content_artists _ _ _ (shown row)) by apply Hshown.
    rewrite IH. cbn.
    destruct panel as [r c]. cbn.
    destruct (decide (Some (row, col) = Some (r, c))) as [[= -> ->]|Hne].
    + rewrite decide_False by tauto.
      rewrite decide_True by (split; [done|left]). by rewrite app_nil_r.
    + f_equal. apply decide_ext. rewrite elem_of_cons.
      split; [tauto|]. intros [-> [->|?]]; [done|tauto].
Qed.

End FigureContent.

Section FigureTheorems.
Context `{U : Utils}.

Lemma content_tail (panel : nat * nat)
    (s : option (nat * nat) * list plt_call) (filepath : string)
    (save show : bool) :
  foldl (content_step panel) s
    ((if save then [savefig filepath 300] else [])
     ++ [if show then plt_show else plt_close]) = s.
Proof. by destruct save, show. Qed.

Lemma panels_tail (s : list (nat * nat)) (filepath : string)
    (save show : bool) :
  foldl panels_step s
    ((if save then [savefig filepath 300] else [])
     ++ [if show then plt_show else plt_close]) = s.
Proof. by destruct save, show. Qed.

Lemma pick_panel (row col n : nat) (first second third : list plt_call) :
  [] ++ (if decide ((row, col).2 = 0%nat ∧ (row, col).1 ∈ Py.range n)
         then first else [])
     ++ (if decide ((row, col).2 = 1%nat ∧ (row, col).1 ∈ Py.range n)
         then second else [])
     ++ (if decide ((row, col).2 = 2%nat ∧ (row, col).1 ∈ Py.range n)
         then third else [])
  = if decide (row < n)%nat
    then match col with
         | 0%nat => first
         | 1%nat => second
         | 2%nat => third
         | _ => []
         end
    else [].
Proof.
  cbn [fst snd app]. unfold Py.range.
  destruct (decide (row < n)%nat) as [Hrow|Hrow].
  - assert (row ∈ seq 0 n) by (apply elem_of_seq; lia).
    destruct col as [|[|[|col]]];
      repeat first [ rewrite decide_True by done
                   | rewrite decide_False by (intros [? _]; lia) ];
      by rewrite ?app_nil_r.
  - repeat rewrite decide_False by (intros [_ ?%elem_of_seq]; lia). done.
Qed.

(** The figure of a completed [plot_reconstructed_cells] has three panels
    per plane of the final labels, created column by column: first the
    input column from the top row down, then the instance column, then the
    label column. *)
Theorem figure_panels
    (preprocessed_zstack instance_seg_zstack final_labels_zstack : ndarray)
    (plotting_info : PlotInfo) (plane_id_of_interest : nat)
    (filepath : string) (save show : bool) (w w' : World) :
  plot_reconstructed_cells preprocessed_zstack instance_seg_zstack
    final_labels_zstack plotting_info plane_id_of_interest filepath save show
    w = Ok ((), w') →
  ∃ final_labels,
    np_read final_labels_zstack w = Ok (final_labels, w) ∧
    panels (plt w')
    = ((λ row, (row, 0%nat)) <$> Py.range (length final_labels))
      ++ ((λ row, (row, 1%nat)) <$> Py.range (length final_labels))
      ++ ((λ row, (row, 2%nat)) <$> Py.range (length final_labels)).
Proof.
  intros (pre & inst & fin & _ & _ & Hfin & _ & Hplt & _)
    %plot_reconstructed_cells_emits.
  exists fin. split; [done|]. unfold panels. rewrite Hplt.
  rewrite foldl_app. cbn [app foldl panels_step].
  do 3 rewrite foldl_app. rewrite panels_tail.
  rewrite !panels_column
    by first [apply input_panel_artists | apply instance_panel_artists
             | apply labels_panel_artists].
  cbn [app]. by rewrite <- app_assoc.
Qed.

(** In that figure, row [r] shows plane [r] of the preprocessed stack on
    its first panel, plane [r] of the instance segmentation on the second,
    and on the third plane [r] of the final labels in grey with the
    outlines of the plot info of that plane in key order, then the
    crosshair if [r] is the plane of interest; the top row carries the
    column titles, the first column the row labels. Panels outside the
    grid show nothing. *)
Theorem figure_content
    (preprocessed_zstack instance_seg_zstack final_labels_zstack : ndarray)
    (plotting_info : PlotInfo) (plane_id_of_interest : nat)
    (filepath : string) (save show : bool) (w w' : World) :
  plot_reconstructed_cells preprocessed_zstack instance_seg_zstack
    final_labels_zstack plotting_info plane_id_of_interest filepath save show
    w = Ok ((), w') →
  ∃ preprocessed instance_seg final_labels,
    np_read preprocessed_zstack w = Ok (preprocessed, w) ∧
    np_read instance_seg_zstack w = Ok (instance_seg, w) ∧
    np_read final_labels_zstack w = Ok (final_labels, w) ∧
    (∀ row, (row < length final_labels)%nat →
            is_Some (preprocessed !! row) ∧ is_Some (instance_seg !! row)
            ∧ is_Some (Py.get plotting_info row)) ∧
    ∀ row col,
      content (row, col) (plt w')
      = if decide (row < length final_labels)%nat
        then match col with
             | 0%nat => input_panel preprocessed row
             | 1%nat => instance_panel instance_seg row
             | 2%nat => labels_panel final_labels plotting_info
                          plane_id_of_interest row
             | _ => []
             end
        else [].
Proof.
  intros (pre & inst & fin & Hpre & Hinst & Hfin & Hrows & Hplt & _)
    %plot_reconstructed_cells_emits.
  exists pre, inst, fin. do 4 (split; [done|]). intros row col.
  unfold content. rewrite Hplt.
  rewrite foldl_app. cbn [app foldl content_step].
  do 3 rewrite foldl_app. rewrite content_tail.
  rewrite !content_column
    by first [apply NoDup_seq | apply input_panel_artists
             | apply instance_panel_artists | apply labels_panel_artists].
  cbn [snd]. rewrite <- !app_assoc. apply pick_panel.
Qed.

End FigureTheorems.

Lemma figure_content_witness :
  let stack := {| buffer := 1; views := [] |} in
  ∃ w' : World (U := example_utils),
    plot_reconstructed_cells (U := example_utils) stack stack stack
      [(0%nat, []); (1%nat, [])] 0 "figure.png" false false example_world
    = Ok ((), w')
    ∧ content (1%nat, 1%nat) (plt w')
      = [imshow [[3; 0; 0]; [0; 7; 7]; [0; 0; 0]] None].
Proof.
  intros stack.
  assert (np_read stack example_world = Ok (two_label_volume, example_world))
    as Hread by reflexivity.
  destruct (plot_reconstructed_cells_completes (U := example_utils)
              stack stack stack [(0%nat, []); (1%nat, [])] 0 "figure.png"
              false false example_world two_label_volume two_label_volume
              two_label_volume) as ([] & w' & Hplot);
    [exact Hread|exact Hread|exact Hread|cbn; lia|reflexivity|reflexivity
    | |done|].
  { intros [|[|z]] Hz; cbn in *; [eauto..|lia]. }
  exists w'. split; [done|].
  destruct (figure_content (U := example_utils) _ _ _ _ _ _ _ _ _ _ Hplot)
    as (vp & vi & vf & _ & Hvi & Hvf & _ & ->).
  rewrite Hread in Hvi, Hvf. injection Hvi as <-. injection Hvf as <-.
  reflexivity.
Defined.

Lemma figure_panels_witness :
  let stack := {| buffer := 1; views := [] |} in
  ∃ w' : World (U := example_utils),
    plot_reconstructed_cells (U := example_utils) stack stack stack
      [(0%nat, []); (1%nat, [])] 0 "figure.png" false false example_world
    = Ok ((), w')
    ∧ panels (plt w')
      = [(0, 0); (1, 0); (0, 1); (1, 1); (0, 2); (1, 2)]%nat.
Proof.
  intros stack.
  assert (np_read stack example_world = Ok (two_label_volume, example_world))
    as Hread by reflexivity.
  destruct (plot_reconstructed_cells_completes (U := example_utils)
              stack stack stack [(0%nat, []); (1%nat, [])] 0 "figure.png"
              false false example_world two_label_volume two_label_volume
              two_label_volume) as ([] & w' & Hplot);
    [exact Hread|exact Hread|exact Hread|cbn; lia|reflexivity|reflexivity
    | |done|].
  { intros [|[|z]] Hz; cbn in *; [eauto..|lia]. }
  exists w'. split; [done|].
  destruct (figure_panels (U := example_utils) _ _ _ _ _ _ _ _ _ _ Hplot)
    as (vf & Hvf & ->).
  rewrite Hread in Hvf. injection Hvf as <-. reflexivity.
Defined.

(** * The crop box *)

Lemma clamp_bounds (centroid_coord axis_extent half_window : Z) :
  0 <= centroid_coord <= axis_extent →
  0 <= half_window →
  let '(lower, upper) :=
    adjust_cropping_box_to_image_borders centroid_coord axis_extent
      half_window in
  0 <= lower ∧ lower <= centroid_coord ∧ centroid_coord <= upper
  ∧ upper <= axis_extent.
Proof. intros Hc Hw. clamp_cases; lia. Qed.

Lemma clamp_centered (centroid_coord axis_extent half_window : Z) :
  0 <= centroid_coord - half_window →
  centroid_coord + half_window <= axis_extent →
  adjust_cropping_box_to_image_borders centroid_coord axis_extent half_window
  = (centroid_coord - half_window, centroid_coord + half_window).
Proof. intros. clamp_cases; first [reflexivity | exfalso; lia]. Qed.

Section CropBox.
Context `{U : Utils}.

Lemma get_cropping_indices_box (inspection_object : InspectionObject)
    (w w' : World) (cminx cmaxx cminy cmaxy : Z) :
  get_cropping_indices inspection_object w
  = Ok ((cminx, cmaxx, cminy, cmaxy), w') →
  w' = w ∧
  ∃ cells single_plane roi,
    np_read (zstack inspection_object) w = Ok (cells, w) ∧
    cells !! plane_id inspection_object = Some single_plane ∧
    get_polygon_from_instance_segmentation single_plane
      (label_id inspection_object) = Ok roi ∧
    adjust_cropping_box_to_image_borders (centroid_x roi)
      (Np.shape0 single_plane) 200 = (cminx, cmaxx) ∧
    adjust_cropping_box_to_image_borders (centroid_y roi)
      (Np.shape1 single_plane) 200 = (cminy, cmaxy).
Proof.
  unfold get_cropping_indices.
  intros (cells & w1 & Hread & Hrest)%bind_Ok.
  pose proof Hread as [-> _]%np_read_Ok.
  apply bind_Ok in Hrest as (single_plane & w2 & [Hidx ->]%lift_Ok & Hrest).
  apply bind_Ok in Hrest as (roi & w3 & [Hroi ->]%lift_Ok & Hrest).
  apply index_nonneg_Ok in Hidx; [|lia]. rewrite Nat2Z.id in Hidx.
  destruct (adjust_cropping_box_to_image_borders (centroid_x roi) _ _)
    as [ax bx] eqn:Hx.
  destruct (adjust_cropping_box_to_image_borders (centroid_y roi) _ _)
    as [ay by'] eqn:Hy.
  injection Hrest as -> -> -> -> <-. split; [done|].
  exists cells, single_plane, roi. by rewrite Hx, Hy.
Qed.

(** Computing the crop box only reads the world. When the rounded centroid
    lies on the plane, the box lies on the plane and encloses the centroid
    on both axes; when the full window around the centroid fits on the
    plane, the centroid sits at row 200 and column 200 of the cropped
    panel, where the crosshair is drawn. *)
Theorem get_cropping_indices_on_plane (inspection_object : InspectionObject)
    (w w' : World) (cminx cmaxx cminy cmaxy : Z) :
  get_cropping_indices inspection_object w
  = Ok ((cminx, cmaxx, cminy, cmaxy), w') →
  w' = w ∧
  ∃ cells single_plane roi,
    np_read (zstack inspection_object) w = Ok (cells, w) ∧
    cells !! plane_id inspection_object = Some single_plane ∧
    get_polygon_from_instance_segmentation single_plane
      (label_id inspection_object) = Ok roi ∧
    (0 <= centroid_x roi <= Np.shape0 single_plane →
     0 <= centroid_y roi <= Np.shape1 single_plane →
     0 <= cminx ∧ cminx <= centroid_x roi ∧ centroid_x roi <= cmaxx
     ∧ cmaxx <= Np.shape0 single_plane
     ∧ 0 <= cminy ∧ cminy <= centroid_y roi ∧ centroid_y roi <= cmaxy
     ∧ cmaxy <= Np.shape1 single_plane) ∧
    (200 <= centroid_x roi → centroid_x roi + 200 <= Np.shape0 single_plane →
     200 <= centroid_y roi → centroid_y roi + 200 <= Np.shape1 single_plane →
     centroid_x roi - cminx = 200 ∧ centroid_y roi - cminy = 200
     ∧ cmaxx - cminx = 400 ∧ cmaxy - cminy = 400).
Proof.
  intros (-> & cells & single_plane & roi & Hread & Hplane & Hroi & Hx & Hy)
    %get_cropping_indices_box.
  split; [done|]. exists cells, single_plane, roi. do 3 (split; [done|]).
  split.
  - intros Hcx Hcy.
    pose proof (clamp_bounds (centroid_x roi) (Np.shape0 single_plane) 200
                  Hcx) as Hbx.
    pose proof (clamp_bounds (centroid_y roi) (Np.shape1 single_plane) 200
                  Hcy) as Hby.
    rewrite Hx in Hbx. rewrite Hy in Hby. lia.
  - intros ? ? ? ?.
    rewrite clamp_centered in Hx by lia. rewrite clamp_centered in Hy by lia.
    injection Hx as <- <-. injection Hy as <- <-. lia.
Qed.

End CropBox.

Lemma get_cropping_indices_on_plane_witness :
  get_cropping_indices (U := example_utils) (example_object None)
    example_world = Ok ((0, 3, 0, 3), example_world)
  ∧ 0 <= 0 ∧ 3 <= Np.shape0 [[3; 3; 0]; [0; 0; 0]; [0; 0; 0]]
  ∧ 3 <= Np.shape1 [[3; 3; 0]; [0; 0; 0]; [0; 0; 0]].
Proof.
  assert (get_cropping_indices (U := example_utils) (example_object None)
            example_world = Ok ((0, 3, 0, 3), example_world)) as Hbox
    by by vm_compute.
  split; [exact Hbox|].
  destruct (get_cropping_indices_on_plane (U := example_utils)
              _ _ _ _ _ _ _ Hbox)
    as (_ & cells & single_plane & roi & Hread & Hplane & Hroi & Hon & _).
  assert (np_read (zstack (example_object None)) example_world
          = Ok (two_label_volume, example_world)) as Eread by reflexivity.
  rewrite Eread in Hread. injection Hread as <-.
  injection Hplane as <-.
  injection Hroi as <-.
  destruct Hon as (? & _ & _ & ? & _ & _ & _ & ?); [by vm_compute..|].
  done.
Defined.


(** * The inspection object *)

Section Constructor.
Context `{U : Utils}.

Lemma new_InspectionObject_select (db : Database) (file area : string)
    (label_index : Z) (shown saved : bool) (w : World) :
  let cells :=
    load_zstack_as_array_from_single_planes
      (joinpath (quantified_segmentations_dir db) area) file None in
  let loaded := {| buffer := fresh (dom (heap w)); views := [] |} in
  new_InspectionObject db file area label_index shown saved w
  = match select cells label_index with
    | Ok (label, plane) =>
        Ok ({| database := db; file_id := file; area_roi_id := area;
               show := shown; save := saved; zstack := loaded;
               label_id := label; plane_id := plane |},
            {| heap := <[buffer loaded := cells]> (heap w);
               plt := plt w; stdout := stdout w |})
    | Raise e => Raise e
    end.
Proof.
  intros cells loaded.
  unfold new_InspectionObject, load_postprocessed_segmentation, np_load,
    select. fold cells.
  set (label_of := get_label_id). set (plane_of := get_plane_id).
  clearbody label_of plane_of.
  unfold np_alloc, np_read, mbind, M_bind, result_bind, lift, bind.
  cbn. rewrite lookup_insert_eq. cbn.
  destruct (label_of cells label_index) as [label|e]; [|done].
  by destruct (plane_of cells label) as [plane|e].
Qed.

Lemma select_in_range (zstack : Volume) (label_index : Z) :
  - Z.of_nat (length (labels_of zstack)) <= label_index
    < Z.of_nat (length (labels_of zstack)) →
  ∃ label plane, select zstack label_index = Ok (label, plane).
Proof.
  intros Hi.
  assert (∃ label, Py.index (labels_of zstack) label_index = Ok label)
    as [label Hidx].
  { destruct (decide (0 <= label_index)).
    - destruct (index_in_range (labels_of zstack) label_index)
        as (label & _ & ?); [lia|eauto].
    - destruct (index_negative (labels_of zstack) label_index)
        as (label & _ & ?); [lia|eauto]. }
  destruct (select_of_indexed_label _ _ _ Hidx) as (p & ? & _). eauto.
Qed.

Lemma select_out_of_range (zstack : Volume) (label_index : Z) :
  ¬ (- Z.of_nat (length (labels_of zstack)) <= label_index
     < Z.of_nat (length (labels_of zstack))) →
  select zstack label_index = Raise IndexError.
Proof.
  intros Hi. unfold select. rewrite get_label_id_labels_of.
  by rewrite index_out_of_range.
Qed.

(** The constructor loads the quantified segmentation of the area, without
    a crop box, into a buffer that the store did not hold, and draws and
    prints nothing. It returns exactly for the label indices within the
    non-zero labels, counting from either end, with the label and plane
    that the selection gives and the arguments kept as they were; for
    every other index it raises IndexError. *)
Theorem new_InspectionObject_contract (db : Database) (file area : string)
    (label_index : Z) (shown saved : bool) (w : World) :
  let cells :=
    load_zstack_as_array_from_single_planes
      (joinpath (quantified_segmentations_dir db) area) file None in
  let n := Z.of_nat (length (labels_of cells)) in
  match new_InspectionObject db file area label_index shown saved w with
  | Ok (self, w') =>
      (- n <= label_index < n)
      ∧ select cells label_index = Ok (label_id self, plane_id self)
      ∧ (buffer (zstack self) ∉ dom (heap w))
      ∧ heap w' = <[buffer (zstack self) := cells]> (heap w)
      ∧ np_read (zstack self) w' = Ok (cells, w')
      ∧ plt w' = plt w ∧ stdout w' = stdout w
      ∧ database self = db ∧ file_id self = file ∧ area_roi_id self = area
      ∧ show self = shown ∧ save self = saved
  | Raise e => e = IndexError ∧ ¬ (- n <= label_index < n)
  end.
Proof.
  intros cells n. rewrite new_InspectionObject_select. fold cells.
  destruct (decide (- n <= label_index < n)) as [Hi|Hi].
  - destruct (select_in_range cells label_index Hi) as (label & plane & ->).
    cbn. split; [done|]. split; [done|]. split; [apply is_fresh|].
    split; [done|]. split; [|done].
    unfold np_read. cbn. by rewrite lookup_insert_eq.
  - by rewrite select_out_of_range.
Qed.

(** An inspection object that can be constructed can be inspected: with a
    label index within the labels, collaborators that keep their contracts
    and, if the figure is to be saved, a plots directory that can be
    written to, the constructor returns and the 2D strategy runs to the end
    on the object it made. *)
Theorem construct_then_run (db : Database) (file area : string)
    (label_index : Z) (shown saved : bool) (w : World) :
  let cells :=
    load_zstack_as_array_from_single_planes
      (joinpath (quantified_segmentations_dir db) area) file None in
  let n := Z.of_nat (length (labels_of cells)) in
  - n <= label_index < n →
  extractor_answers → colors_cover → loader_delivers (length cells) →
  (saved = true →
   ∀ name, writable (joinpath (inspected_area_plots_dir db) name) = true) →
  ∃ self w1 w2,
    new_InspectionObject db file area label_index shown saved w
    = Ok (self, w1)
    ∧ run self w1 = Ok ((), w2).
Proof.
  intros cells n Hi Hext Hcol Hload Hpath.
  rewrite new_InspectionObject_select. fold cells.
  destruct (select_in_range cells label_index Hi) as (label & plane & Hsel).
  rewrite Hsel. eexists _, _.
  edestruct run_completes as [w2 Hrun]; [| |exact Hext|exact Hcol| | |].
  5:{ exists w2. split; [reflexivity|exact Hrun]. }
  - unfold np_read. cbn. rewrite lookup_insert_eq. reflexivity.
  - exists label_index. exact Hsel.
  - exact Hload.
  - intros Hsaved. apply (Hpath Hsaved).
Qed.

End Constructor.

Lemma construct_then_run_witness :
  ∃ (self : InspectionObject) (w1 w2 : World (U := example_utils)),
    new_InspectionObject (U := example_utils) (example_database None)
      "0001" "000" (-1) false true empty_world = Ok (self, w1)
    ∧ run self w1 = Ok ((), w2).
Proof.
  apply (construct_then_run (U := example_utils)).
  - by vm_compute.
  - apply footprint_utils_extractor_answers.
  - apply footprint_utils_colors_cover.
  - apply example_loader_delivers.
  - intros _ name. reflexivity.
Defined.

(** * What a run of the 2D strategy puts out *)

Section Output.
Context `{U : Utils}.

Lemma np_alloc_output (v : Volume) (a : ndarray) (w w' : World) :
  np_alloc v w = Ok (a, w') → plt w' = plt w ∧ stdout w' = stdout w.
Proof. by intros [= _ <-]. Qed.

Lemma artist_not_delivery (calls : list plt_call) :
  Forall is_artist calls → Forall (λ c, is_delivery c = false) calls.
Proof. intros Hcalls. eapply Forall_impl; [exact Hcalls|]. by intros []. Qed.

Lemma column_calls_drawing (col : nat) (rows : list nat)
    (shown : nat → list plt_call) :
  (∀ row, Forall is_artist (shown row)) →
  Forall (λ c, is_delivery c = false) (column_calls col rows shown).
Proof.
  intros Hshown. unfold column_calls.
  apply Forall_join, Forall_fmap, Forall_forall. intros row _. cbn.
  constructor; [done|]. apply artist_not_delivery, Hshown.
Qed.

(** What a completed run of the 2D strategy hands over. *)
Lemma run_emits (inspection_object : InspectionObject) (w w' : World) :
  run inspection_object w = Ok ((), w') →
  let filepath :=
    joinpath (inspected_area_plots_dir (database inspection_object))
      (file_id inspection_object +:+ "_"
       +:+ area_roi_id inspection_object +:+ "_"
       +:+ pretty (label_id inspection_object) +:+ "_2D.png") in
  ∃ cells box plotting_info,
    np_read (zstack inspection_object) w = Ok (cells, w) ∧
    get_cropping_indices inspection_object w = Ok (box, w) ∧
    get_plotting_info (view_of cells [box]) = Ok plotting_info ∧
    plt w'
    = plt w
      ++ [plt_figure (15, 5 * Z.of_nat (length cells)) "white";
          add_gridspec (length cells) 3]
      ++ column_calls 0 (Py.range (length cells))
           (input_panel
              (load_zstack_as_array_from_single_planes
                 (preprocessed_images_dir (database inspection_object))
                 (file_id inspection_object) (Some box)))
      ++ column_calls 1 (Py.range (length cells))
           (instance_panel
              (load_zstack_as_array_from_single_planes
                 (instance_segmentations_dir (database inspection_object))
                 (file_id inspection_object) (Some box)))
      ++ column_calls 2 (Py.range (length cells))
           (labels_panel (view_of cells [box]) plotting_info
              (plane_id inspection_object))
      ++ (if save inspection_object then [savefig filepath 300] else [])
      ++ [if show inspection_object then plt_show else plt_close] ∧
    stdout w'
    = stdout w
      ++ (if show inspection_object
          then ["Plot to inspect segmentation of label #"
                +:+ pretty (label_id inspection_object)
                +:+ " in area roi id " +:+ area_roi_id inspection_object
                +:+ " of file id #" +:+ file_id inspection_object +:+ ":"]
          else [])
      ++ (if save inspection_object
          then ["The resulting plot was successfully saved to: "
                +:+ filepath]
          else []).
Proof.
  intros Hrun filepath. unfold run in Hrun.
  apply bind_Ok in Hrun as (box & w1 & Hbox & Hrun).
  pose proof Hbox as (-> & cells & single_plane & Hcells & _)
    %get_cropping_indices_Ok.
  apply bind_Ok in Hrun as (cropped & w2 & Hcrop & Hrun).
  unfold crop_zstack, np_copy in Hcrop.
  apply bind_Ok in Hcrop as (copy & w3 & Hcopy & [= <- <-]).
  apply bind_Ok in Hcopy as (cells' & w4 & Hcells' & Halloc).
  rewrite Hcells in Hcells'. injection Hcells' as <- <-.
  pose proof (np_alloc_output _ _ _ _ Halloc) as [Hp3 Hs3].
  pose proof (heap_grows_np_alloc _ _ _ _ Halloc) as Hg3.
  apply np_alloc_fresh in Halloc as (_ & Hheap & Hviews).
  assert (∃ final, final = view_of cells [box]
                   ∧ length final = length cells
                   ∧ np_read (np_slice copy box) w3 = Ok (final, w3))
    as (final & Hfinal & Hlen & Hshown).
  { eexists. split; [reflexivity|]. split; [apply length_view_of_slice|].
    unfold np_read. cbn. by rewrite Hheap, lookup_insert_eq, Hviews. }
  apply bind_Ok in Hrun as (shown & w5 & Hread & Hrun).
  rewrite Hshown in Hread. injection Hread as <- <-.
  apply bind_Ok in Hrun as (info & w6 & [Hinfo ->]%lift_Ok & Hrun).
  apply bind_Ok in Hrun as (pre & w7 & Hpre & Hrun).
  apply bind_Ok in Hrun as (inst & w8 & Hinst & Hrun).
  pose proof (np_alloc_output _ _ _ _ Hpre) as [Hp7 Hs7].
  pose proof (np_alloc_output _ _ _ _ Hinst) as [Hp8 Hs8].
  pose proof (heap_grows_np_alloc _ _ _ _ Hpre) as Hg7.
  pose proof (heap_grows_np_alloc _ _ _ _ Hinst) as Hg8.
  apply np_alloc_read in Hpre, Hinst.
  apply bind_Ok in Hrun as ([] & w9 & Hprint & Hplot).
  assert (emits []
            (if show inspection_object
             then ["Plot to inspect segmentation of label #"
                   +:+ pretty (label_id inspection_object)
                   +:+ " in area roi id " +:+ area_roi_id inspection_object
                   +:+ " of file id #" +:+ file_id inspection_object +:+ ":"]
             else []) w8 w9) as Hheader.
  { destruct (show inspection_object); cbn in Hprint.
    - by eapply print_emits.
    - injection Hprint as <-. apply emits_refl. }
  clear Hprint.
  assert (heap_grows w8 w9) as Hg9.
  { unfold heap_grows. destruct Hheader as (_ & _ & ->). done. }
  apply plot_reconstructed_cells_emits in Hplot
    as (vpre & vinst & vfin & Hvpre & Hvinst & Hvfin & _ & Hplot).
  rewrite (np_read_weaken _ _ _ _
             (np_read_weaken _ _ _ _ Hpre Hg8) Hg9) in Hvpre.
  rewrite (np_read_weaken _ _ _ _ Hinst Hg9) in Hvinst.
  rewrite (np_read_weaken _ _ _ _
             (np_read_weaken _ _ _ _
                (np_read_weaken _ _ _ _ Hshown Hg7) Hg8) Hg9) in Hvfin.
  injection Hvpre as <-. injection Hvinst as <-. injection Hvfin as <-.
  rewrite Hlen in Hplot. rewrite Hfinal in Hinfo, Hplot.
  exists cells, box, info. do 3 (split; [done|]).
  destruct Hheader as (Hp9 & Hs9 & _). destruct Hplot as (Hp & Hs & _).
  rewrite app_nil_r in Hp9.
  split.
  - rewrite Hp, Hp9, Hp8, Hp7, Hp3. done.
  - rewrite Hs, Hs9, Hs8, Hs7, Hs3. by rewrite <- app_assoc.
Qed.

(** A completed run of the 2D strategy issues drawing calls only, then
    saves the figure once to
    [plots dir/file id_area roi id_label id_2D.png] at 300 dpi if the
    object asks for it and not otherwise, and last of all shows the figure
    if the object asks for it and closes it otherwise. It prints the
    header line when showing and the path line when saving, in that
    order, and nothing else. *)
Theorem run_output (inspection_object : InspectionObject) (w w' : World) :
  run inspection_object w = Ok ((), w') →
  let filepath :=
    joinpath (inspected_area_plots_dir (database inspection_object))
      (file_id inspection_object +:+ "_"
       +:+ area_roi_id inspection_object +:+ "_"
       +:+ pretty (label_id inspection_object) +:+ "_2D.png") in
  (∃ drawing,
     Forall (λ c, is_delivery c = false) drawing ∧
     plt w'
     = plt w ++ drawing
       ++ (if save inspection_object then [savefig filepath 300] else [])
       ++ [if show inspection_object then plt_show else plt_close]) ∧
  stdout w'
  = stdout w
    ++ (if show inspection_object
        then ["Plot to inspect segmentation of label #"
              +:+ pretty (label_id inspection_object)
              +:+ " in area roi id " +:+ area_roi_id inspection_object
              +:+ " of file id #" +:+ file_id inspection_object +:+ ":"]
        else [])
    ++ (if save inspection_object
        then ["The resulting plot was successfully saved to: " +:+ filepath]
        else []).
Proof.
  intros (cells & box & info & _ & _ & _ & Hplt & Hout)%run_emits filepath.
  split; [|exact Hout].
  exists ([plt_figure (15, 5 * Z.of_nat (length cells)) "white";
           add_gridspec (length cells) 3]
          ++ column_calls 0 (Py.range (length cells))
               (input_panel
                  (load_zstack_as_array_from_single_planes
                     (preprocessed_images_dir (database inspection_object))
                     (file_id inspection_object) (Some box)))
          ++ column_calls 1 (Py.range (length cells))
               (instance_panel
                  (load_zstack_as_array_from_single_planes
                     (instance_segmentations_dir
                        (database inspection_object))
                     (file_id inspection_object) (Some box)))
          ++ column_calls 2 (Py.range (length cells))
               (labels_panel (view_of cells [box]) info
                  (plane_id inspection_object))).
  split; [|by rewrite Hplt, <- !app_assoc].
  repeat apply Forall_app_2.
  - repeat constructor.
  - apply column_calls_drawing, input_panel_artists.
  - apply column_calls_drawing, instance_panel_artists.
  - apply column_calls_drawing, labels_panel_artists.
Qed.

(** The figure of a completed run shows, on row [r], plane [r] of the
    preprocessed images and of the instance segmentations, both loaded
    with the crop box of the inspected label, and plane [r] of the
    label stack cropped to the same box, with the outlines of the plot
    info built from that cropped stack and the crosshair on the
    representative plane. *)
Theorem run_figure (inspection_object : InspectionObject) (w w' : World) :
  run inspection_object w = Ok ((), w') →
  ∃ cells cminx cmaxx cminy cmaxy plotting_info,
    np_read (zstack inspection_object) w = Ok (cells, w) ∧
    get_cropping_indices inspection_object w
    = Ok ((cminx, cmaxx, cminy, cmaxy), w) ∧
    get_plotting_info (Np.crop cells cminx cmaxx cminy cmaxy)
    = Ok plotting_info ∧
    ∀ row col,
      content (row, col) (plt w')
      = if decide (row < length cells)%nat
        then match col with
             | 0%nat =>
                 input_panel
                   (load_zstack_as_array_from_single_planes
                      (preprocessed_images_dir (database inspection_object))
                      (file_id inspection_object)
                      (Some (cminx, cmaxx, cminy, cmaxy))) row
             | 1%nat =>
                 instance_panel
                   (load_zstack_as_array_from_single_planes
                      (instance_segmentations_dir
                         (database inspection_object))
                      (file_id inspection_object)
                      (Some (cminx, cmaxx, cminy, cmaxy))) row
             | 2%nat =>
                 labels_panel (Np.crop cells cminx cmaxx cminy cmaxy)
                   plotting_info (plane_id inspection_object) row
             | _ => []
             end
        else [].
Proof.
  intros (cells & [[[cminx cmaxx] cminy] cmaxy] & info & Hcells & Hbox
          & Hinfo & Hplt & _)%run_emits.
  exists cells, cminx, cmaxx, cminy, cmaxy, info.
  do 3 (split; [done|]). intros row col.
  unfold content. rewrite Hplt.
  rewrite foldl_app. cbn [app foldl content_step].
  do 3 rewrite foldl_app. rewrite content_tail.
  rewrite !content_column
    by first [apply NoDup_seq | apply input_panel_artists
             | apply instance_panel_artists | apply labels_panel_artists].
  cbn [snd]. rewrite <- !app_assoc. apply pick_panel.
Qed.

End Output.

Lemma run_output_witness :
  ∃ w' : World (U := example_utils),
    run (U := example_utils) (example_object None) example_world = Ok ((), w')
    ∧ stdout w'
      = ["The resulting plot was successfully saved to: "
         +:+ "plots/0001_000_3_2D.png"].
Proof.
  destruct (run_completes (U := example_utils) (example_object None)
              example_world two_label_volume) as [w' Hrun].
  - reflexivity.
  - exists 0. by vm_compute.
  - apply footprint_utils_extractor_answers.
  - apply footprint_utils_colors_cover.
  - apply example_loader_delivers.
  - intros _. by vm_compute.
  - exists w'. split; [exact Hrun|].
    destruct (run_output (U := example_utils) _ _ _ Hrun) as [_ ->].
    by vm_compute.
Defined.

Lemma run_figure_witness :
  ∃ w' : World (U := example_utils),
    run (U := example_utils) (example_object None) example_world = Ok ((), w')
    ∧ content (1%nat, 0%nat) (plt w')
      = [imshow [[3; 0; 0]; [0; 7; 7]; [0; 0; 0]] None; ylabel "plane_1"].
Proof.
  destruct (run_completes (U := example_utils) (example_object None)
              example_world two_label_volume) as [w' Hrun].
  - reflexivity.
  - exists 0. by vm_compute.
  - apply footprint_utils_extractor_answers.
  - apply footprint_utils_colors_cover.
  - apply example_loader_delivers.
  - intros _. by vm_compute.
  - exists w'. split; [exact Hrun|].
    destruct (run_figure (U := example_utils) _ _ _ Hrun)
      as (cells & cminx & cmaxx & cminy & cmaxy & info & Hcells & Hbox & _
          & ->).
    assert (np_read (zstack (example_object None)) example_world
            = Ok (two_label_volume, example_world)) as Eread by reflexivity.
    rewrite Eread in Hcells. injection Hcells as <-.
    assert (get_cropping_indices (U := example_utils) (example_object None)
              example_world = Ok ((0, 3, 0, 3), example_world)) as Ebox
      by by vm_compute.
    rewrite Ebox in Hbox. injection Hbox as <- <- <- <-.
    by vm_compute.
Defined.

(** * Strategies that raise, strategies that only read *)

Section Abort.
Context `{U : Utils}.
Context (subclass_run : string → InspectionObject → M unit).

Lemma for_strategies_raise (self : InspectionObject)
    (strategies : list strategy_class) (w : World) (e : exn) :
  for_ strategies (λ inspection_strategy,
    instantiate_and_run subclass_run inspection_strategy self) w = Raise e
  ↔ ∃ finished failing rest w1,
      strategies = finished ++ failing :: rest
      ∧ runs_each subclass_run self finished w w1
      ∧ instantiate_and_run subclass_run failing self w1 = Raise e.
Proof.
  revert w. induction strategies as [|c strategies IH]; intros w; simpl.
  - split; [done|]. intros (finished & ? & ? & ? & Hsplit & _).
    by destruct finished.
  - unfold mbind, M_bind.
    destruct (instantiate_and_run subclass_run c self w)
      as [[[] w0]|e0] eqn:Hc.
    + rewrite IH. split.
      * intros (finished & failing & rest & w1 & -> & Hfin & Hfail).
        exists (c :: finished), failing, rest, w1.
        split; [done|]. split; [by econstructor|done].
      * intros (finished & failing & rest & w1 & Hsplit & Hfin & Hfail).
        destruct finished as [|c' finished].
        -- injection Hsplit as <- <-. inversion Hfin; subst. congruence.
        -- injection Hsplit as <- ->.
           inversion Hfin as [|? ? ? w2 ? Hc' Hrest]; subst.
           rewrite Hc in Hc'. injection Hc' as <-.
           by exists finished, failing, rest, w1.
    + split.
      * intros [= ->]. exists [], c, strategies, w.
        split; [done|]. split; [constructor|done].
      * intros (finished & failing & rest & w1 & Hsplit & Hfin & Hfail).
        destruct finished as [|c' finished].
        -- injection Hsplit as <- <-. inversion Hfin; subst. congruence.
        -- injection Hsplit as <- ->.
           inversion Hfin as [|? ? ? w2 ? Hc' Hrest]; subst. congruence.
Qed.

(** [run_all_inspection_steps] raises exactly when one of the strategies
    raises after all its predecessors have completed, and then with that
    strategy's exception: it neither swallows the error nor runs the
    strategies that follow. *)
Theorem run_all_inspection_steps_raises (self : InspectionObject)
    (strategies : list strategy_class) (w : World) (e : exn) :
  inspection_strategies (database self) = Some strategies →
  run_all_inspection_steps subclass_run self w = Raise e
  ↔ ∃ finished failing rest w1,
      strategies = finished ++ failing :: rest
      ∧ runs_each subclass_run self finished w w1
      ∧ instantiate_and_run subclass_run failing self w1 = Raise e.
Proof.
  intros Hstrategies. unfold run_all_inspection_steps. rewrite Hstrategies.
  apply for_strategies_raise.
Qed.

Lemma runs_each_2D_heap_grows (self : InspectionObject)
    (strategies : list strategy_class) (w w' : World) :
  Forall (λ c, c = InspectReconstructedCells2D) strategies →
  runs_each subclass_run self strategies w w' → heap_grows w w'.
Proof.
  intros Hall Hruns.
  induction Hruns as [w|c strategies w w1 w2 Hc _ IH]; [done|].
  apply Forall_cons in Hall as [-> Hall].
  etrans; [|by apply IH]. by eapply run_heap_grows.
Qed.

(** When every strategy of the database is the 2D inspection, a completed
    [run_all_inspection_steps] has changed no array: whatever an array
    object showed before, it shows afterwards. *)
Theorem run_all_2D_keeps_arrays (self : InspectionObject)
    (strategies : list strategy_class) (w w' : World) :
  inspection_strategies (database self) = Some strategies →
  Forall (λ c, c = InspectReconstructedCells2D) strategies →
  run_all_inspection_steps subclass_run self w = Ok ((), w') →
  ∀ a cells, np_read a w = Ok (cells, w) → np_read a w' = Ok (cells, w').
Proof.
  intros Hstrategies Hall Hrun a cells Hread.
  unfold run_all_inspection_steps in Hrun. rewrite Hstrategies in Hrun.
  apply for_strategies_runs_each in Hrun.
  eapply np_read_weaken; [exact Hread|].
  by eapply runs_each_2D_heap_grows.
Qed.

End Abort.

Lemma run_all_inspection_steps_raises_witness :
  run_all_inspection_steps (U := example_utils) example_subclass_run
    (example_object
       (Some [subclass "First"; subclass "Broken";
              InspectReconstructedCells2D]))
    example_world = Raise ValueError.
Proof.
  eapply (run_all_inspection_steps_raises (U := example_utils));
    [reflexivity|].
  exists [subclass "First"], (subclass "Broken"),
    [InspectReconstructedCells2D]. eexists.
  split; [reflexivity|]. split; [|reflexivity].
  econstructor; [reflexivity|constructor].
Defined.

Lemma run_all_2D_keeps_arrays_witness :
  ∃ w' : World (U := example_utils),
    run_all_inspection_steps (U := example_utils) example_subclass_run
      (example_object (Some [InspectReconstructedCells2D])) example_world
    = Ok ((), w')
    ∧ np_read {| buffer := 1; views := [(0, 2, 0, 2)] |} w'
      = Ok ([[[3; 3]; [0; 0]]; [[3; 0]; [0; 7]]], w').
Proof.
  destruct (run_completes (U := example_utils)
              (example_object (Some [InspectReconstructedCells2D]))
              example_world two_label_volume) as [w' Hrun].
  - reflexivity.
  - exists 0. by vm_compute.
  - apply footprint_utils_extractor_answers.
  - apply footprint_utils_colors_cover.
  - apply example_loader_delivers.
  - intros _. by vm_compute.
  - assert (run_all_inspection_steps (U := example_utils)
              example_subclass_run
              (example_object (Some [InspectReconstructedCells2D]))
              example_world = Ok ((), w')) as Hall.
    { unfold run_all_inspection_steps. cbn [example_object database
        example_database inspection_strategies for_ instantiate_and_run].
      unfold mbind, M_bind. by rewrite Hrun. }
    exists w'. split; [exact Hall|].
    apply (run_all_2D_keeps_arrays (U := example_utils) example_subclass_run
             (example_object (Some [InspectReconstructedCells2D]))
             [InspectReconstructedCells2D] example_world w').
    + reflexivity.
    + by repeat constructor.
    + exact Hall.
    + reflexivity.
Defined.

(** * A destination that cannot be written *)

Section Step.
Context `{U : Utils}.

Lemma bind_step {A B} (m : M A) (k : A → M B) (w w1 : World) (a : A) :
  m w = Ok (a, w1) → (m ≫= k) w = k a w1.
Proof. intros Hm. unfold mbind, M_bind. by rewrite Hm. Qed.

End Step.

(** Replays the first step of the completed run [H] in the goal. *)
Ltac replay H :=
  let a := fresh "a" in
  let w1 := fresh "w" in
  let Hm := fresh "Hm" in
  apply bind_Ok in H as (a & w1 & Hm & H);
  rewrite (bind_step _ _ _ _ _ Hm); clear Hm; cbn beta in *.

Section Unwritable.
Context `{U : Utils}.

Lemma plot_reconstructed_cells_unwritable
    (preprocessed_zstack instance_seg_zstack final_labels_zstack : ndarray)
    (plotting_info : PlotInfo) (plane_id_of_interest : nat)
    (filepath : string) (show : bool) (w w' : World) (b : unit) :
  plot_reconstructed_cells preprocessed_zstack instance_seg_zstack
    final_labels_zstack plotting_info plane_id_of_interest filepath
    false show w = Ok (b, w') →
  writable filepath = false →
  plot_reconstructed_cells preprocessed_zstack instance_seg_zstack
    final_labels_zstack plotting_info plane_id_of_interest filepath
    true show w = Raise OSError.
Proof.
  intros Hok Hpath. unfold plot_reconstructed_cells in *.
  do 8 replay Hok.
  unfold when, plt_savefig, mbind, M_bind, raise. by rewrite Hpath.
Qed.

Lemma run_unwritable (db : Database) (file area : string) (shown : bool)
    (stack : ndarray) (label : Z) (plane : nat) (w w' : World) :
  run {| database := db; file_id := file; area_roi_id := area;
         show := shown; save := false; zstack := stack;
         label_id := label; plane_id := plane |} w = Ok ((), w') →
  writable
    (joinpath (inspected_area_plots_dir db)
       (file +:+ "_" +:+ area +:+ "_" +:+ pretty label +:+ "_2D.png"))
  = false →
  run {| database := db; file_id := file; area_roi_id := area;
         show := shown; save := true; zstack := stack;
         label_id := label; plane_id := plane |} w = Raise OSError.
Proof.
  intros Hok Hpath. unfold run, get_cropping_indices, crop_zstack in *.
  cbn [database file_id area_roi_id show save zstack label_id plane_id] in *.
  do 7 replay Hok.
  by eapply plot_reconstructed_cells_unwritable.
Qed.

(** When the figure is to be saved and its destination cannot be written,
    an inspection that would otherwise run to the end raises OSError; it
    does so whether or not the figure was to be shown, so the failed save
    is not passed over in favour of the display. *)
Theorem run_unwritable_destination (inspection_object : InspectionObject)
    (w : World) (cells : Volume) :
  np_read (zstack inspection_object) w = Ok (cells, w) →
  (∃ label_index,
     select cells label_index
     = Ok (label_id inspection_object, plane_id inspection_object)) →
  extractor_answers → colors_cover → loader_delivers (length cells) →
  save inspection_object = true →
  writable
    (joinpath (inspected_area_plots_dir (database inspection_object))
       (file_id inspection_object +:+ "_"
        +:+ area_roi_id inspection_object +:+ "_"
        +:+ pretty (label_id inspection_object) +:+ "_2D.png")) = false →
  run inspection_object w = Raise OSError.
Proof.
  destruct inspection_object as [db file area shown saved stack label plane].
  cbn [database file_id area_roi_id show save zstack label_id plane_id].
  intros Hread Hsel Hext Hcol Hload -> Hpath.
  destruct (run_completes
              {| database := db; file_id := file; area_roi_id := area;
                 show := shown; save := false; zstack := stack;
                 label_id := label; plane_id := plane |} w cells)
    as [w' Hok]; [done..|].
  by eapply run_unwritable.
Qed.

End Unwritable.

Lemma run_unwritable_destination_witness :
  run (U := example_utils)
    {| database :=
         {| quantified_segmentations_dir := "quantified";
            preprocessed_images_dir := "preprocessed";
            instance_segmentations_dir := "instances";
            inspected_area_plots_dir := "/missing";
            inspection_strategies := None |};
       file_id := "0001"; area_roi_id := "000"; show := true; save := true;
       zstack := {| buffer := 1; views := [] |};
       label_id := 3; plane_id := 0 |} example_world
  = Raise OSError.
Proof.
  apply (run_unwritable_destination (U := example_utils) _ _
           two_label_volume).
  - reflexivity.
  - exists 0. by vm_compute.
  - apply footprint_utils_extractor_answers.
  - apply footprint_utils_colors_cover.
  - apply example_loader_delivers.
  - reflexivity.
  - by vm_compute.
Defined.
